(** * CNTK 105: basic autoencoder for dimensionality reduction

    A shallow embedding of the code cells of
    [Tutorials/CNTK_105_Basic_Autoencoder_for_Dimensionality_Reduction.ipynb]:
    the two model builders, the [train_and_test] recipe, the label
    grouping and the cosine comparison of two images.

    Python floats are read as real numbers ([R]): rounding and overflow
    are not modelled, and what a library returns where the real value
    does not exist, or depends on rounding, is a parameter.  Python
    exceptions are the [Raise] branch of [result]. *)

From Stdlib Require Import Reals Lra Lia ZArith String.
From stdpp Require Import gmap list sorting.

(** ** Python exceptions *)

Inductive exn : Type :=
| ValueError (msg : string)
| AttributeError (msg : string)
| IndexError (msg : string)
| ZeroDivisionError (msg : string).

Inductive result (A : Type) : Type :=
| Ok (a : A)
| Raise (e : exn).
Arguments Ok {A} a.
Arguments Raise {A} e.

(** The exception monad of the notebook: [x ← m; k] runs [m] and, unless
    it raised, continues with [k]. *)
#[global] Instance result_ret : MRet result := @Ok.
#[global] Instance result_bind : MBind result := λ A B k m,
  match m with
  | Ok a => k a
  | Raise e => Raise e
  end.

Definition is_ValueError {A : Type} (m : result A) : Prop :=
  match m with
  | Raise (ValueError _) => True
  | _ => False
  end.

Definition raises {A : Type} (m : result A) : Prop :=
  match m with
  | Raise _ => True
  | Ok _ => False
  end.

(** ** numpy scalars *)

(** A float64 result: a real number or one of the special values. *)
Inductive npfloat : Type :=
| Finite (r : R)
| PosInf
| NegInf
| NaN.

(** [c - x] for a Python float [c]. *)
Definition rsub (c : R) (x : npfloat) : npfloat :=
  match x with
  | Finite r => Finite (c - r)
  | PosInf => NegInf
  | NegInf => PosInf
  | NaN => NaN
  end.

(** ** Vectors *)

Module Vec.

Local Open Scope R_scope.

(** [np.dot(u, v)] on two 1-D arrays of one size. *)
Fixpoint dot (u v : list R) : R :=
  match u, v with
  | x :: u', y :: v' => x * y + dot u' v'
  | _, _ => 0
  end.

(** [numpy.linalg.norm(u)]: the Euclidean norm. *)
Definition norm (u : list R) : R := sqrt (dot u u).

(** The sum of the components. *)
Definition sum (u : list R) : R := foldr Rplus 0 u.

(** Every component is [0]. *)
Definition is_zero (u : list R) : Prop := Forall (λ x, x = 0) u.

(** [np.argmax] scans for the first occurrence of the largest entry:
    [best] is the largest entry seen so far, at index [best_i]. *)
Fixpoint argmax_from (best_i : nat) (best : R) (i : nat) (a : list R) : nat :=
  match a with
  | [] => best_i
  | x :: a' =>
      if Rlt_dec best x then argmax_from i x (S i) a'
      else argmax_from best_i best (S i) a'
  end.

(** [np.argmax(a)] on the flattened array; numpy refuses an empty one. *)
Definition argmax (a : list R) : result nat :=
  match a with
  | [] => Raise (ValueError "attempt to get argmax of an empty sequence")
  | x :: a' => Ok (argmax_from 0 x 1 a')
  end.

(** A one-hot vector: [1] at one index, [0] elsewhere. *)
Definition one_hot_at (k : nat) (a : list R) : Prop :=
  (k < length a)%nat ∧
  ∀ j x, a !! j = Some x → x = if decide (j = k) then 1 else 0.

Definition one_hot (a : list R) : Prop := ∃ k, one_hot_at k a.

End Vec.

(** ** Inspector: comparing two images *)

Module Inspector.

Local Open Scope R_scope.

(** Modelled from the spec: [scipy.spatial.distance.cosine], library
    code the notebook imports and [src/] does not contain.  The spec has
    the similarity as [1 - cosine_distance] and as the
    "similarity measure between two vectors based on the cosine of the
    angle between them": the distance of [u] and [v] is one minus that
    cosine, [dot(u, v) / (norm(u) * norm(v))], read over the reals.
    Where a norm is zero there is no angle, and the spec does not say
    what is returned: that value is a parameter. *)
Class Scipy : Type := {
  cosine_of_zero_norm : npfloat;
}.

Definition cosine `{scipy : Scipy} (u v : list R) : npfloat :=
  if Req_dec_T (Vec.norm u * Vec.norm v) 0 then cosine_of_zero_norm
  else Finite (1 - Vec.dot u v / (Vec.norm u * Vec.norm v)).

(** [ndarray.size]: the number of elements. *)
Definition size (img : list R) : nat := length img.

(**
<<
def image_pair_cosine_distance(img1, img2):
    if img1.size != img2.size:
        raise ValueError("Two images need to be of same dimension")
    return 1 - spatial.distance.cosine(img1, img2)
>> *)
Definition image_pair_cosine_distance `{scipy : Scipy} (img1 img2 : list R)
    : result npfloat :=
  if decide (size img1 ≠ size img2) then
    Raise (ValueError "Two images need to be of same dimension")
  else Ok (rsub 1 (cosine img1 img2)).

End Inspector.

(** A library to run the definitions on: one that returns [nan] where a
    norm is zero. *)
Definition scipy_nan : Inspector.Scipy := {| Inspector.cosine_of_zero_norm := NaN |}.

(** ** Label grouping

<<
img_labels = [np.argmax(imglabel_raw[i,:,:]) for i in range(0, imglabel_raw.shape[0])]

from collections import defaultdict
label_dict=defaultdict(list)
for img_idx, img_label, in enumerate(img_labels):
    label_dict[img_label].append(img_idx)

randIdx = [1, 3, 9]
for i in randIdx:
    print("{0}: {1}".format(i, label_dict[i]))
>> *)

Module Labels.

(** The rows of [imglabel_raw], one flattened label vector per sample. *)
Definition img_labels (imglabel_raw : list (list R)) : result (list nat) :=
  mapM Vec.argmax imglabel_raw.

(** [enumerate(l)], counting from [start]. *)
Fixpoint enumerate_from {A : Type} (start : nat) (l : list A) : list (nat * A) :=
  match l with
  | [] => []
  | x :: l' => (start, x) :: enumerate_from (S start) l'
  end.

Definition enumerate {A : Type} (l : list A) : list (nat * A) := enumerate_from 0 l.

(** [d[k]] on a [defaultdict(list)]: a missing key is first bound to a
    fresh empty list, which is then returned. *)
Definition getitem (d : gmap nat (list nat)) (k : nat) : list nat * gmap nat (list nat) :=
  match d !! k with
  | Some l => (l, d)
  | None => ([], <[k := []]> d)
  end.

(** [d[img_label].append(img_idx)]. *)
Definition append (d : gmap nat (list nat)) (img_idx img_label : nat) : gmap nat (list nat) :=
  let '(l, d') := getitem d img_label in
  <[img_label := l ++ [img_idx]]> d'.

(** The [for img_idx, img_label in enumerate(...)] loop, from the dict [d]. *)
Definition group (d : gmap nat (list nat)) (indexed : list (nat * nat)) : gmap nat (list nat) :=
  foldl (λ d '(img_idx, img_label), append d img_idx img_label) d indexed.

Definition label_dict (img_labels : list nat) : gmap nat (list nat) :=
  group ∅ (enumerate img_labels).

(** The printing loop reads [label_dict[i]] for [i] in [randIdx]; it
    returns the printed lists and the dict the reads leave behind. *)
Definition randIdx : list nat := [1; 3; 9]%nat.

Fixpoint print_groups (d : gmap nat (list nat)) (idx : list nat)
  : list (nat * list nat) * gmap nat (list nat) :=
  match idx with
  | [] => ([], d)
  | i :: idx' =>
      let '(l, d') := getitem d i in
      let '(out, d'') := print_groups d' idx' in
      ((i, l) :: out, d'')
  end.

(** The whole cell, from the raw label rows of the minibatch. *)
Definition label_cell (imglabel_raw : list (list R))
  : result (list (nat * list nat) * gmap nat (list nat)) :=
  labels ← img_labels imglabel_raw;
  mret (print_groups (label_dict labels) randIdx).

(** The samples the dict files under class [k]. *)
Definition members (d : gmap nat (list nat)) (k : nat) : list nat := default [] (d !! k).

(** The groups of [d] partition the sample indices below [n] among the
    classes below [classes]: every index is in the group of exactly one
    class, no group holds anything else, and no group lists an index
    twice. *)
Definition partitions (d : gmap nat (list nat)) (n classes : nat) : Prop :=
  (∀ i, i < n → ∃ k, k < classes ∧ i ∈ members d k ∧ ∀ k', i ∈ members d k' → k' = k) ∧
  (∀ k i, i ∈ members d k → i < n ∧ k < classes) ∧
  (∀ k, NoDup (members d k)).

End Labels.

(** ** The computation graph of the framework *)

Module Graph.

Local Open Scope R_scope.

(** Modelled from the spec: the nonlinearities of the framework's dense
    transformations, [C.relu] (rectified-linear) and [C.sigmoid] (output
    constrained to (0,1)), which [src/] does not contain. *)
Inductive Activation : Type := relu | sigmoid.

Definition activate (a : Activation) (x : R) : R :=
  match a with
  | relu => Rmax 0 x
  | sigmoid => 1 / (1 + exp (- x))
  end.

(** An input variable, as [Input(shape)] creates it: variables are
    compared by identity, which [uid] stands for. *)
Record InputVariable : Type := { uid : nat; shape : nat }.

(** Modelled from the spec: the parameters of a dense transformation,
    which [src/] does not contain.  Each transformation owns a weight
    matrix (one row per input component) and a bias vector sized to its
    input and output dimensionality. *)
Record DenseParams : Type := { W : list (list R); b : list R }.

(** Modelled from the spec: the part of the framework's function graph
    the notebook builds, which [src/] does not contain.  A model is a
    chain of parametric transformations over an input; a dense layer
    refers to its parameters through their [slot] in the parameter store,
    which the optimizer updates in place. *)
Inductive Function : Type :=
| Var (v : InputVariable)
| Constant (value : R)
| DenseLayer (slot : nat) (shape : nat) (activation : Activation) (x : Function)
| ElementTimes (a b : Function)
| ElementDivide (a b : Function)
| Plus (a b : Function)
| Minus (a b : Function)
| Negate (a : Function)
| Log (a : Function)
| ClassificationError (output target : Function).

Coercion Var : InputVariable >-> Function.

(** Modelled from the spec: the two primitives of the framework whose
    values the notebook does not fix and [src/] does not contain, the
    random weight initializer [glorot_uniform()] (the value drawn for
    entry [(i, j)] of the weight matrix in a slot) and the
    classification-style error metric [C.classification_error] between an
    output and a target vector. *)
Class Framework : Type := {
  glorot_uniform : nat → nat → nat → R;
  classification_error : list R → list R → R;
}.

(** Modelled from the spec: the framework's elementwise binary
    operations, which [src/] does not contain; they broadcast a
    one-element operand (elementwise scaling of a vector by a constant). *)
Definition broadcast (op : R → R → R) (u v : list R) : result (list R) :=
  if decide (length u = length v) then Ok (zip_with op u v)
  else match u, v with
       | [x], _ => Ok (map (op x) v)
       | _, [y] => Ok (map (λ x, op x y) u)
       | _, _ => Raise (ValueError "operand shapes cannot be broadcast")
       end.

Definition broadcast_shape (m n : nat) : nat := if decide (m = 1%nat) then n else m.

(** Modelled from the spec: the linear part of a dense transformation,
    which [src/] does not contain: the product [x @ W] with an
    [n]-column matrix given by its rows. *)
Fixpoint times (x : list R) (W : list (list R)) (n : nat) : list R :=
  match x, W with
  | xi :: x', row :: W' => zip_with Rplus (map (Rmult xi) row) (times x' W' n)
  | _, _ => replicate n 0
  end.

(** The shape the framework infers for the output of a function. *)
Fixpoint output_shape (f : Function) : nat :=
  match f with
  | Var v => shape v
  | Constant _ => 1
  | DenseLayer _ n _ _ => n
  | ElementTimes a b | ElementDivide a b | Plus a b | Minus a b =>
      broadcast_shape (output_shape a) (output_shape b)
  | Negate a | Log a => output_shape a
  | ClassificationError _ _ => 1
  end.

(** Modelled from the spec: the framework's forward pass for one sample,
    which [src/] does not contain; a dense layer is an affine
    transformation followed by its nonlinearity.  [env] binds input
    variables (by [uid]) to vectors, [store] holds the current parameter
    values. *)
Fixpoint eval `{fw : Framework} (store : list DenseParams) (env : gmap nat (list R))
    (f : Function) : result (list R) :=
  match f with
  | Var v =>
      match env !! uid v with
      | Some x =>
          if decide (length x = shape v) then Ok x
          else Raise (ValueError "value does not match the shape of the input")
      | None => Raise (ValueError "unbound input variable")
      end
  | Constant c => Ok [c]
  | DenseLayer slot n act x =>
      v ← eval store env x;
      match store !! slot with
      | Some p =>
          if decide (length v = length (W p)) then
            Ok (map (activate act) (zip_with Rplus (times v (W p) n) (b p)))
          else Raise (ValueError "input does not match the weight matrix")
      | None => Raise (ValueError "parameter not found")
      end
  | ElementTimes a b => u ← eval store env a; v ← eval store env b; broadcast Rmult u v
  | ElementDivide a b => u ← eval store env a; v ← eval store env b; broadcast Rdiv u v
  | Plus a b => u ← eval store env a; v ← eval store env b; broadcast Rplus u v
  | Minus a b => u ← eval store env a; v ← eval store env b; broadcast Rminus u v
  | Negate a => u ← eval store env a; Ok (map Ropp u)
  | Log a => u ← eval store env a; Ok (map ln u)
  | ClassificationError o t =>
      u ← eval store env o; v ← eval store env t; Ok [classification_error u v]
  end.

(** The input variables a function depends on, without repetition. *)
Fixpoint arguments (f : Function) : list nat :=
  match f with
  | Var v => [uid v]
  | Constant _ => []
  | DenseLayer _ _ _ x => arguments x
  | ElementTimes a b | ElementDivide a b | Plus a b | Minus a b
  | ClassificationError a b => list_union (arguments a) (arguments b)
  | Negate a | Log a => arguments a
  end.

(** [f.parameters]: the slots of the dense layers of [f]. *)
Fixpoint parameters_of (f : Function) : list nat :=
  match f with
  | Var _ | Constant _ => []
  | DenseLayer slot _ _ x => parameters_of x ++ [slot]
  | ElementTimes a b | ElementDivide a b | Plus a b | Minus a b
  | ClassificationError a b => list_union (parameters_of a) (parameters_of b)
  | Negate a | Log a => parameters_of a
  end.

(** Modelled from the spec: [f.eval([x])] of the framework, which [src/]
    does not contain: evaluate a function of a single input on one
    sample. *)
Definition Function_eval `{fw : Framework} (store : list DenseParams) (f : Function)
    (x : list R) : result (list R) :=
  match arguments f with
  | [u] => eval store {[u := x]} f
  | _ => Raise (ValueError "the function does not have exactly one argument")
  end.

(** A parameter block of the shape a dense layer from [n_in] inputs to
    [n_out] outputs owns. *)
Definition has_shape (p : DenseParams) (n_in n_out : nat) : Prop :=
  length (W p) = n_in ∧ Forall (λ row, length row = n_out) (W p) ∧ length (b p) = n_out.

(** Two stores whose parameter blocks have the same shapes: what a
    learner's update leaves of the store it started from. *)
Definition same_shapes (s1 s2 : list DenseParams) : Prop :=
  Forall2 (λ p q, length (W p) = length (W q) ∧
                  Forall2 (λ r1 r2, length r1 = length r2) (W p) (W q) ∧
                  length (b p) = length (b q)) s1 s2.

(** The function's shapes agree and every dense layer finds in [store] a
    parameter block of its shape. *)
Fixpoint well_shaped (store : list DenseParams) (f : Function) : Prop :=
  match f with
  | Var _ | Constant _ => True
  | DenseLayer slot n _ x =>
      well_shaped store x ∧
      ∃ p, store !! slot = Some p ∧ has_shape p (output_shape x) n
  | ElementTimes a b | ElementDivide a b | Plus a b | Minus a b =>
      well_shaped store a ∧ well_shaped store b ∧
      (output_shape a = output_shape b ∨ output_shape a = 1%nat ∨ output_shape b = 1%nat)
  | Negate a | Log a => well_shaped store a
  | ClassificationError a b => well_shaped store a ∧ well_shaped store b
  end.

(** Every input variable of [f] is bound in [env] to a vector of its
    shape. *)
Fixpoint bound (env : gmap nat (list R)) (f : Function) : Prop :=
  match f with
  | Var v => ∃ x, env !! uid v = Some x ∧ length x = shape v
  | Constant _ => True
  | DenseLayer _ _ _ x => bound env x
  | ElementTimes a b | ElementDivide a b | Plus a b | Minus a b
  | ClassificationError a b => bound env a ∧ bound env b
  | Negate a | Log a => bound env a
  end.

(** [g] is [f] or one of the functions [f] is built on. *)
Fixpoint subfunction (g f : Function) : Prop :=
  g = f ∨
  match f with
  | Var _ | Constant _ => False
  | DenseLayer _ _ _ x => subfunction g x
  | ElementTimes a b | ElementDivide a b | Plus a b | Minus a b
  | ClassificationError a b => subfunction g a ∨ subfunction g b
  | Negate a | Log a => subfunction g a
  end.

End Graph.

(** A framework to run the definitions on: an initializer whose every
    draw is [0], and for the error metric the top-1 classification
    error, [0] when output and target have their largest entry at the
    same index and [1] otherwise. *)
Definition top1_framework : Graph.Framework := {|
  Graph.glorot_uniform slot i j := 0%R;
  Graph.classification_error output target :=
    match Vec.argmax output, Vec.argmax target with
    | Ok i, Ok j => if decide (i = j) then 0%R else 1%R
    | _, _ => 1%R
    end
|}.

(** ** Model creation *)

Module Builder.

Import Graph.
Local Open Scope R_scope.

(** The notebook's mutable state the builders touch: the counter behind
    the identity of input variables, the parameter store, and the global
    [encoded_model] ([None] is Python's [None]). *)
Record Notebook : Type := {
  next_uid : nat;
  store : list DenseParams;
  encoded_model : option Function;
}.

(** The globals as the cells assign them before any model is built:
    [encoded_model = None]. *)
Definition initial_notebook : Notebook :=
  {| next_uid := 0; store := []; encoded_model := None |}.

Definition input_dim : nat := 784.
Definition encoding_dim : nat := 32.
Definition output_dim : nat := input_dim.
Definition encoding_dims : list nat := [128; 64; 32]%nat.
Definition decoding_dims : list nat := [64; 128]%nat.

(** Modelled from the spec: [Input(shape)] of the framework, which [src/]
    does not contain: a fresh input variable. *)
Definition Input (shape : nat) (nb : Notebook) : InputVariable * Notebook :=
  ({| uid := next_uid nb; shape := shape |},
   {| next_uid := S (next_uid nb); store := store nb; encoded_model := encoded_model nb |}).

(** The parameters a new dense layer in [slot] starts from: weights drawn
    by [glorot_uniform], bias zero. *)
Definition dense_init `{fw : Framework} (slot n_in n_out : nat) : DenseParams :=
  {| W := map (λ i, map (λ j, glorot_uniform slot i j) (seq 0 n_out)) (seq 0 n_in);
     b := replicate n_out 0 |}.

(** Modelled from the spec: the framework's dense-layer primitive, which
    [src/] does not contain.  [Dense(shape, activation)(x)] under
    [default_options(init = glorot_uniform())] allocates the layer's
    parameters, whose input dimension is inferred from [x], and applies
    the layer to [x]. *)
Definition Dense `{fw : Framework} (shape : nat) (activation : Activation) (x : Function)
    (nb : Notebook) : Function * Notebook :=
  let slot := length (store nb) in
  (DenseLayer slot shape activation x,
   {| next_uid := next_uid nb;
      store := store nb ++ [dense_init slot (output_shape x) shape];
      encoded_model := encoded_model nb |}).

(**
<<
def create_model(features):
    with default_options(init = glorot_uniform()):
        # We scale the input pixels to 0-1 range
        encode = Dense(encoding_dim, activation = C.relu)(features/255.0)
        decode = Dense(input_dim, activation = C.sigmoid)(encode)

    return decode
>> *)
Definition create_model `{fw : Framework} (features : Function) (nb : Notebook)
    : Function * Notebook :=
  let '(encode, nb) := Dense encoding_dim relu (ElementDivide features (Constant 255)) nb in
  let '(decode, nb) := Dense input_dim sigmoid encode nb in
  (decode, nb).

(** [for dim in dims: x = Dense(dim, activation = C.relu)(x)]. *)
Fixpoint dense_stack `{fw : Framework} (dims : list nat) (x : Function) (nb : Notebook)
    : Function * Notebook :=
  match dims with
  | [] => (x, nb)
  | dim :: dims' =>
      let '(x, nb) := Dense dim relu x nb in
      dense_stack dims' x nb
  end.

(** [global encoded_model; encoded_model = encode]. *)
Definition set_encoded_model (encode : Function) (nb : Notebook) : Notebook :=
  {| next_uid := next_uid nb; store := store nb; encoded_model := Some encode |}.

(**
<<
encoded_model = None

def create_deep_model(features):
    with default_options(init = glorot_uniform()):
        encode = C.element_times(C.constant(1.0/255.0), features)

        for encoding_dim in encoding_dims:
            encode = Dense(encoding_dim, activation = C.relu)(encode)

        global encoded_model
        encoded_model= encode

        decode = encode
        for decoding_dim in decoding_dims:
            decode = Dense(decoding_dim, activation = C.relu)(decode)

        decode = Dense(input_dim, activation = C.sigmoid)(decode)
        return decode
>> *)
Definition create_deep_model `{fw : Framework} (features : Function) (nb : Notebook)
    : Function * Notebook :=
  let encode := ElementTimes (Constant (1 / 255)) features in
  let '(encode, nb) := dense_stack encoding_dims encode nb in
  let nb := set_encoded_model encode nb in
  let decode := encode in
  let '(decode, nb) := dense_stack decoding_dims decode nb in
  let '(decode, nb) := Dense input_dim sigmoid decode nb in
  (decode, nb).

(** The cell that retrieves the encoded vector of an image:
<<
imgA_encoded =  encoded_model.eval([imgA])
>>
    With [encoded_model] still [None] the attribute lookup fails. *)
Definition encode_image `{fw : Framework} (nb : Notebook) (imgA : list R) : result (list R) :=
  match encoded_model nb with
  | None => Raise (AttributeError "'NoneType' object has no attribute 'eval'")
  | Some encoder => Function_eval (store nb) encoder imgA
  end.

(** The notebook after a learner has updated the parameters in place:
    the new values sit where the old ones were. *)
Definition with_store (nb : Notebook) (store' : list DenseParams) : Notebook :=
  {| next_uid := next_uid nb; store := store'; encoded_model := encoded_model nb |}.

(** What a stack of dense layers on top of [x] leaves behind: a function
    built on [x] over the same inputs, and new parameters appended to the
    store. *)
Definition extends (x : Function) (nb : Notebook) (r : Function * Notebook) : Prop :=
  (well_shaped (store nb) x → well_shaped (store r.2) r.1) ∧
  (∃ more, store r.2 = store nb ++ more) ∧
  next_uid r.2 = next_uid nb ∧
  arguments r.1 = arguments x ∧
  (∀ env, bound env x → bound env r.1) ∧
  subfunction x r.1.

(** What both builders return for the input variable of the notebook: a
    well-shaped function of that variable alone whose last layer is a
    dense layer of [input_dim] sigmoid units. *)
Definition reconstructs (input : InputVariable) (nb : Notebook) (r : Function * Notebook)
    : Prop :=
  well_shaped (store r.2) r.1 ∧
  arguments r.1 = [uid input] ∧
  (∀ env, bound env input → bound env r.1) ∧
  next_uid r.2 = next_uid nb ∧
  ∃ slot x, r.1 = DenseLayer slot input_dim sigmoid x.

End Builder.

(** ** Training and testing *)

Module Training.

Import Graph Builder.
Local Open Scope R_scope.

(** [int(x)] on a float: truncation towards zero. *)
Definition py_int (x : R) : Z :=
  if Rle_dec 0 x then Int_part x else (- Int_part (- x))%Z.

(** [range(n)]. *)
Definition range (n : Z) : list nat := seq 0 (Z.to_nat n).

(** One record of the CTF text file: the [labels] and the [features]
    field. *)
Record Sample : Type := { field_labels : list R; field_features : list R }.

(** The streams [create_reader] declares over the two fields. *)
Inductive Stream : Type := labels_viz | features.

Definition stream_value (s : Stream) (x : Sample) : list R :=
  match s with
  | labels_viz => field_labels x
  | features => field_features x
  end.

(** What [next_minibatch] returns: for each mapped input variable (by
    [uid]) the values of its stream, one row per sample. *)
Record Minibatch : Type := {
  number_of_samples : nat;
  streams : gmap nat (list (list R));
}.

(** Modelled from the spec: the framework's [MinibatchSource], which
    [src/] does not contain.  A data source yields batches of a requested
    size; [read] returns the records of the next batch and the source
    advanced past them. *)
Class MinibatchSource (Rd : Type) : Type := {
  read : Rd → nat → list Sample * Rd;
}.

(** [reader.next_minibatch(minibatch_size, input_map = input_map)]. *)
Definition next_minibatch {Rd : Type} `{source : MinibatchSource Rd} (reader : Rd)
    (minibatch_size : nat) (input_map : gmap nat Stream) : Minibatch * Rd :=
  let '(samples, reader) := read reader minibatch_size in
  ({| number_of_samples := length samples;
      streams := (λ s, map (stream_value s) samples) <$> input_map |}, reader).

(** The values one sample of a minibatch binds the input variables to. *)
Definition sample_env (data : Minibatch) (k : nat) : gmap nat (list R) :=
  omap (λ rows : list (list R), rows !! k) (streams data).

(** Modelled from the spec: a source in evaluation mode ([is_training =
    False]: no shuffling, [FULL_DATA_SWEEP]), which [src/] does not
    contain.  Batches are drawn in the fixed order of the file and the
    pass ends after one traversal of the data: past the end nothing more
    is returned. *)
Record SweepReader : Type := { records : list Sample; cursor : nat }.

#[global] Instance sweep_source : MinibatchSource SweepReader := {|
  read rd n :=
    (take n (drop (cursor rd) (records rd)),
     {| records := records rd;
        cursor := Nat.min (cursor rd + n) (length (records rd)) |})
|}.

(** [create_reader(path, False, ...)] over a file holding [file]. *)
Definition create_test_reader (file : list Sample) : SweepReader :=
  {| records := file; cursor := 0 |}.

(** Modelled from the spec: a source in training mode over a file that
    holds a single record, which [src/] does not contain.  The pass is
    unbounded and shuffling one record changes nothing, so every batch
    holds the requested number of copies of the record. *)
Record SingleRecordReader : Type := { the_record : Sample; samples_drawn : nat }.

#[global] Instance single_record_source : MinibatchSource SingleRecordReader := {|
  read rd n :=
    (replicate n (the_record rd),
     {| the_record := the_record rd; samples_drawn := samples_drawn rd + n |})
|}.

(** A record to run the definitions on: a blank image, with no label
    set. *)
Definition blank_sample : Sample :=
  {| field_labels := replicate 10 0; field_features := replicate 784 0 |}.

(** Modelled from the spec: a source in training mode repeats
    indefinitely, so a batch always has the requested size. *)
Class Unbounded (Rd : Type) `{source : MinibatchSource Rd} : Prop := {
  read_full : ∀ (rd : Rd) (n : nat), length (read rd n).1 = n;
}.

(** The configuration [adam_sgd(model.parameters, lr = lr_schedule,
    momentum = momentum_as_time_constant, unit_gain = True)] records. *)
Record Learner : Type := {
  learner_parameters : list nat;
  lr_per_sample : list R;
  lr_epoch_size : Z;
  momentum_time_constant : R;
  unit_gain : bool;
}.

(** Modelled from the spec: the framework's [Trainer], which [src/] does
    not contain.  [Trainer(model, loss, label_error, learner)] takes hold
    of the parameters of the model ([parameters] reads their current
    values); [train_minibatch] computes loss and metric on a batch and
    applies one optimizer update; [test_minibatch] returns the average
    of the metric on a batch. *)
Class TrainerAPI (T : Type) : Type := {
  Trainer : Function → Function → Function → Learner → list DenseParams → T;
  parameters : T → list DenseParams;
  evaluation_function : T → Function;
  train_minibatch : T → Minibatch → T;
  test_minibatch : T → Minibatch → R * T;
  previous_minibatch_loss_average : T → R;
  previous_minibatch_evaluation_average : T → R;
  previous_minibatch_sample_count : T → nat;
}.

(** Modelled from the spec: what the spec says of the absent [Trainer].
    Evaluation runs the model without parameter updates, its value is
    a function of the evaluation criterion, the parameters and the
    batch; the classification-style error metric is an error rate
    between [0] and [1]; a training step processes the batch it is
    given. *)
Class TrainerLaws (T : Type) `{api : TrainerAPI T} : Prop := {
  test_minibatch_parameters :
    ∀ t data, parameters (test_minibatch t data).2 = parameters t;
  test_minibatch_evaluation_function :
    ∀ t data, evaluation_function (test_minibatch t data).2 = evaluation_function t;
  test_minibatch_reads :
    ∀ t t' data,
      parameters t = parameters t' →
      evaluation_function t = evaluation_function t' →
      (test_minibatch t data).1 = (test_minibatch t' data).1;
  test_minibatch_range :
    ∀ t data, 0 <= (test_minibatch t data).1 <= 1;
  train_minibatch_range :
    ∀ t data, 0 <= previous_minibatch_evaluation_average (train_minibatch t data) <= 1;
  train_minibatch_count :
    ∀ t data,
      previous_minibatch_sample_count (train_minibatch t data) = number_of_samples data;
}.

(** A trainer to run the definitions on, within the laws above: its
    learner leaves the parameters where they are, and its metric finds
    no error in any batch. *)
Record FrozenTrainer : Type := {
  frozen_parameters : list DenseParams;
  frozen_evaluation : Function;
  frozen_sample_count : nat;
}.

#[global] Instance frozen_trainer : TrainerAPI FrozenTrainer := {|
  Trainer model loss label_error learner store :=
    {| frozen_parameters := store; frozen_evaluation := label_error;
       frozen_sample_count := 0 |};
  parameters := frozen_parameters;
  evaluation_function := frozen_evaluation;
  train_minibatch t data :=
    {| frozen_parameters := frozen_parameters t;
       frozen_evaluation := frozen_evaluation t;
       frozen_sample_count := number_of_samples data |};
  test_minibatch t data := (0, t);
  previous_minibatch_loss_average t := 0;
  previous_minibatch_evaluation_average t := 0;
  previous_minibatch_sample_count := frozen_sample_count
|}.

(** Modelled from the spec: [ProgressPrinter] of [cntk.utils], which
    [src/] does not contain.  It accumulates a running average of the
    error metric across all steps and reports it at the end: each update
    adds the minibatch average weighted by the minibatch's sample
    count. *)
Record ProgressPrinter : Type := {
  loss_since_start : R;
  metric_since_start : R;
  samples_since_start : nat;
  updates_since_start : nat;
}.

(** [ProgressPrinter(0)]. *)
Definition ProgressPrinter_new (freq : nat) : ProgressPrinter :=
  {| loss_since_start := 0; metric_since_start := 0;
     samples_since_start := 0; updates_since_start := 0 |}.

(** [pp.update_with_trainer(trainer, with_metric = ...)]. *)
Definition update_with_trainer {T : Type} `{api : TrainerAPI T} (pp : ProgressPrinter)
    (trainer : T) (with_metric : bool) : ProgressPrinter :=
  let n := previous_minibatch_sample_count trainer in
  {| loss_since_start :=
       loss_since_start pp + previous_minibatch_loss_average trainer * INR n;
     metric_since_start :=
       if with_metric
       then metric_since_start pp + previous_minibatch_evaluation_average trainer * INR n
       else metric_since_start pp;
     samples_since_start := samples_since_start pp + n;
     updates_since_start := S (updates_since_start pp) |}.

(** [pp.avg_metric_since_start()]. *)
Definition avg_metric_since_start (pp : ProgressPrinter) : result R :=
  if decide (samples_since_start pp = 0%nat) then
    Raise (ZeroDivisionError "division by zero")
  else Ok (metric_since_start pp / INR (samples_since_start pp)).

(** [isFast = True]: the run mode the notebook ships with. *)
Definition isFast : bool := true.

(** *** The configuration constants of [train_and_test] *)

Definition epoch_size : Z := 30000.
Definition minibatch_size : Z := 64.
Definition num_sweeps_to_train_with (isFast : bool) : Z := if isFast then 5 else 100.
Definition num_samples_per_sweep : Z := 60000.
Definition num_minibatches_to_train (isFast : bool) : Z :=
  (num_samples_per_sweep * num_sweeps_to_train_with isFast) `div` minibatch_size.

Definition test_minibatch_size : Z := 32.
Definition num_samples : Z := 10000.
Definition num_minibatches_to_test : R := IZR num_samples / IZR test_minibatch_size.

(** [target = label/255.0]. *)
Definition target_of (label : InputVariable) : Function :=
  ElementDivide label (Constant 255).

(** [loss = -(target * C.log(model) + (1 - target) * C.log(1 - model))]. *)
Definition loss_of (model target : Function) : Function :=
  Negate (Plus (ElementTimes target (Log model))
               (ElementTimes (Minus (Constant 1) target) (Log (Minus (Constant 1) model)))).

(** [{ input : reader.streams.features, label : reader.streams.features }]. *)
Definition features_map (input label : InputVariable) : gmap nat Stream :=
  <[uid label := features]> (<[uid input := features]> ∅).

(** [lr_per_sample = [0.00003]], [epoch_size], a momentum time constant
    of [700], [unit_gain = True]. *)
Definition adam_sgd (model_parameters : list nat) : Learner :=
  {| learner_parameters := model_parameters;
     lr_per_sample := [3 / 100000];
     lr_epoch_size := epoch_size;
     momentum_time_constant := 700;
     unit_gain := true |}.

(** The state the evaluation loop carries from batch to batch. *)
Record TestState (T RdE : Type) : Type := {
  test_trainer : T;
  test_reader : RdE;
  metric_numer : R;
  metric_denom : Z;
}.
Arguments test_trainer {T RdE} _.
Arguments test_reader {T RdE} _.
Arguments metric_numer {T RdE} _.
Arguments metric_denom {T RdE} _.

Section TrainAndTest.

Context {RdT RdE T : Type}.
Context `{source_train : MinibatchSource RdT} `{source_test : MinibatchSource RdE}.
Context `{api : TrainerAPI T}.

(** The body of [for i in range(num_minibatches_to_train)]:
<<
data = reader_train.next_minibatch(minibatch_size, input_map = input_map)
trainer.train_minibatch(data)
pp.update_with_trainer(trainer, with_metric=True)
>> *)
Definition train_step (input_map : gmap nat Stream) (st : T * ProgressPrinter * RdT)
    : T * ProgressPrinter * RdT :=
  let '(trainer, pp, reader_train) := st in
  let '(data, reader_train) :=
    next_minibatch reader_train (Z.to_nat minibatch_size) input_map in
  let trainer := train_minibatch trainer data in
  let pp := update_with_trainer pp trainer true in
  (trainer, pp, reader_train).

Definition training_loop (input_map : gmap nat Stream) (st : T * ProgressPrinter * RdT)
    : T * ProgressPrinter * RdT :=
  foldl (λ st _, train_step input_map st) st (range (num_minibatches_to_train isFast)).

(** The body of [for i in range(0, int(num_minibatches_to_test))]:
<<
data = reader_test.next_minibatch(test_minibatch_size, input_map = test_input_map)
eval_error = trainer.test_minibatch(data)
metric_numer += np.abs(eval_error * test_minibatch_size)
metric_denom += test_minibatch_size
>> *)
Definition test_step (test_input_map : gmap nat Stream) (st : TestState T RdE)
    : TestState T RdE :=
  let '(data, reader_test) :=
    next_minibatch (test_reader st) (Z.to_nat test_minibatch_size) test_input_map in
  let '(eval_error, trainer) := test_minibatch (test_trainer st) data in
  {| test_trainer := trainer;
     test_reader := reader_test;
     metric_numer := metric_numer st + Rabs (eval_error * IZR test_minibatch_size);
     metric_denom := metric_denom st + test_minibatch_size |}.

Definition test_loop (test_input_map : gmap nat Stream) (st : TestState T RdE)
    : TestState T RdE :=
  foldl (λ st _, test_step test_input_map st) st (range (py_int num_minibatches_to_test)).

(** The values [eval_error] takes in the first [n] rounds of the
    evaluation loop started with [trainer] and [reader_test]. *)
Fixpoint eval_errors (n : nat) (test_input_map : gmap nat Stream) (trainer : T)
    (reader_test : RdE) : list R :=
  match n with
  | O => []
  | S n' =>
      let '(data, reader_test) :=
        next_minibatch reader_test (Z.to_nat test_minibatch_size) test_input_map in
      let '(eval_error, trainer) := test_minibatch trainer data in
      eval_error :: eval_errors n' test_input_map trainer reader_test
  end.

(** The second half of [train_and_test], from [test_minibatch_size = 32]
    to the computation of [test_error]. *)
Definition test_phase (input label : InputVariable) (trainer : T) (reader_test : RdE)
    : R * TestState T RdE :=
  let test_input_map := features_map input label in
  let st := test_loop test_input_map
              {| test_trainer := trainer; test_reader := reader_test;
                 metric_numer := 0; metric_denom := 0 |} in
  let test_error := (metric_numer st * 100) / IZR (metric_denom st) in
  (test_error, st).

(** [train_and_test(reader_train, reader_test, model_func)], returning
    [(model, train_error, test_error)] next to the state it leaves: the
    notebook with the trained parameters and the two readers. *)
Definition train_and_test (reader_train : RdT) (reader_test : RdE)
    (model_func : Function → Notebook → Function * Notebook) (nb : Notebook)
    : result (Function * R * R) * (Notebook * RdT * RdE) :=
  let '(input, nb) := Input input_dim nb in
  let '(label, nb) := Input input_dim nb in
  let '(model, nb) := model_func (Var input) nb in
  let target := target_of label in
  let loss := loss_of model target in
  let label_error := ClassificationError model target in
  let learner := adam_sgd (parameters_of model) in
  let trainer := Trainer model loss label_error learner (store nb) in
  let input_map := features_map input label in
  let pp := ProgressPrinter_new 0 in
  let '(trainer, pp, reader_train) := training_loop input_map (trainer, pp, reader_train) in
  match avg_metric_since_start pp with
  | Raise e => (Raise e, (with_store nb (parameters trainer), reader_train, reader_test))
  | Ok avg =>
      let train_error := avg * 100 in
      let '(test_error, st) := test_phase input label trainer reader_test in
      (Ok (model, train_error, test_error),
       (with_store nb (parameters (test_trainer st)), reader_train, test_reader st))
  end.

End TrainAndTest.

End Training.

(** ** The comparison cell *)

Module Cells.

Import Graph Builder Inspector Labels.
Local Open Scope R_scope.

(** What a cell shows: printed lines and plotted image pairs. *)
Inductive output : Type :=
| Message (text : string)
| Printed (text : string) (value : npfloat)
| Plotted (img1 : list R) (text1 : string) (img2 : list R) (text2 : string).

(** The run of a code cell: the outputs it produced, and whether it ran
    to its end or stopped at an exception.  No cell of the notebook
    contains a [try] statement, so an exception raised by a call ends
    the cell. *)
Record Cell (A : Type) : Type := { outputs : list output; outcome : result A }.
Arguments outputs {A} _.
Arguments outcome {A} _.

#[global] Instance cell_ret : MRet Cell := λ A a, {| outputs := []; outcome := Ok a |}.
#[global] Instance cell_bind : MBind Cell := λ A B k m,
  match outcome m with
  | Ok a => {| outputs := outputs m ++ outputs (k a); outcome := outcome (k a) |}
  | Raise e => {| outputs := outputs m; outcome := Raise e |}
  end.

Definition call {A : Type} (r : result A) : Cell A := {| outputs := []; outcome := r |}.
Definition emit (o : output) : Cell unit := {| outputs := [o]; outcome := Ok () |}.

(** [img_data[i,:,:][0]]. *)
Definition image_at (img_data : list (list R)) (i : nat) : result (list R) :=
  match img_data !! i with
  | Some img => Ok img
  | None => Raise (IndexError "index is out of bounds")
  end.

(** [img.reshape(28,28)]: the same elements, if there are 784 of them. *)
Definition reshape_28_28 (img : list R) : result (list R) :=
  if decide (length img = 784%nat) then Ok img
  else Raise (ValueError "cannot reshape array into shape (28,28)").

(** [plot_image_pair(img1, text1, img2, text2)]. *)
Definition plot_image_pair (img1 : list R) (text1 : string) (img2 : list R) (text2 : string)
    : Cell unit :=
  emit (Plotted img1 text1 img2 text2).

Definition digit_of_interest : nat := 6.

(**
<<
digit_index_list = label_dict[digit_of_interest]

if len(digit_index_list) < 2:
    print("Need at least two images to compare")
else:
    imgA = img_data[digit_index_list[0],:,:][0]
    imgB = img_data[digit_index_list[1],:,:][0]

    imgA_B_dist = image_pair_cosine_distance(imgA, imgB)
    print("Distance between two original image: {0:.3f}".format(imgA_B_dist))

    img1 = imgA.reshape(28,28)
    img2 = imgB.reshape(28,28)
    plot_image_pair(img1, text1, img2, text2)

    imgA_decoded =  model.eval([imgA])
    imgB_decoded =  model.eval([imgB])
    imgA_B_decoded_dist = image_pair_cosine_distance(imgA_decoded, imgB_decoded)

    print("Distance between two decoded image: {0:.3f}".format(imgA_B_decoded_dist))

    img1 = imgA_decoded.reshape(28,28)
    img2 = imgB_decoded.reshape(28,28)
    plot_image_pair(img1, text1, img2, text2)
>> *)
Definition compare_cell `{fw : Framework} `{scipy : Scipy} (store : list DenseParams)
    (model : Function) (img_data : list (list R)) (label_dict : gmap nat (list nat))
    : Cell unit :=
  let digit_index_list := (getitem label_dict digit_of_interest).1 in
  match digit_index_list with
  | iA :: iB :: _ =>
      imgA ← call (image_at img_data iA);
      imgB ← call (image_at img_data iB);
      imgA_B_dist ← call (image_pair_cosine_distance imgA imgB);
      emit (Printed "Distance between two original image" imgA_B_dist);;
      img1 ← call (reshape_28_28 imgA);
      img2 ← call (reshape_28_28 imgB);
      plot_image_pair img1 "Original image 1" img2 "Original image 2";;
      imgA_decoded ← call (Function_eval store model imgA);
      imgB_decoded ← call (Function_eval store model imgB);
      imgA_B_decoded_dist ← call (image_pair_cosine_distance imgA_decoded imgB_decoded);
      emit (Printed "Distance between two decoded image" imgA_B_decoded_dist);;
      img1 ← call (reshape_28_28 imgA_decoded);
      img2 ← call (reshape_28_28 imgB_decoded);
      plot_image_pair img1 "Decoded image 1" img2 "Decoded image 2"
  | _ => emit (Message "Need at least two images to compare")
  end.

End Cells.

(** ** Locating the data files

<<
data_found = False
for data_dir in [os.path.join("..", "Examples", "Image", "DataSets", "MNIST"),
                 os.path.join("data", "MNIST")]:
    train_file = os.path.join(data_dir, "Train-28x28_cntk_text.txt")
    test_file = os.path.join(data_dir, "Test-28x28_cntk_text.txt")
    if os.path.isfile(train_file) and os.path.isfile(test_file):
        data_found = True
        break

if not data_found:
    raise ValueError("Please generate the data by completing CNTK 103 Part A")
print("Data directory is {0}".format(data_dir))
>> *)

Module DataFiles.

(** [os.path.join] of relative components, on a system whose separator
    is the slash. *)
Definition path_join (a b : string) : string := (a ++ "/" ++ b)%string.

Definition train_name : string := "Train-28x28_cntk_text.txt".
Definition test_name : string := "Test-28x28_cntk_text.txt".

(** The two locations the cell searches, in its order. *)
Definition data_dirs : list string :=
  [path_join ".." (path_join "Examples" (path_join "Image" (path_join "DataSets" "MNIST")));
   path_join "data" "MNIST"].

(** The globals the loop assigns. *)
Record Located : Type := { data_dir : string; train_file : string; test_file : string }.

(** The [for] loop with its [break], over the directories still to try:
    [isfile] is [os.path.isfile] on the file system the notebook runs
    on.  It returns [data_found] and the globals as the loop leaves them
    ([last] holds them as the previous rounds left them). *)
Fixpoint search (isfile : string → bool) (dirs : list string) (last : option Located)
    : bool * option Located :=
  match dirs with
  | [] => (false, last)
  | dir :: dirs' =>
      let here := {| data_dir := dir;
                     train_file := path_join dir train_name;
                     test_file := path_join dir test_name |} in
      if isfile (train_file here) && isfile (test_file here) then (true, Some here)
      else search isfile dirs' (Some here)
  end.

(** The cell over a list of directories: the located files, or the
    [ValueError]. *)
Definition locate_in (isfile : string → bool) (dirs : list string) : result Located :=
  match search isfile dirs None with
  | (true, Some here) => Ok here
  | _ => Raise (ValueError "Please generate the data by completing CNTK 103 Part A")
  end.

(** The cell as the notebook has it. *)
Definition locate_data (isfile : string → bool) : result Located :=
  locate_in isfile data_dirs.

(** Both data files are in [dir]. *)
Definition has_data (isfile : string → bool) (dir : string) : Prop :=
  isfile (path_join dir train_name) = true ∧ isfile (path_join dir test_name) = true.

End DataFiles.

(** ** What the label of a row is *)

Module LabelSpec.

Local Open Scope R_scope.

(** [k] is the first index at which [a] has its largest entry. *)
Definition first_largest (a : list R) (k : nat) : Prop :=
  ∃ m, a !! k = Some m ∧
       (∀ j x, a !! j = Some x → x <= m) ∧
       (∀ j x, (j < k)%nat → a !! j = Some x → x < m).

End LabelSpec.

(** ** Image statistics

<<
def print_image_stats(img, text):
    print(text)
    print("Max: {0:.2f}, Median: {1:.2f}, Mean: {2:.2f}, Min: {3:.2f}".format(np.max(img),
                                                                              np.median(img),
                                                                              np.mean(img),
                                                                              np.min(img)))
>> *)

Module Stats.

Import Graph Cells.
Local Open Scope R_scope.

#[global] Instance Rle_decision (x y : R) : Decision (x <= y) := Rle_dec x y.

(** [np.max] and [np.min] of a non-empty array, from its first element. *)
Definition max_from (x : R) (l : list R) : R := foldl Rmax x l.
Definition min_from (x : R) (l : list R) : R := foldl Rmin x l.

(** [np.mean], library code [src/] does not contain: it adds the
    elements and divides by their number in floating point, and the
    rounded value it returns need not be the real mean (it can even
    leave the interval between the smallest and the largest element).
    The value it returns is a parameter. *)
Class Numpy : Type := {
  np_mean : list R → R;
}.

(** [np.median]: the middle element of the sorted array, or [np.mean]
    of the two middle elements when their number is even. *)
Definition median `{numpy : Numpy} (l : list R) : R :=
  let sorted := merge_sort Rle l in
  let n := length l in
  if Nat.even n then
    np_mean [default 0 (sorted !! (n / 2 - 1)%nat); default 0 (sorted !! (n / 2)%nat)]
  else default 0 (sorted !! (n / 2)%nat).

(** The four numbers of the printed line. *)
Record ImageStats : Type := {
  stat_max : R;
  stat_median : R;
  stat_mean : R;
  stat_min : R;
}.

(** The arguments of [format], evaluated in their order: [np.max] is the
    first, and refuses an empty array. *)
Definition image_stats `{numpy : Numpy} (img : list R) : result ImageStats :=
  match img with
  | [] =>
      Raise (ValueError
               "zero-size array to reduction operation maximum which has no identity")
  | x :: l =>
      Ok {| stat_max := max_from x l;
            stat_median := median img;
            stat_mean := np_mean img;
            stat_min := min_from x l |}
  end.

(** [print_image_stats(img, text)]: the text, then the four fields of
    the statistics line. *)
Definition print_image_stats `{numpy : Numpy} (img : list R) (text : string)
    : Cell unit :=
  emit (Message text);;
  stats ← call (image_stats img);
  emit (Printed "Max" (Finite (stat_max stats)));;
  emit (Printed "Median" (Finite (stat_median stats)));;
  emit (Printed "Mean" (Finite (stat_mean stats)));;
  emit (Printed "Min" (Finite (stat_min stats))).

(** [model.eval(orig_image)*255]. *)
Definition decode_image `{fw : Framework} (store : list DenseParams) (model : Function)
    (orig_image : list R) : result (list R) :=
  decoded ← Function_eval store model orig_image;
  Ok (map (λ p, p * 255) decoded).

Definition eval_minibatch_size : nat := 50.

(** The visualization cell, from the image data it has read; [idx] is the
    index [np.random.choice(eval_minibatch_size)] returns.
<<
orig_image = img_data[idx,:,:]
decoded_image = model.eval(orig_image)*255
print_image_stats(orig_image, "Original image statistics:")
print_image_stats(decoded_image, "Decoded image statistics:")
>> *)
Definition visualize_cell `{fw : Framework} `{numpy : Numpy} (store : list DenseParams)
    (model : Function) (img_data : list (list R)) (idx : nat) : Cell (list R * list R) :=
  orig_image ← call (image_at img_data idx);
  decoded_image ← call (decode_image store model orig_image);
  print_image_stats orig_image "Original image statistics:";;
  print_image_stats decoded_image "Decoded image statistics:";;
  mret (orig_image, decoded_image).

End Stats.

(** A library to run the definitions on: one whose [np.mean] returns the
    real mean. *)
Definition exact_mean : Stats.Numpy :=
  {| Stats.np_mean l := (Vec.sum l / INR (length l))%R |}.

(** ** Reading the images to visualize *)

Module Visualize.

Import Graph Builder Training Labels.
Local Open Scope R_scope.

Definition num_label_classes : nat := 10.
Definition viz_minibatch_size : nat := 50.

(** [data[key].value] on the dict [next_minibatch] returns, whose keys
    are the keys of the input map. *)
Definition minibatch_value (data : Minibatch) (key : nat) : list (list R) :=
  default [] (streams data !! key).

(** The first visualization cell reads a batch from [reader_eval]; the
    key of its input map is whatever the global name [input] is bound
    to, an object [key] stands for.
<<
eval_input_map = { input  : reader_eval.streams.features }
eval_data = reader_eval.next_minibatch(eval_minibatch_size,
                                  input_map = eval_input_map)
img_data = eval_data[input].value
>> *)
Definition read_eval_images {Rd : Type} `{source : MinibatchSource Rd} (reader_eval : Rd)
    (key : nat) : list (list R) * Rd :=
  let eval_input_map : gmap nat Stream := {[ key := features ]} in
  let '(eval_data, reader_eval) :=
    next_minibatch reader_eval Stats.eval_minibatch_size eval_input_map in
  (minibatch_value eval_data key, reader_eval).

(** What the later cell leaves in the globals. *)
Record VizData : Type := {
  img_data : list (list R);
  imglabel_raw : list (list R);
}.

(** The cell that reads images with their labels.  It creates
    [reader_viz] but draws the batch from [reader_eval].
<<
image = Input(input_dim)
image_label = Input(num_label_classes)

viz_input_map = {
    image  : reader_viz.streams.features,
    image_label  : reader_viz.streams.labels_viz
}

viz_data = reader_eval.next_minibatch(viz_minibatch_size,
                                  input_map = viz_input_map)

img_data   = viz_data[image].value
imglabel_raw = viz_data[image_label].value
>> *)
Definition read_viz_data {Rd : Type} `{source : MinibatchSource Rd} (reader_eval : Rd)
    (nb : Notebook) : VizData * Rd * Notebook :=
  let '(image, nb) := Input input_dim nb in
  let '(image_label, nb) := Input num_label_classes nb in
  let viz_input_map : gmap nat Stream :=
    <[uid image_label := labels_viz]> (<[uid image := features]> ∅) in
  let '(viz_data, reader_eval) :=
    next_minibatch reader_eval viz_minibatch_size viz_input_map in
  ({| img_data := minibatch_value viz_data (uid image);
      imglabel_raw := minibatch_value viz_data (uid image_label) |},
   reader_eval, nb).

(** The two cells one after the other over the test file: both batches
    come from the one reader [reader_eval]. *)
Definition read_both (file : list Sample) (key : nat) (nb : Notebook)
    : list (list R) * VizData * SweepReader :=
  let reader_eval := create_test_reader file in
  let '(first_images, reader_eval) := read_eval_images reader_eval key in
  let '(viz, reader_eval, _) := read_viz_data reader_eval nb in
  (first_images, viz, reader_eval).

End Visualize.

(** ** Comparing two different digits *)

Module Cells2.

Import Graph Builder Inspector Labels Cells.
Local Open Scope R_scope.

Definition digitA : nat := 3.
Definition digitB : nat := 8.

(** [l[0]] on a Python list. *)
Definition first_index (l : list nat) : result nat :=
  match l with
  | [] => Raise (IndexError "list index out of range")
  | i :: _ => Ok i
  end.

(**
<<
digitA_index = label_dict[digitA]
digitB_index = label_dict[digitB]

imgA = img_data[digitA_index[0],:,:][0]
imgB = img_data[digitB_index[0],:,:][0]

imgA_B_dist = image_pair_cosine_distance(imgA, imgB)
print("Distance between two original image: {0:.3f}".format(imgA_B_dist))

img1 = imgA.reshape(28,28)
img2 = imgB.reshape(28,28)
plot_image_pair(img1, text1, img2, text2)

imgA_decoded =  model.eval([imgA])
imgB_decoded =  model.eval([imgB])
imgA_B_decoded_dist = image_pair_cosine_distance(imgA_decoded, imgB_decoded)

print("Distance between two decoded image: {0:.3f}".format(imgA_B_decoded_dist))

img1 = imgA_decoded.reshape(28,28)
img2 = imgB_decoded.reshape(28,28)
plot_image_pair(img1, text1, img2, text2)
>> *)
Definition compare_digits_cell `{fw : Framework} `{scipy : Scipy}
    (store : list DenseParams) (model : Function) (img_data : list (list R)) (label_dict : gmap nat (list nat))
    : Cell unit :=
  let '(digitA_index, label_dict) := getitem label_dict digitA in
  let '(digitB_index, label_dict) := getitem label_dict digitB in
  iA ← call (first_index digitA_index);
  imgA ← call (image_at img_data iA);
  iB ← call (first_index digitB_index);
  imgB ← call (image_at img_data iB);
  imgA_B_dist ← call (image_pair_cosine_distance imgA imgB);
  emit (Printed "Distance between two original image" imgA_B_dist);;
  img1 ← call (reshape_28_28 imgA);
  img2 ← call (reshape_28_28 imgB);
  plot_image_pair img1 "Original image 1" img2 "Original image 2";;
  imgA_decoded ← call (Function_eval store model imgA);
  imgB_decoded ← call (Function_eval store model imgB);
  imgA_B_decoded_dist ← call (image_pair_cosine_distance imgA_decoded imgB_decoded);
  emit (Printed "Distance between two decoded image" imgA_B_decoded_dist);;
  img1 ← call (reshape_28_28 imgA_decoded);
  img2 ← call (reshape_28_28 imgB_decoded);
  plot_image_pair img1 "Decoded image 1" img2 "Decoded image 2".

(** The statements the two comparison cells share, from the first
    comparison of [imgA] and [imgB] on. *)
Definition compare_images `{fw : Framework} `{scipy : Scipy} (store : list DenseParams)
    (model : Function) (imgA imgB : list R) : Cell unit :=
  imgA_B_dist ← call (image_pair_cosine_distance imgA imgB);
  emit (Printed "Distance between two original image" imgA_B_dist);;
  img1 ← call (reshape_28_28 imgA);
  img2 ← call (reshape_28_28 imgB);
  plot_image_pair img1 "Original image 1" img2 "Original image 2";;
  imgA_decoded ← call (Function_eval store model imgA);
  imgB_decoded ← call (Function_eval store model imgB);
  imgA_B_decoded_dist ← call (image_pair_cosine_distance imgA_decoded imgB_decoded);
  emit (Printed "Distance between two decoded image" imgA_B_decoded_dist);;
  img1 ← call (reshape_28_28 imgA_decoded);
  img2 ← call (reshape_28_28 imgB_decoded);
  plot_image_pair img1 "Decoded image 1" img2 "Decoded image 2".

(** What a cell that ran both comparisons shows: the two distances, each
    followed by its pair of images. *)
Definition shows_both_comparisons `{scipy : Scipy} (c : Cell unit) (imgA imgB : list R)
    : Prop :=
  ∃ (s1 : npfloat) (s2 : R) (decA decB : list R),
    outcome c = Ok () ∧
    outputs c =
      [Printed "Distance between two original image" s1;
       Plotted imgA "Original image 1" imgB "Original image 2";
       Printed "Distance between two decoded image" (Finite s2);
       Plotted decA "Decoded image 1" decB "Decoded image 2"] ∧
    image_pair_cosine_distance imgA imgB = Ok s1 ∧
    0 < s2 <= 1 ∧
    length decA = 784%nat ∧ length decB = 784%nat.

End Cells2.

(** ** Trainers that keep the shapes of the parameters *)

Module Shapes.

Import Graph Builder Training.

(** Modelled from the spec: two more facts about the absent [Trainer].
    It takes hold of the parameters it is given, and an optimizer update
    changes the values of the parameters in place, not the shapes of the
    weight matrices and bias vectors the transformations own. *)
Class ShapePreserving (T : Type) `{api : TrainerAPI T} : Prop := {
  Trainer_parameters :
    ∀ model loss label_error learner store,
      parameters (Trainer model loss label_error learner store) = store;
  train_minibatch_shapes :
    ∀ t data, same_shapes (parameters t) (parameters (train_minibatch t data));
}.

End Shapes.

(** ** The steps of the training loop *)

Module Steps.

Import Graph Builder Training.
Local Open Scope R_scope.

(** The value of a loss function on each sample of a batch. *)
Definition sample_loss_values `{fw : Framework} (store : list DenseParams) (loss : Function)
    (data : Minibatch) : result (list (list R)) :=
  mapM (λ k, eval store (sample_env data k) loss) (seq 0 (number_of_samples data)).

(** Modelled from the spec: the loss side of the framework's [Trainer],
    which [src/] does not contain.  A trainer is given a loss function
    ([loss_function] reads it back) and each step computes the
    per-sample loss, "summed or averaged per sample": [per_sample] is
    that reduction of the components of the loss of one sample. *)
Class LossAPI (T : Type) `{api : TrainerAPI T} : Type := {
  loss_function : T → Function;
  per_sample : list R → R;
}.

(** Modelled from the spec: the trainer keeps the loss function it was
    given, and the loss a training step reports is the loss function
    evaluated on every sample of the batch it was handed, under the
    parameters before the update, reduced per sample and averaged over
    the batch. *)
Class LossLaws (T : Type) `{fw : Framework} `{api : TrainerAPI T} `{lossapi : !LossAPI T}
    : Prop := {
  Trainer_loss_function :
    ∀ model loss label_error learner store,
      loss_function (Trainer model loss label_error learner store) = loss;
  train_minibatch_loss_function :
    ∀ t data, loss_function (train_minibatch t data) = loss_function t;
  train_minibatch_loss :
    ∀ t data values,
      sample_loss_values (parameters t) (loss_function t) data = Ok values →
      previous_minibatch_loss_average (train_minibatch t data) =
        Vec.sum (map per_sample values) / INR (number_of_samples data);
}.

(** A trainer to run the definitions on, within the laws of the
    [Trainer]: it computes the loss of each batch, summed per sample,
    its learner leaves the parameters where they are, and its metric
    finds no error in any batch. *)
Record EvalTrainer : Type := {
  et_parameters : list DenseParams;
  et_loss : Function;
  et_evaluation : Function;
  et_loss_average : R;
  et_sample_count : nat;
}.

#[global] Instance eval_trainer `{fw : Framework} : TrainerAPI EvalTrainer := {|
  Trainer model loss label_error learner store :=
    {| et_parameters := store; et_loss := loss; et_evaluation := label_error;
       et_loss_average := 0; et_sample_count := 0 |};
  parameters := et_parameters;
  evaluation_function := et_evaluation;
  train_minibatch t data :=
    {| et_parameters := et_parameters t;
       et_loss := et_loss t;
       et_evaluation := et_evaluation t;
       et_loss_average :=
         match sample_loss_values (et_parameters t) (et_loss t) data with
         | Ok values => Vec.sum (map Vec.sum values) / INR (number_of_samples data)
         | Raise _ => 0
         end;
       et_sample_count := number_of_samples data |};
  test_minibatch t data := (0, t);
  previous_minibatch_loss_average := et_loss_average;
  previous_minibatch_evaluation_average t := 0;
  previous_minibatch_sample_count := et_sample_count
|}.

#[global] Instance eval_trainer_loss `{fw : Framework} : LossAPI EvalTrainer := {|
  loss_function := et_loss;
  per_sample := Vec.sum
|}.

Section TrainingSteps.

Context {RdT T : Type} `{source_train : MinibatchSource RdT} `{api : TrainerAPI T}.

(** The rounds of [for i in range(num_minibatches_to_train)], unrolled:
    the trainer each round starts from and the batch the round draws. *)
Fixpoint training_steps (n : nat) (input_map : gmap nat Stream) (trainer : T)
    (reader_train : RdT) : list (T * Minibatch) :=
  match n with
  | O => []
  | S n' =>
      let '(data, reader_train) :=
        next_minibatch reader_train (Z.to_nat minibatch_size) input_map in
      (trainer, data) :: training_steps n' input_map (train_minibatch trainer data) reader_train
  end.

(** The trainer after these rounds. *)
Definition trained (trainer : T) (steps : list (T * Minibatch)) : T :=
  foldl (λ _ step, train_minibatch step.1 step.2) trainer steps.

(** The progress printer after these rounds. *)
Definition progress (pp : ProgressPrinter) (steps : list (T * Minibatch)) : ProgressPrinter :=
  foldl (λ pp step, update_with_trainer pp (train_minibatch step.1 step.2) true) pp steps.

End TrainingSteps.

End Steps.

(** * Properties *)

(** ** Vectors and the cosine comparison *)

Section InspectorFacts.

Import Inspector.
Local Open Scope R_scope.
Context `{scipy : Scipy}.

Lemma dot_self_nonneg (u : list R) : 0 <= Vec.dot u u.
Proof.
  induction u as [|x u IH]; simpl; [lra|].
  pose proof (Rle_0_sqr x) as Hx. unfold Rsqr in Hx. lra.
Qed.

Lemma dot_self_zero (u : list R) : Vec.dot u u = 0 → Vec.is_zero u.
Proof.
  induction u as [|x u IH]; simpl; intros Hd; [constructor|].
  pose proof (dot_self_nonneg u) as Hu.
  pose proof (Rle_0_sqr x) as Hx. unfold Rsqr in Hx.
  assert (Hxx : x * x = 0) by lra.
  constructor.
  - destruct (Rmult_integral _ _ Hxx); assumption.
  - apply IH. lra.
Qed.

Lemma norm_sqr (u : list R) : Vec.norm u * Vec.norm u = Vec.dot u u.
Proof. unfold Vec.norm. apply sqrt_sqrt, dot_self_nonneg. Qed.

Lemma image_pair_same_size (img1 img2 : list R) :
  size img1 = size img2 →
  image_pair_cosine_distance img1 img2 = Ok (rsub 1 (cosine img1 img2)).
Proof.
  intros Hs. unfold image_pair_cosine_distance.
  destruct (decide (size img1 ≠ size img2)) as [N|_]; [contradiction|reflexivity].
Qed.

Lemma image_pair_other_size (img1 img2 : list R) :
  size img1 ≠ size img2 →
  image_pair_cosine_distance img1 img2 =
    Raise (ValueError "Two images need to be of same dimension").
Proof.
  intros Hs. unfold image_pair_cosine_distance.
  destruct (decide (size img1 ≠ size img2)) as [_|N]; [reflexivity|contradiction].
Qed.

End InspectorFacts.

(** ** The label grouping *)

Section LabelFacts.

Import Labels.
Local Open Scope R_scope.

Lemma argmax_from_le (a : list R) (best_i : nat) (best : R) (i : nat) :
  (∀ j x, a !! j = Some x → x <= best) →
  Vec.argmax_from best_i best i a = best_i.
Proof.
  revert i. induction a as [|x a IH]; intros i Ha; simpl; [reflexivity|].
  destruct (Rlt_dec best x) as [Hlt|_].
  - specialize (Ha 0%nat x eq_refl). lra.
  - apply IH. intros j y Hj. apply (Ha (S j) y Hj).
Qed.

Lemma argmax_from_hot (a : list R) (best_i i k : nat) :
  (k < length a)%nat →
  (∀ j x, a !! j = Some x → x = if decide (j = k) then 1 else 0) →
  Vec.argmax_from best_i 0 i a = (i + k)%nat.
Proof.
  revert best_i i k. induction a as [|x a IH]; intros best_i i k Hk Ha; simpl in *; [lia|].
  destruct k as [|k].
  - rewrite (Ha 0%nat x eq_refl). simpl.
    destruct (Rlt_dec 0 1) as [_|N]; [|exfalso; apply N; lra].
    rewrite argmax_from_le; [lia|].
    intros j y Hj. rewrite (Ha (S j) y Hj). simpl. lra.
  - rewrite (Ha 0%nat x eq_refl). simpl.
    destruct (Rlt_dec 0 0) as [Hlt|_]; [lra|].
    rewrite (IH best_i (S i) k); [lia|lia|].
    intros j y Hj. rewrite (Ha (S j) y Hj).
    destruct (decide (j = k)), (decide (S j = S k)); try reflexivity; lia.
Qed.

Example argmax_first_of_ties : Vec.argmax [0; 2; 1; 2] = Ok 1%nat.
Proof.
  cbn. repeat (destruct (Rlt_dec _ _); try lra). reflexivity.
Qed.

(** On a one-hot vector [np.argmax] returns the index of the hot entry. *)
Lemma argmax_one_hot (a : list R) (k : nat) :
  Vec.one_hot_at k a → Vec.argmax a = Ok k.
Proof.
  intros [Hk Ha]. destruct a as [|x a]; simpl in *; [lia|].
  f_equal. rewrite (Ha 0%nat x eq_refl). destruct k as [|k]; simpl.
  - apply argmax_from_le. intros j y Hj. rewrite (Ha (S j) y Hj). simpl. lra.
  - rewrite (argmax_from_hot a 0 1 k); [reflexivity|lia|].
    intros j y Hj. rewrite (Ha (S j) y Hj).
    destruct (decide (j = k)), (decide (S j = S k)); try reflexivity; lia.
Qed.

Lemma argmax_bound (a : list R) (k : nat) : Vec.argmax a = Ok k → (k < length a)%nat.
Proof.
  destruct a as [|x a]; simpl; [discriminate|].
  intros [= <-].
  assert (G : ∀ a best_i best i, (best_i < i)%nat →
            (Vec.argmax_from best_i best i a < i + length a)%nat).
  { clear. induction a as [|y a IH]; intros best_i best i Hi; simpl; [lia|].
    destruct (Rlt_dec best y).
    - specialize (IH i y (S i)). lia.
    - specialize (IH best_i best (S i)). lia. }
  specialize (G a 0%nat x 1%nat). lia.
Qed.

Lemma mapM_argmax (raw : list (list R)) :
  Forall (λ row, row ≠ []) raw →
  ∃ labels, img_labels raw = Ok labels ∧
            Forall2 (λ row k, Vec.argmax row = Ok k) raw labels.
Proof.
  unfold img_labels.
  induction 1 as [|row raw Hrow _ (labels & E & F)].
  - exists []. split; [reflexivity|constructor].
  - destruct row as [|x row]; [contradiction|].
    exists (Vec.argmax_from 0 x 1 row :: labels). split.
    + change (mapM Vec.argmax ((x :: row) :: raw))
        with (y ← Vec.argmax (x :: row); ys ← mapM Vec.argmax raw; mret (y :: ys)).
      rewrite E. reflexivity.
    + constructor; [reflexivity|exact F].
Qed.

Lemma members_getitem (d : gmap nat (list nat)) (k j : nat) :
  (getitem d k).1 = members d k ∧ members (getitem d k).2 j = members d j.
Proof.
  unfold getitem, members. destruct (d !! k) as [l|] eqn:E; simpl.
  - split; reflexivity.
  - split; [reflexivity|].
    destruct (decide (k = j)) as [->|N].
    + rewrite lookup_insert_eq, E. reflexivity.
    + rewrite lookup_insert_ne by exact N. reflexivity.
Qed.

Lemma members_append (d : gmap nat (list nat)) (img_idx img_label k : nat) :
  members (append d img_idx img_label) k =
    members d k ++ (if decide (img_label = k) then [img_idx] else []).
Proof.
  unfold append.
  pose proof (members_getitem d img_label img_label) as [H1 _].
  pose proof (members_getitem d img_label k) as [_ H2].
  destruct (getitem d img_label) as [l d'] eqn:G. simpl in *.
  unfold members at 1.
  destruct (decide (img_label = k)) as [->|N].
  - rewrite lookup_insert_eq. simpl. rewrite H1. reflexivity.
  - rewrite lookup_insert_ne by exact N. rewrite app_nil_r. exact H2.
Qed.

Lemma members_group (indexed : list (nat * nat)) (d : gmap nat (list nat)) (k : nat) :
  members (group d indexed) k = members d k ++ (filter (λ p, p.2 = k) indexed).*1.
Proof.
  revert d. induction indexed as [|[i l] indexed IH]; intros d; simpl.
  - rewrite app_nil_r. reflexivity.
  - unfold group in *. simpl. rewrite IH, members_append.
    rewrite filter_cons. simpl.
    destruct (decide (l = k)); simpl; rewrite <- app_assoc; reflexivity.
Qed.

Lemma enumerate_from_lookup {A : Type} (l : list A) (start i : nat) (x : A) :
  (i, x) ∈ enumerate_from start l ↔ (start <= i)%nat ∧ l !! (i - start)%nat = Some x.
Proof.
  revert start. induction l as [|y l IH]; intros start; simpl.
  - split; [intros Hin; inversion Hin|intros [_ Hl]; discriminate].
  - rewrite elem_of_cons, IH. split.
    + intros [[= -> ->]|[Hle Hl]].
      * split; [lia|]. replace (start - start)%nat with 0%nat by lia. reflexivity.
      * split; [lia|]. replace (i - start)%nat with (S (i - S start)) by lia. exact Hl.
    + intros [Hle Hl]. destruct (decide (i = start)) as [->|N].
      * left. replace (start - start)%nat with 0%nat in Hl by lia.
        simpl in Hl. congruence.
      * right. split; [lia|].
        replace (i - start)%nat with (S (i - S start)) in Hl by lia. exact Hl.
Qed.

Lemma enumerate_from_fst {A : Type} (l : list A) (start : nat) :
  (enumerate_from start l).*1 = seq start (length l).
Proof.
  revert start. induction l as [|y l IH]; intros start; simpl; [reflexivity|].
  rewrite IH. reflexivity.
Qed.

Example label_dict_of_three :
  label_dict [1; 0; 1]%nat !! 1%nat = Some [0; 2]%nat ∧
  label_dict [1; 0; 1]%nat !! 0%nat = Some [1]%nat ∧
  label_dict [1; 0; 1]%nat !! 6%nat = None ∧
  (print_groups (label_dict [1; 0; 1]%nat) randIdx).1 =
    [(1, [0; 2]); (3, []); (9, [])]%nat.
Proof. repeat split; vm_compute; reflexivity. Qed.

(** The group of class [k] holds, in increasing order, the indices of
    the samples labelled [k]. *)
Lemma members_label_dict (labels : list nat) (k : nat) :
  members (label_dict labels) k = (filter (λ p, p.2 = k) (enumerate labels)).*1.
Proof.
  unfold label_dict. rewrite members_group. unfold members at 1.
  rewrite lookup_empty. reflexivity.
Qed.

Lemma elem_of_members_label_dict (labels : list nat) (i k : nat) :
  i ∈ members (label_dict labels) k ↔ labels !! i = Some k.
Proof.
  rewrite members_label_dict, list_elem_of_fmap. split.
  - intros ([i' k'] & -> & Hin). apply list_elem_of_filter in Hin as [Hk Hin].
    simpl in *. subst k'. apply enumerate_from_lookup in Hin as [_ Hl].
    rewrite Nat.sub_0_r in Hl. exact Hl.
  - intros Hl. exists (i, k). split; [reflexivity|].
    apply list_elem_of_filter. split; [reflexivity|].
    apply enumerate_from_lookup. rewrite Nat.sub_0_r. split; [lia|exact Hl].
Qed.

Lemma NoDup_members_label_dict (labels : list nat) (k : nat) :
  NoDup (members (label_dict labels) k).
Proof.
  rewrite members_label_dict.
  assert (Hnd : NoDup (enumerate labels).*1).
  { unfold enumerate. rewrite enumerate_from_fst. apply NoDup_seq. }
  revert Hnd. generalize (enumerate labels). intros l.
  induction l as [|[i j] l IH]; simpl; intros Hnd; [constructor|].
  apply NoDup_cons in Hnd as [Hi Hnd].
  rewrite filter_cons. simpl. destruct (decide (j = k)); simpl; [|auto].
  apply NoDup_cons. split; [|auto].
  intros Hin. apply Hi. apply list_elem_of_fmap in Hin as (p & -> & Hp).
  apply list_elem_of_filter in Hp as [_ Hp].
  apply list_elem_of_fmap. exists p. split; [reflexivity|exact Hp].
Qed.

Lemma members_print_groups (idx : list nat) (d : gmap nat (list nat)) (k : nat) :
  members (print_groups d idx).2 k = members d k.
Proof.
  revert d. induction idx as [|i idx IH]; intros d; simpl; [reflexivity|].
  pose proof (members_getitem d i k) as [_ Hk].
  destruct (getitem d i) as [l d'] eqn:G.
  specialize (IH d'). destruct (print_groups d' idx) as [out d''] eqn:P.
  simpl in *. rewrite IH. exact Hk.
Qed.

Lemma label_dict_partitions (labels : list nat) (n classes : nat) :
  length labels = n →
  Forall (λ k, (k < classes)%nat) labels →
  partitions (label_dict labels) n classes.
Proof.
  intros Hn Hc. split; [|split].
  - intros i Hi.
    assert (is_Some (labels !! i)) as [k Hk] by (apply lookup_lt_is_Some; lia).
    exists k. split; [|split].
    + apply (Forall_lookup_1 _ _ _ _ Hc Hk).
    + apply elem_of_members_label_dict. exact Hk.
    + intros k' Hk'. apply elem_of_members_label_dict in Hk'. congruence.
  - intros k i Hin. apply elem_of_members_label_dict in Hin. split.
    + apply lookup_lt_Some in Hin. lia.
    + apply (Forall_lookup_1 _ _ _ _ Hc Hin).
  - intros k. apply NoDup_members_label_dict.
Qed.

Lemma partitions_ext (d d' : gmap nat (list nat)) (n classes : nat) :
  (∀ k, members d' k = members d k) → partitions d n classes → partitions d' n classes.
Proof.
  intros E (P1 & P2 & P3). split; [|split].
  - intros i Hi. destruct (P1 i Hi) as (k & Hk & Hin & Hu).
    exists k. rewrite E. split; [exact Hk|split; [exact Hin|]].
    intros k'. rewrite E. apply Hu.
  - intros k i Hin. rewrite E in Hin. apply (P2 _ _ Hin).
  - intros k. rewrite E. apply P3.
Qed.

(** C8: for a batch of 50 samples whose label vectors are one-hot over
    10 classes, the cell builds the label list and the dict without an
    exception, and the groups of the dict (as the grouping loop leaves
    it, and as the printing loop leaves it) partition the 50 sample
    indices among the 10 classes: every index is in exactly one group (the
    group of its hot entry), the groups hold nothing else, and no group
    repeats an index. *)
Theorem label_grouping_partitions (imglabel_raw : list (list R)) :
  length imglabel_raw = 50%nat →
  Forall (λ row, length row = 10%nat ∧ Vec.one_hot row) imglabel_raw →
  ∃ labels out d,
    img_labels imglabel_raw = Ok labels ∧
    label_cell imglabel_raw = Ok (out, d) ∧
    partitions (label_dict labels) 50 10 ∧
    partitions d 50 10 ∧
    (∀ i row k, imglabel_raw !! i = Some row → Vec.one_hot_at k row →
                i ∈ members (label_dict labels) k ∧ i ∈ members d k).
Proof.
  intros Hlen Hrows.
  destruct (mapM_argmax imglabel_raw) as (labels & E & F).
  { eapply Forall_impl; [exact Hrows|]. intros row [Hl _] ->. discriminate. }
  assert (Hll : length labels = 50%nat).
  { rewrite <- (Forall2_length _ _ _ F). exact Hlen. }
  assert (Hc : Forall (λ k, (k < 10)%nat) labels).
  { apply Forall_forall. intros k Hk.
    apply list_elem_of_lookup in Hk as [i Hi].
    destruct (Forall2_lookup_r _ _ _ _ _ F Hi) as (row & Hrow & Ha).
    destruct (Forall_lookup_1 _ _ _ _ Hrows Hrow) as [H10 _].
    apply argmax_bound in Ha. lia. }
  pose proof (label_dict_partitions labels 50 10 Hll Hc) as HP.
  destruct (print_groups (label_dict labels) randIdx) as [out d] eqn:P.
  assert (Hd : ∀ k, members d k = members (label_dict labels) k).
  { intros k. pose proof (members_print_groups randIdx (label_dict labels) k) as M.
    rewrite P in M. exact M. }
  exists labels, out, d. split; [exact E|]. split.
  { unfold label_cell. rewrite E.
    change (Ok (print_groups (label_dict labels) randIdx) = Ok (out, d)).
    rewrite P. reflexivity. }
  split; [exact HP|]. split; [apply (partitions_ext _ _ _ _ Hd HP)|].
  intros i row k Hrow Hhot. rewrite Hd.
  assert (Hin : i ∈ members (label_dict labels) k); [|split; exact Hin].
  apply elem_of_members_label_dict.
  destruct (Forall2_lookup_l _ _ _ _ _ F Hrow) as (k' & Hk' & Ha).
  rewrite (argmax_one_hot row k Hhot) in Ha. congruence.
Qed.

(** A batch of 50 samples of the digit [0]. *)
Lemma label_grouping_partitions_witness :
  let raw := replicate 50 [1; 0; 0; 0; 0; 0; 0; 0; 0; 0]%R in
  length raw = 50%nat ∧
  Forall (λ row, length row = 10%nat ∧ Vec.one_hot row) raw ∧
  ∃ labels out d,
    img_labels raw = Ok labels ∧
    label_cell raw = Ok (out, d) ∧
    partitions (label_dict labels) 50 10 ∧
    partitions d 50 10 ∧
    (∀ i row k, raw !! i = Some row → Vec.one_hot_at k row →
                i ∈ members (label_dict labels) k ∧ i ∈ members d k).
Proof.
  intros raw.
  assert (Hlen : length raw = 50%nat) by reflexivity.
  assert (Hrows : Forall (λ row, length row = 10%nat ∧ Vec.one_hot row) raw).
  { apply Forall_replicate. split; [reflexivity|].
    exists 0%nat. split; [simpl; lia|].
    intros j x Hj.
    do 10 (destruct j as [|j]; [simpl in Hj; injection Hj as <-; reflexivity|]).
    discriminate. }
  split; [exact Hlen|]. split; [exact Hrows|].
  exact (label_grouping_partitions raw Hlen Hrows).
Defined.

End LabelFacts.

(** ** The forward pass *)

Section GraphFacts.

Import Graph.
Local Open Scope R_scope.
Context `{fw : Framework}.

Lemma times_length (x : list R) (W : list (list R)) (n : nat) :
  Forall (λ row, length row = n) W → length (times x W n) = n.
Proof.
  intros HW. revert x. induction HW as [|row W Hrow _ IH]; intros x.
  - destruct x; simpl; apply length_replicate.
  - destruct x as [|xi x]; simpl; [apply length_replicate|].
    rewrite length_zip_with, length_map, IH, Hrow. lia.
Qed.

Lemma broadcast_same (op : R → R → R) (u v : list R) :
  length u = length v → broadcast op u v = Ok (zip_with op u v).
Proof.
  intros E. unfold broadcast.
  destruct (decide (length u = length v)); [reflexivity|contradiction].
Qed.

Lemma broadcast_scalar_l (op : R → R → R) (x : R) (v : list R) :
  length v ≠ 1%nat → broadcast op [x] v = Ok (map (op x) v).
Proof.
  intros N. unfold broadcast.
  destruct (decide (length [x] = length v)) as [E|_]; [|reflexivity].
  simpl in E. congruence.
Qed.

Lemma broadcast_scalar_r (op : R → R → R) (u : list R) (y : R) :
  length u ≠ 1%nat → broadcast op u [y] = Ok (map (λ x, op x y) u).
Proof.
  intros N. unfold broadcast.
  destruct (decide (length u = length [y])) as [E|_]; [simpl in E; congruence|].
  destruct u as [|x [|x' u]]; simpl in *; [reflexivity|congruence|reflexivity].
Qed.

Lemma broadcast_length (op : R → R → R) (u v : list R) :
  length u = length v ∨ length u = 1%nat ∨ length v = 1%nat →
  ∃ w, broadcast op u v = Ok w ∧ length w = broadcast_shape (length u) (length v).
Proof.
  intros Hc. unfold broadcast_shape.
  destruct (decide (length u = length v)) as [E|N].
  - exists (zip_with op u v). split; [apply broadcast_same, E|].
    rewrite length_zip_with. destruct (decide (length u = 1%nat)); lia.
  - destruct (decide (length u = 1%nat)) as [E1|N1].
    + destruct u as [|x [|x' u]]; simpl in E1; try lia.
      exists (map (op x) v). split; [apply broadcast_scalar_l; simpl in N; lia|].
      apply length_map.
    + assert (E2 : length v = 1%nat) by (destruct Hc as [?|[?|?]]; [contradiction..|assumption]).
      destruct v as [|y [|y' v]]; simpl in E2; try lia.
      exists (map (λ x, op x y) u). split; [apply broadcast_scalar_r, N1|].
      apply length_map.
Qed.

(** On a well-shaped graph whose inputs are bound the forward pass
    succeeds, and its value has the inferred shape. *)
Lemma eval_well_shaped (store : list DenseParams) (env : gmap nat (list R)) (f : Function) :
  well_shaped store f → bound env f →
  ∃ v, eval store env f = Ok v ∧ length v = output_shape f.
Proof.
  induction f as [v|c|slot n act x IH|a IHa b0 IHb|a IHa b0 IHb|a IHa b0 IHb
                  |a IHa b0 IHb|a IHa|a IHa|a IHa b0 IHb]; simpl; intros Hw Hb.
  - destruct Hb as (x & Hx & Hl). exists x. rewrite Hx.
    destruct (decide (length x = shape v)); [split; [reflexivity|assumption]|contradiction].
  - exists [c]. split; reflexivity.
  - destruct Hw as (Hw & p & Hp & Hrows & Hcols & Hbias).
    destruct (IH Hw Hb) as (v & Ev & Hl).
    exists (map (activate act) (zip_with Rplus (times v (W p) n) (b p))). split.
    + rewrite Ev. simpl. rewrite Hp.
      destruct (decide (length v = length (W p))); [reflexivity|congruence].
    + rewrite length_map, length_zip_with, times_length, Hbias by exact Hcols. lia.
  - destruct Hw as (Hwa & Hwb & Hc), Hb as (Hba & Hbb).
    destruct (IHa Hwa Hba) as (u & Eu & Lu), (IHb Hwb Hbb) as (v & Ev & Lv).
    rewrite Eu, Ev. simpl. rewrite <- Lu, <- Lv in *. apply broadcast_length, Hc.
  - destruct Hw as (Hwa & Hwb & Hc), Hb as (Hba & Hbb).
    destruct (IHa Hwa Hba) as (u & Eu & Lu), (IHb Hwb Hbb) as (v & Ev & Lv).
    rewrite Eu, Ev. simpl. rewrite <- Lu, <- Lv in *. apply broadcast_length, Hc.
  - destruct Hw as (Hwa & Hwb & Hc), Hb as (Hba & Hbb).
    destruct (IHa Hwa Hba) as (u & Eu & Lu), (IHb Hwb Hbb) as (v & Ev & Lv).
    rewrite Eu, Ev. simpl. rewrite <- Lu, <- Lv in *. apply broadcast_length, Hc.
  - destruct Hw as (Hwa & Hwb & Hc), Hb as (Hba & Hbb).
    destruct (IHa Hwa Hba) as (u & Eu & Lu), (IHb Hwb Hbb) as (v & Ev & Lv).
    rewrite Eu, Ev. simpl. rewrite <- Lu, <- Lv in *. apply broadcast_length, Hc.
  - destruct (IHa Hw Hb) as (u & Eu & Lu). rewrite Eu. simpl.
    exists (map Ropp u). split; [reflexivity|]. rewrite length_map. exact Lu.
  - destruct (IHa Hw Hb) as (u & Eu & Lu). rewrite Eu. simpl.
    exists (map ln u). split; [reflexivity|]. rewrite length_map. exact Lu.
  - destruct Hw as (Hwa & Hwb), Hb as (Hba & Hbb).
    destruct (IHa Hwa Hba) as (u & Eu & Lu), (IHb Hwb Hbb) as (v & Ev & Lv).
    rewrite Eu, Ev. simpl. eexists. split; reflexivity.
Qed.

Lemma times_length_eq (x1 x2 : list R) (W : list (list R)) (n : nat) :
  length x1 = length x2 → length (times x1 W n) = length (times x2 W n).
Proof.
  revert x2 W. induction x1 as [|a x1 IH]; intros [|c x2] W Hl; try discriminate;
    [reflexivity|].
  destruct W as [|row W]; cbn [times]; [reflexivity|].
  rewrite !length_zip_with, !length_map. f_equal. apply IH. cbn in Hl. lia.
Qed.

Lemma broadcast_Ok_length (op : R → R → R) (u v w : list R) :
  broadcast op u v = Ok w →
  length w = if decide (length u = length v) then length u
             else if decide (length u = 1%nat) then length v else length u.
Proof.
  unfold broadcast. destruct (decide (length u = length v)) as [E|N].
  - intros [= <-]. rewrite length_zip_with. lia.
  - destruct u as [|x [|x' u]], v as [|y [|y' v]]; cbn in *; try congruence;
      intros [= <-]; cbn; rewrite ?length_map; reflexivity.
Qed.

(** The size of the value of a function depends on the function and the
    parameters, not on the values its inputs are bound to. *)
Lemma eval_length_fixed (store : list DenseParams) (env1 env2 : gmap nat (list R))
    (f : Function) (v1 v2 : list R) :
  eval store env1 f = Ok v1 → eval store env2 f = Ok v2 → length v1 = length v2.
Proof.
  revert v1 v2.
  induction f as [v|c|slot n act x IH|a IHa b0 IHb|a IHa b0 IHb|a IHa b0 IHb
                  |a IHa b0 IHb|a IHa|a IHa|a IHa b0 IHb]; cbn [eval]; intros v1 v2.
  - destruct (env1 !! uid v) as [x1|]; [|discriminate].
    destruct (decide (length x1 = shape v)); [|discriminate].
    destruct (env2 !! uid v) as [x2|]; [|discriminate].
    destruct (decide (length x2 = shape v)); [|discriminate].
    intros [= <-] [= <-]. congruence.
  - intros [= <-] [= <-]. reflexivity.
  - destruct (eval store env1 x) as [u1|]; cbn [mbind result_bind]; [|discriminate].
    destruct (eval store env2 x) as [u2|]; cbn [mbind result_bind]; [|discriminate].
    destruct (store !! slot) as [p|]; [|discriminate].
    destruct (decide (length u1 = length (W p))); [|discriminate].
    destruct (decide (length u2 = length (W p))); [|discriminate].
    intros [= <-] [= <-]. rewrite !length_map, !length_zip_with.
    rewrite (times_length_eq u1 u2) by congruence. reflexivity.
  - destruct (eval store env1 a) as [a1|]; cbn [mbind result_bind]; [|discriminate].
    destruct (eval store env2 a) as [a2|]; cbn [mbind result_bind]; [|discriminate].
    destruct (eval store env1 b0) as [b1|]; cbn [mbind result_bind]; [|discriminate].
    destruct (eval store env2 b0) as [b2|]; cbn [mbind result_bind]; [|discriminate].
    intros E1 E2. apply broadcast_Ok_length in E1, E2.
    rewrite E1, E2, (IHa a1 a2 eq_refl eq_refl), (IHb b1 b2 eq_refl eq_refl). reflexivity.
  - destruct (eval store env1 a) as [a1|]; cbn [mbind result_bind]; [|discriminate].
    destruct (eval store env2 a) as [a2|]; cbn [mbind result_bind]; [|discriminate].
    destruct (eval store env1 b0) as [b1|]; cbn [mbind result_bind]; [|discriminate].
    destruct (eval store env2 b0) as [b2|]; cbn [mbind result_bind]; [|discriminate].
    intros E1 E2. apply broadcast_Ok_length in E1, E2.
    rewrite E1, E2, (IHa a1 a2 eq_refl eq_refl), (IHb b1 b2 eq_refl eq_refl). reflexivity.
  - destruct (eval store env1 a) as [a1|]; cbn [mbind result_bind]; [|discriminate].
    destruct (eval store env2 a) as [a2|]; cbn [mbind result_bind]; [|discriminate].
    destruct (eval store env1 b0) as [b1|]; cbn [mbind result_bind]; [|discriminate].
    destruct (eval store env2 b0) as [b2|]; cbn [mbind result_bind]; [|discriminate].
    intros E1 E2. apply broadcast_Ok_length in E1, E2.
    rewrite E1, E2, (IHa a1 a2 eq_refl eq_refl), (IHb b1 b2 eq_refl eq_refl). reflexivity.
  - destruct (eval store env1 a) as [a1|]; cbn [mbind result_bind]; [|discriminate].
    destruct (eval store env2 a) as [a2|]; cbn [mbind result_bind]; [|discriminate].
    destruct (eval store env1 b0) as [b1|]; cbn [mbind result_bind]; [|discriminate].
    destruct (eval store env2 b0) as [b2|]; cbn [mbind result_bind]; [|discriminate].
    intros E1 E2. apply broadcast_Ok_length in E1, E2.
    rewrite E1, E2, (IHa a1 a2 eq_refl eq_refl), (IHb b1 b2 eq_refl eq_refl). reflexivity.
  - destruct (eval store env1 a) as [a1|]; cbn [mbind result_bind]; [|discriminate].
    destruct (eval store env2 a) as [a2|]; cbn [mbind result_bind]; [|discriminate].
    intros [= <-] [= <-]. rewrite !length_map. apply IHa; reflexivity.
  - destruct (eval store env1 a) as [a1|]; cbn [mbind result_bind]; [|discriminate].
    destruct (eval store env2 a) as [a2|]; cbn [mbind result_bind]; [|discriminate].
    intros [= <-] [= <-]. rewrite !length_map. apply IHa; reflexivity.
  - destruct (eval store env1 a) as [a1|]; cbn [mbind result_bind]; [|discriminate].
    destruct (eval store env1 b0) as [b1|]; cbn [mbind result_bind]; [|discriminate].
    destruct (eval store env2 a) as [a2|]; cbn [mbind result_bind]; [|discriminate].
    destruct (eval store env2 b0) as [b2|]; cbn [mbind result_bind]; [|discriminate].
    intros [= <-] [= <-]. reflexivity.
Qed.

(** The forward pass raises its own errors, never the one of the
    similarity computation. *)
Lemma eval_raises_other (store : list DenseParams) (env : gmap nat (list R))
    (f : Function) (e : exn) :
  eval store env f = Raise e →
  e ≠ ValueError "Two images need to be of same dimension".
Proof.
  revert e.
  induction f as [v|c|slot n act x IH|a IHa b0 IHb|a IHa b0 IHb|a IHa b0 IHb
                  |a IHa b0 IHb|a IHa|a IHa|a IHa b0 IHb]; cbn [eval]; intros e.
  - destruct (env !! uid v) as [x|]; [|intros [= <-]; discriminate].
    destruct (decide (length x = shape v)); [discriminate|intros [= <-]; discriminate].
  - discriminate.
  - destruct (eval store env x) as [u|e0]; cbn [mbind result_bind];
      [|intros [= <-]; apply IH; reflexivity].
    destruct (store !! slot) as [p|]; [|intros [= <-]; discriminate].
    destruct (decide (length u = length (W p))); [discriminate|intros [= <-]; discriminate].
  - destruct (eval store env a) as [u|e0]; cbn [mbind result_bind];
      [|intros [= <-]; apply IHa; reflexivity].
    destruct (eval store env b0) as [w|e0]; cbn [mbind result_bind];
      [|intros [= <-]; apply IHb; reflexivity].
    unfold broadcast. destruct (decide (length u = length w)); [discriminate|].
    destruct u as [|? [|? ?]], w as [|? [|? ?]]; try discriminate; intros [= <-]; discriminate.
  - destruct (eval store env a) as [u|e0]; cbn [mbind result_bind];
      [|intros [= <-]; apply IHa; reflexivity].
    destruct (eval store env b0) as [w|e0]; cbn [mbind result_bind];
      [|intros [= <-]; apply IHb; reflexivity].
    unfold broadcast. destruct (decide (length u = length w)); [discriminate|].
    destruct u as [|? [|? ?]], w as [|? [|? ?]]; try discriminate; intros [= <-]; discriminate.
  - destruct (eval store env a) as [u|e0]; cbn [mbind result_bind];
      [|intros [= <-]; apply IHa; reflexivity].
    destruct (eval store env b0) as [w|e0]; cbn [mbind result_bind];
      [|intros [= <-]; apply IHb; reflexivity].
    unfold broadcast. destruct (decide (length u = length w)); [discriminate|].
    destruct u as [|? [|? ?]], w as [|? [|? ?]]; try discriminate; intros [= <-]; discriminate.
  - destruct (eval store env a) as [u|e0]; cbn [mbind result_bind];
      [|intros [= <-]; apply IHa; reflexivity].
    destruct (eval store env b0) as [w|e0]; cbn [mbind result_bind];
      [|intros [= <-]; apply IHb; reflexivity].
    unfold broadcast. destruct (decide (length u = length w)); [discriminate|].
    destruct u as [|? [|? ?]], w as [|? [|? ?]]; try discriminate; intros [= <-]; discriminate.
  - destruct (eval store env a) as [u|e0]; cbn [mbind result_bind];
      [discriminate|intros [= <-]; apply IHa; reflexivity].
  - destruct (eval store env a) as [u|e0]; cbn [mbind result_bind];
      [discriminate|intros [= <-]; apply IHa; reflexivity].
  - destruct (eval store env a) as [u|e0]; cbn [mbind result_bind];
      [|intros [= <-]; apply IHa; reflexivity].
    destruct (eval store env b0) as [w|e0]; cbn [mbind result_bind];
      [discriminate|intros [= <-]; apply IHb; reflexivity].
Qed.

Lemma Function_eval_length_fixed (store : list DenseParams) (f : Function)
    (x1 x2 v1 v2 : list R) :
  Function_eval store f x1 = Ok v1 → Function_eval store f x2 = Ok v2 →
  length v1 = length v2.
Proof.
  unfold Function_eval. destruct (arguments f) as [|u [|u' us]]; try discriminate.
  apply eval_length_fixed.
Qed.

Lemma Function_eval_raises_other (store : list DenseParams) (f : Function)
    (x : list R) (e : exn) :
  Function_eval store f x = Raise e →
  e ≠ ValueError "Two images need to be of same dimension".
Proof.
  unfold Function_eval. destruct (arguments f) as [|u [|u' us]];
    try (intros [= <-]; discriminate).
  apply eval_raises_other.
Qed.

(** Allocating further parameters leaves a well-shaped graph well-shaped. *)
Lemma well_shaped_app (store more : list DenseParams) (f : Function) :
  well_shaped store f → well_shaped (store ++ more) f.
Proof.
  induction f; simpl; try tauto.
  intros (Hw & p & Hp & Hs). split; [auto|].
  exists p. split; [|exact Hs]. apply lookup_app_l_Some. exact Hp.
Qed.

(** So does an update of the parameter values that keeps their shapes. *)
Lemma well_shaped_same_shapes (store store' : list DenseParams) (f : Function) :
  same_shapes store store' → well_shaped store f → well_shaped store' f.
Proof.
  intros HS. induction f; simpl; try tauto.
  intros (Hw & p & Hp & Hrows & Hcols & Hbias). split; [auto|].
  destruct (Forall2_lookup_l _ _ _ _ _ HS Hp) as (q & Hq & HW & Hrs & Hb).
  exists q. split; [exact Hq|]. repeat split.
  - congruence.
  - apply Forall_forall. intros r2 Hr2.
    apply list_elem_of_lookup in Hr2 as [i Hi].
    destruct (Forall2_lookup_r _ _ _ _ _ Hrs Hi) as (r1 & Hr1 & E).
    rewrite <- E. apply (Forall_lookup_1 _ _ _ _ Hcols Hr1).
  - congruence.
Qed.

Lemma same_shapes_refl (store : list DenseParams) : same_shapes store store.
Proof.
  apply Forall_Forall2_diag, Forall_forall. intros p _.
  repeat split. apply Forall_Forall2_diag, Forall_forall. reflexivity.
Qed.

End GraphFacts.

(** ** The model builders *)

Section BuilderFacts.

Import Graph Builder.
Local Open Scope R_scope.
Context `{fw : Framework}.

Lemma dense_init_shape (slot n_in n_out : nat) :
  has_shape (dense_init slot n_in n_out) n_in n_out.
Proof.
  unfold has_shape, dense_init. simpl. repeat split.
  - rewrite length_map, length_seq. reflexivity.
  - apply Forall_forall. intros row Hrow.
    apply list_elem_of_fmap in Hrow as (i & -> & _).
    rewrite length_map, length_seq. reflexivity.
  - apply length_replicate.
Qed.

Lemma subfunction_refl (f : Function) : subfunction f f.
Proof. destruct f; left; reflexivity. Qed.

Lemma subfunction_trans (f g h : Function) :
  subfunction f g → subfunction g h → subfunction f h.
Proof.
  intros Hfg. induction h; intros Hgh;
    (destruct Hgh as [->|Hgh]; [exact Hfg|]); simpl in Hgh |- *;
    try contradiction; right; tauto.
Qed.

Lemma Dense_extends (n : nat) (act : Activation) (x : Function) (nb : Notebook) :
  extends x nb (Dense n act x nb) ∧
  (Dense n act x nb).1 = DenseLayer (length (store nb)) n act x ∧
  encoded_model (Dense n act x nb).2 = encoded_model nb.
Proof.
  split; [|split; reflexivity]. unfold extends, Dense. simpl.
  split; [|split; [|split; [|split; [|split]]]].
  - intros Hw. split; [apply well_shaped_app; exact Hw|].
    exists (dense_init (length (store nb)) (output_shape x) n).
    split; [|apply dense_init_shape].
    rewrite lookup_app_r by lia. rewrite Nat.sub_diag. reflexivity.
  - eexists. reflexivity.
  - reflexivity.
  - reflexivity.
  - tauto.
  - right. apply subfunction_refl.
Qed.

Lemma extends_trans (x y : Function) (nb nb' : Notebook) (r : Function * Notebook) :
  extends x nb (y, nb') → extends y nb' r → extends x nb r.
Proof.
  intros (A1 & [m1 A2] & A3 & A4 & A5 & A6) (B1 & [m2 B2] & B3 & B4 & B5 & B6).
  simpl in *. unfold extends.
  split; [|split; [|split; [|split; [|split]]]].
  - auto.
  - exists (m1 ++ m2). rewrite B2, A2, app_assoc. reflexivity.
  - congruence.
  - congruence.
  - auto.
  - eapply subfunction_trans; eassumption.
Qed.

Lemma dense_stack_extends (dims : list nat) (x : Function) (nb : Notebook) :
  extends x nb (dense_stack dims x nb) ∧
  output_shape (dense_stack dims x nb).1 = default (output_shape x) (last dims) ∧
  encoded_model (dense_stack dims x nb).2 = encoded_model nb.
Proof.
  revert x nb. induction dims as [|dim dims IH]; intros x nb; cbn [dense_stack].
  - split; [|split; reflexivity]. unfold extends. simpl.
    split; [|split; [|split; [|split; [|split]]]]; try tauto.
    + exists []. rewrite app_nil_r. reflexivity.
    + apply subfunction_refl.
  - destruct (Dense_extends dim relu x nb) as (HD & HE & HG).
    destruct (Dense dim relu x nb) as [y nb'] eqn:D.
    destruct (IH y nb') as (HS & HO & HG'). simpl. split; [|split].
    + eapply extends_trans; eassumption.
    + rewrite HO. simpl in HE. subst y. simpl.
      destruct dims as [|dim' dims]; [reflexivity|].
      rewrite last_cons_cons.
      destruct (last (dim' :: dims)) eqn:L; [reflexivity|].
      apply last_None in L. discriminate.
    + simpl in HG. congruence.
Qed.

Example create_model_layers (input : InputVariable) :
  (create_model input initial_notebook).1 =
    DenseLayer 1 784 sigmoid
      (DenseLayer 0 32 relu (ElementDivide input (Constant 255))) ∧
  length (store (create_model input initial_notebook).2) = 2%nat ∧
  output_shape (create_model input initial_notebook).1 = 784%nat.
Proof. repeat split. Qed.

Lemma create_model_reconstructs (input : InputVariable) (nb : Notebook) :
  reconstructs input nb (create_model input nb) ∧
  encoded_model (create_model input nb).2 = encoded_model nb.
Proof.
  unfold create_model.
  set (scaled := ElementDivide input (Constant 255)).
  destruct (Dense_extends encoding_dim relu scaled nb) as (H1 & E1 & G1).
  destruct (Dense encoding_dim relu scaled nb) as [encode nb1] eqn:D1.
  destruct (Dense_extends input_dim sigmoid encode nb1) as (H2 & E2 & G2).
  destruct (Dense input_dim sigmoid encode nb1) as [decode nb2] eqn:D2.
  destruct (extends_trans _ _ _ _ _ H1 H2) as (A1 & _ & A3 & A4 & A5 & _).
  cbn [fst snd] in *. split; [|congruence].
  unfold reconstructs. cbn [fst snd].
  split; [|split; [|split; [|split]]].
  - apply A1. simpl. tauto.
  - rewrite A4. reflexivity.
  - intros env Hb. apply A5. simpl. tauto.
  - exact A3.
  - eauto.
Qed.

(** The deep builder: the function it binds [encoded_model] to is the
    stack of the three encoding layers over the rescaled input, allocated
    in the three slots that follow the store it started from. *)
Lemma create_deep_model_encoder (input : InputVariable) (nb : Notebook) :
  let r := create_deep_model input nb in
  let s := length (store nb) in
  let encoder :=
    DenseLayer (s + 2) 32 relu
      (DenseLayer (s + 1) 64 relu
         (DenseLayer s 128 relu (ElementTimes (Constant (1 / 255)) input))) in
  encoded_model r.2 = Some encoder ∧
  well_shaped (store r.2) encoder ∧
  subfunction encoder r.1 ∧
  reconstructs input nb r.
Proof.
  intros r s encoder. subst r. unfold create_deep_model.
  set (scaled := ElementTimes (Constant (1 / 255)) input).
  assert (Hwsc : well_shaped (store nb) scaled) by (simpl; tauto).
  assert (Henc : (dense_stack encoding_dims scaled nb).1 = encoder).
  { unfold encoding_dims, dense_stack, Dense. cbn [fst snd store].
    rewrite !length_app. cbn [length]. subst encoder s scaled.
    f_equal. lia. }
  destruct (dense_stack_extends encoding_dims scaled nb) as (H1 & _ & G1).
  destruct (dense_stack encoding_dims scaled nb) as [encode nb1] eqn:D1.
  cbn [fst snd] in Henc, G1. subst encode.
  set (nb2 := set_encoded_model encoder nb1).
  assert (H1' : extends scaled nb (encoder, nb2)) by exact H1.
  destruct (dense_stack_extends decoding_dims encoder nb2) as (H2 & _ & G2).
  destruct (dense_stack decoding_dims encoder nb2) as [decode nb3] eqn:D2.
  destruct (Dense_extends input_dim sigmoid decode nb3) as (H3 & E3 & G3).
  destruct (Dense input_dim sigmoid decode nb3) as [decode' nb4] eqn:D3.
  pose proof (extends_trans _ _ _ _ _ H2 H3) as H23.
  pose proof (extends_trans _ _ _ _ _ H1' H23) as (A1 & _ & A3 & A4 & A5 & _).
  destruct H23 as (_ & [more B2] & _ & _ & _ & B6).
  destruct H1 as (C1 & _).
  cbn [fst snd] in *.
  split; [|split; [|split]].
  - rewrite G3, G2. reflexivity.
  - rewrite B2. apply well_shaped_app. apply C1. exact Hwsc.
  - exact B6.
  - unfold reconstructs. cbn [fst snd].
    split; [|split; [|split; [|split]]].
    + apply A1. exact Hwsc.
    + rewrite A4. reflexivity.
    + intros env Hb. apply A5. simpl. tauto.
    + exact A3.
    + eauto.
Qed.

Lemma store_length_create_deep_model (input : InputVariable) (nb : Notebook) :
  length (store (create_deep_model input nb).2) = (length (store nb) + 6)%nat.
Proof.
  unfold create_deep_model, encoding_dims, decoding_dims, dense_stack, Dense.
  cbn [fst snd store set_encoded_model]. rewrite !length_app. cbn [length]. lia.
Qed.

(** C3 (amended): the bottleneck width [K = 32] is below [D = 784].  For
    every model the deep builder constructs, the bottleneck is retrievable
    after construction through the global [encoded_model], and for any
    input of [D] components, under the parameters as constructed or as
    any learner's shape-preserving update leaves them, the extracted
    bottleneck vector has exactly [K] components.  The shallow builder
    has a bottleneck layer of the same width [K] inside the function it
    returns, and leaves [encoded_model] as it found it. *)
Theorem deep_bottleneck_has_K_components (nb : Notebook) (input : InputVariable) :
  shape input = input_dim →
  (encoding_dim < input_dim)%nat ∧
  (let nb' := (create_deep_model input nb).2 in
   ∃ encoder,
     encoded_model nb' = Some encoder ∧
     output_shape encoder = encoding_dim ∧
     ∀ store' imgA,
       same_shapes (store nb') store' →
       length imgA = input_dim →
       ∃ v, encode_image (with_store nb' store') imgA = Ok v ∧
            length v = encoding_dim) ∧
  (let r := create_model input nb in
   (∃ slot encode, r.1 = DenseLayer slot input_dim sigmoid encode ∧
                   output_shape encode = encoding_dim) ∧
   encoded_model r.2 = encoded_model nb).
Proof.
  intros Hshape. split; [unfold encoding_dim, input_dim; lia|]. split.
  - intros nb'. subst nb'.
    destruct (create_deep_model_encoder input nb) as (He & Hw & _ & _).
    eexists. split; [exact He|]. split; [reflexivity|].
    intros store' imgA HS Hlen.
    unfold encode_image. cbn [encoded_model with_store store]. rewrite He.
    unfold Function_eval. cbn [arguments list_union list_difference app uid].
    match goal with
    | |- ∃ v, eval store' ?env ?f = Ok v ∧ _ =>
        destruct (eval_well_shaped store' env f) as (v & Ev & Lv)
    end.
    + eapply well_shaped_same_shapes; eassumption.
    + simpl. split; [exact I|]. exists imgA.
      rewrite lookup_singleton_eq. split; [reflexivity|congruence].
    + exists v. split; [exact Ev|exact Lv].
  - intros r. subst r. split; [|apply create_model_reconstructs].
    unfold create_model, Dense. cbn [fst snd]. eexists _, _. split; reflexivity.
Qed.

(** C10: [create_deep_model] rebinds the global [encoded_model], whatever
    it held before, to the encoder prefix of the model it returns: the
    three encoding layers it has just allocated over the rescaled input,
    a function the returned model is built on.  After a second call the
    global holds the encoder of the second model, not of the first.
    [create_model] never assigns the global: it leaves it as it was, so
    after constructing only the shallow model it still holds its initial
    value [None]. *)
Theorem create_deep_model_sets_encoded_model :
  (∀ (nb : Notebook) (input : InputVariable),
     let r := create_deep_model input nb in
     let s := length (store nb) in
     let encoder :=
       DenseLayer (s + 2) 32 relu
         (DenseLayer (s + 1) 64 relu
            (DenseLayer s 128 relu (ElementTimes (Constant (1 / 255)) input))) in
     encoded_model r.2 = Some encoder ∧
     subfunction encoder r.1 ∧
     encoded_model (create_deep_model input r.2).2 ≠ encoded_model r.2) ∧
  (∀ (nb : Notebook) (features : Function),
     encoded_model (create_model features nb).2 = encoded_model nb) ∧
  (∀ features : Function,
     encoded_model (create_model features initial_notebook).2 = None).
Proof.
  split; [|split].
  - intros nb input r s encoder.
    destruct (create_deep_model_encoder input nb) as (He & _ & Hsub & _).
    fold r in He, Hsub. split; [exact He|]. split; [exact Hsub|].
    destruct (create_deep_model_encoder input r.2) as (He2 & _).
    rewrite He2, He. unfold r. rewrite store_length_create_deep_model.
    intros [= E]. fold s in E. lia.
  - intros nb features. reflexivity.
  - intros features. reflexivity.
Qed.

End BuilderFacts.

Section BuilderRuns.

Import Graph Builder.
Local Open Scope R_scope.

(** C3, as the claim states it, fails for the shallow variant:
    [create_model] returns the reconstruction alone and binds no handle
    on its bottleneck, so after building only the shallow model the cell
    that extracts the bottleneck vector stops at [None.eval]. *)
Lemma shallow_bottleneck_not_retrievable :
  let input := {| uid := 0; shape := 784 |} in
  let nb := (create_model (fw := top1_framework) input initial_notebook).2 in
  encode_image (fw := top1_framework) nb (replicate 784 0) =
    Raise (AttributeError "'NoneType' object has no attribute 'eval'").
Proof.
  intros input nb. unfold encode_image. subst nb.
  rewrite (proj2 (create_model_reconstructs input initial_notebook)).
  reflexivity.
Qed.

Lemma deep_bottleneck_has_K_components_witness :
  let input := {| uid := 0; shape := 784 |} in
  let nb' := (create_deep_model (fw := top1_framework) input initial_notebook).2 in
  shape input = input_dim ∧
  ∃ v, encode_image (fw := top1_framework) (with_store nb' (store nb')) (replicate 784 0) = Ok v ∧
       length v = encoding_dim.
Proof.
  intros input nb'.
  assert (Hshape : shape input = input_dim) by reflexivity.
  split; [exact Hshape|].
  destruct (deep_bottleneck_has_K_components (fw := top1_framework) initial_notebook input Hshape)
    as (_ & (encoder & _ & _ & Hall) & _).
  apply Hall; [apply same_shapes_refl|apply length_replicate].
Defined.

End BuilderRuns.

(** ** The loss of a training step *)

Section LossFacts.

Import Graph Builder Training.
Local Open Scope R_scope.
Context `{fw : Framework} {Rd : Type} `{source : MinibatchSource Rd}.

Lemma sigmoid_range (z : R) : 0 < activate sigmoid z < 1.
Proof.
  simpl. pose proof (exp_pos (- z)) as He.
  assert (Hd : 0 < 1 + exp (- z)) by lra.
  split.
  - apply Rdiv_lt_0_compat; lra.
  - apply (Rmult_lt_reg_r (1 + exp (- z))); [exact Hd|].
    unfold Rdiv. rewrite Rmult_assoc, Rinv_l by lra. lra.
Qed.

(** Both input variables of [train_and_test] are mapped to the features
    stream, so a sample binds both to its feature vector. *)
Lemma sample_env_features (reader : Rd) (n k : nat) (input label : InputVariable) (s : Sample) :
  (read reader n).1 !! k = Some s →
  let env := sample_env (next_minibatch reader n (features_map input label)).1 k in
  env !! uid input = Some (field_features s) ∧
  env !! uid label = Some (field_features s).
Proof.
  intros Hk env. subst env. unfold next_minibatch, sample_env.
  destruct (read reader n) as [samples reader'] eqn:E. cbn [fst snd streams] in *.
  assert (Hm : ∀ u, features_map input label !! u = Some features →
               omap (λ rows : list (list R), rows !! k)
                 ((λ st, map (stream_value st) samples) <$> features_map input label) !! u
               = Some (field_features s)).
  { intros u Hu. rewrite lookup_omap, lookup_fmap, Hu. simpl.
    rewrite list_lookup_fmap, Hk. reflexivity. }
  unfold features_map in *. split; apply Hm.
  - destruct (decide (uid label = uid input)) as [->|N].
    + apply lookup_insert_eq.
    + rewrite lookup_insert_ne by exact N. apply lookup_insert_eq.
  - apply lookup_insert_eq.
Qed.

(** The value of the loss function, from the value [p] of the model and
    the vector [xs] the label variable is bound to. *)
Lemma eval_loss (store : list DenseParams) (env : gmap nat (list R)) (model : Function)
    (label : InputVariable) (p xs : list R) :
  eval store env model = Ok p →
  env !! uid label = Some xs →
  length xs = shape label →
  length p = length xs →
  length xs ≠ 1%nat →
  eval store env (loss_of model (target_of label)) =
    Ok (map Ropp
          (zip_with Rplus
             (zip_with Rmult (map (λ x, x / 255) xs) (map ln p))
             (zip_with Rmult (map (Rminus 1) (map (λ x, x / 255) xs))
                (map ln (map (Rminus 1) p))))).
Proof.
  intros Em Hl Hs Hp H1. unfold loss_of, target_of. cbn [eval].
  rewrite Em, Hl. destruct (decide (length xs = shape label)); [|contradiction].
  cbn [mbind result_bind].
  rewrite (broadcast_scalar_r Rdiv xs 255 H1). cbn [mbind result_bind].
  rewrite (broadcast_same Rmult) by (rewrite !length_map; congruence).
  cbn [mbind result_bind].
  rewrite (broadcast_scalar_l Rminus 1 (map (λ x, x / 255) xs))
    by (rewrite length_map; exact H1).
  cbn [mbind result_bind].
  rewrite (broadcast_scalar_l Rminus 1 p) by congruence.
  cbn [mbind result_bind].
  rewrite (broadcast_same Rmult) by (rewrite !length_map; congruence).
  cbn [mbind result_bind].
  rewrite (broadcast_same Rplus) by (rewrite !length_zip_with, !length_map; lia).
  reflexivity.
Qed.

Lemma lookup_loss (p xs : list R) (i : nat) (x pi : R) :
  xs !! i = Some x → p !! i = Some pi →
  map Ropp
    (zip_with Rplus
       (zip_with Rmult (map (λ x, x / 255) xs) (map ln p))
       (zip_with Rmult (map (Rminus 1) (map (λ x, x / 255) xs))
          (map ln (map (Rminus 1) p)))) !! i
  = Some (- (x / 255 * ln pi + (1 - x / 255) * ln (1 - pi))).
Proof.
  intros Hx Hp.
  rewrite list_lookup_fmap, !lookup_zip_with, !list_lookup_fmap, Hx, Hp.
  reflexivity.
Qed.

(** The value of a function that ends in a dense layer of sigmoid
    units is a vector of sigmoid outputs. *)
Lemma eval_sigmoid_layer (store : list DenseParams) (env : gmap nat (list R))
    (slot n : nat) (x : Function) (p : list R) :
  eval store env (DenseLayer slot n sigmoid x) = Ok p →
  ∃ zs, p = map (activate sigmoid) zs.
Proof.
  cbn [eval]. destruct (eval store env x) as [v|e]; cbn [mbind result_bind]; [|discriminate].
  destruct (store !! slot) as [q|]; [|discriminate].
  destruct (decide (length v = length (W q))); [|discriminate].
  intros [= <-]. eexists. reflexivity.
Qed.

(** The loss of one sample of a batch drawn with the input map of
    [train_and_test]: both variables are bound to the features of the
    sample, and the loss function evaluates, component by component, to
    the binary cross-entropy between the model's sigmoid output and the
    features rescaled by [1/255]. *)
Lemma loss_on_sample (nb : Notebook) (input label : InputVariable)
    (r : Function * Notebook) (store' : list DenseParams)
    (reader : Rd) (k : nat) (s : Sample) :
  shape input = input_dim →
  shape label = input_dim →
  r = create_model input nb ∨ r = create_deep_model input nb →
  same_shapes (store r.2) store' →
  (read reader (Z.to_nat minibatch_size)).1 !! k = Some s →
  length (field_features s) = input_dim →
  let input_map := features_map input label in
  let data := (next_minibatch reader (Z.to_nat minibatch_size) input_map).1 in
  let env := sample_env data k in
  env !! uid input = Some (field_features s) ∧
  env !! uid label = Some (field_features s) ∧
  ∃ p l,
    eval store' env r.1 = Ok p ∧
    eval store' env (loss_of r.1 (target_of label)) = Ok l ∧
    length p = input_dim ∧ length l = input_dim ∧
    ∀ i x, field_features s !! i = Some x →
      ∃ z pi,
        p !! i = Some pi ∧ pi = 1 / (1 + exp (- z)) ∧
        let y := x / 255 in
        l !! i = Some (- (y * ln pi + (1 - y) * ln (1 - pi))).
Proof.
  intros Hin Hlab Hr HS Hk Hlen input_map data env.
  destruct (sample_env_features reader (Z.to_nat minibatch_size) k input label s Hk)
    as [Einput Elabel].
  fold input_map in Einput, Elabel. fold data in Einput, Elabel. fold env in Einput, Elabel.
  split; [exact Einput|]. split; [exact Elabel|].
  assert (Hrec : reconstructs input nb r).
  { destruct Hr as [-> | ->].
    - apply create_model_reconstructs.
    - apply create_deep_model_encoder. }
  destruct Hrec as (Hw & _ & Hb & _ & slot & x & Hmodel).
  destruct (eval_well_shaped store' env r.1) as (p & Ep & Lp).
  { eapply well_shaped_same_shapes; eassumption. }
  { apply Hb. simpl. exists (field_features s). split; [exact Einput|congruence]. }
  rewrite Hmodel in Lp. cbn [output_shape] in Lp.
  exists p. eexists. split; [exact Ep|]. split.
  { apply (eval_loss store' env r.1 label p (field_features s) Ep Elabel); try congruence.
    rewrite Hlen. unfold input_dim. lia. }
  split; [exact Lp|]. split.
  { rewrite length_map, !length_zip_with, !length_map, Lp, Hlen. lia. }
  intros i xi Hxi.
  rewrite Hmodel in Ep. apply eval_sigmoid_layer in Ep as [zs ->].
  assert (is_Some (zs !! i)) as [z Hz].
  { apply lookup_lt_is_Some. rewrite length_map in Lp. rewrite Lp, <- Hlen.
    apply (lookup_lt_Some _ _ _ Hxi). }
  exists z, (activate sigmoid z).
  assert (Hp : map (activate sigmoid) zs !! i = Some (activate sigmoid z)).
  { rewrite list_lookup_fmap, Hz. reflexivity. }
  split; [exact Hp|]. split; [reflexivity|].
  apply lookup_loss; assumption.
Qed.

End LossFacts.

(** ** The training loop *)

Section TrainingFacts.

Import Graph Builder Training.
Local Open Scope R_scope.
Context {RdT RdE T : Type}.
Context `{source_train : MinibatchSource RdT} `{source_test : MinibatchSource RdE}.
Context `{api : TrainerAPI T} `{laws : !TrainerLaws T}.

Lemma foldl_ignore {S A : Type} (f : S → S) (l : list A) (st : S) :
  foldl (λ st _, f st) st l = Nat.iter (length l) f st.
Proof.
  revert st. induction l as [|x l IH]; intros st; [reflexivity|].
  cbn [foldl length]. rewrite IH, Nat.iter_succ_r. reflexivity.
Qed.

Lemma range_length (n : Z) : length (range n) = Z.to_nat n.
Proof. unfold range. apply length_seq. Qed.

Lemma num_minibatches_to_train_fast :
  num_minibatches_to_train true = 4687%Z ∧
  num_minibatches_to_train true = ((60000 * 5) `div` 64)%Z.
Proof. split; reflexivity. Qed.

Lemma num_minibatches_to_test_int : py_int num_minibatches_to_test = 312%Z.
Proof.
  unfold py_int, num_minibatches_to_test, num_samples, test_minibatch_size.
  destruct (Rle_dec 0 (10000 / 32)) as [_|N]; [|exfalso; apply N; lra].
  symmetry. apply Int_part_spec. lra.
Qed.

Lemma next_minibatch_samples {Rd : Type} `{source : MinibatchSource Rd} (reader : Rd) (n : nat)
    (input_map : gmap nat Stream) :
  number_of_samples (next_minibatch reader n input_map).1 = length (read reader n).1.
Proof. unfold next_minibatch. destruct (read reader n). reflexivity. Qed.

(** What [k] rounds of the training loop have done to the trainer and the
    progress printer they started from. *)
Lemma training_rounds `{unbounded : !Unbounded RdT} (input_map : gmap nat Stream) (trainer : T)
    (reader_train : RdT) (k : nat) :
  let '(trainer', pp, _) :=
    Nat.iter k (train_step input_map) (trainer, ProgressPrinter_new 0, reader_train) in
  updates_since_start pp = k ∧
  samples_since_start pp = (64 * k)%nat ∧
  0 <= metric_since_start pp <= INR (samples_since_start pp) ∧
  ∃ batches,
    length batches = k ∧
    Forall (λ data, number_of_samples data = 64%nat) batches ∧
    trainer' = foldl train_minibatch trainer batches.
Proof.
  induction k as [|k IH].
  - simpl. repeat split; try lra. exists []. repeat split. constructor.
  - rewrite Nat.iter_succ.
    destruct (Nat.iter k (train_step input_map) (trainer, ProgressPrinter_new 0, reader_train))
      as [[t pp] rd].
    destruct IH as (Hu & Hs & Hm & batches & Hl & Hb & Ht).
    unfold train_step.
    pose proof (next_minibatch_samples rd (Z.to_nat minibatch_size) input_map) as Hn.
    rewrite read_full in Hn.
    destruct (next_minibatch rd (Z.to_nat minibatch_size) input_map) as [data rd'].
    cbn [fst] in Hn. change (Z.to_nat minibatch_size) with 64%nat in Hn.
    unfold update_with_trainer.
    cbn [updates_since_start samples_since_start metric_since_start].
    rewrite train_minibatch_count, Hn.
    pose proof (train_minibatch_range t data) as Hr.
    split; [lia|]. split; [lia|]. split.
    + rewrite plus_INR.
      assert (0 <= INR 64) by apply pos_INR. nra.
    + exists (batches ++ [data]). split; [rewrite length_app; simpl; lia|]. split.
      * apply Forall_app. split; [exact Hb|]. constructor; [exact Hn|constructor].
      * rewrite foldl_app, <- Ht. reflexivity.
Qed.

Lemma training_loop_rounds (input_map : gmap nat Stream) (st : T * ProgressPrinter * RdT) :
  training_loop input_map st = Nat.iter 4687 (train_step input_map) st.
Proof.
  unfold training_loop. rewrite foldl_ignore, range_length.
  replace (Z.to_nat (num_minibatches_to_train isFast)) with 4687%nat; [reflexivity|].
  unfold isFast. rewrite (proj1 num_minibatches_to_train_fast). lia.
Qed.

(** What the whole training loop leaves: 4687 updates of the trainer on
    batches of 64 samples, and an average metric between [0] and [1]. *)
Lemma training_loop_average `{unbounded : !Unbounded RdT} (input_map : gmap nat Stream) (trainer : T)
    (reader_train : RdT) :
  let '(trainer', pp, _) :=
    training_loop input_map (trainer, ProgressPrinter_new 0, reader_train) in
  updates_since_start pp = 4687%nat ∧
  Z.of_nat (samples_since_start pp) = (4687 * 64)%Z ∧
  (∃ batches,
     length batches = 4687%nat ∧
     Forall (λ data, number_of_samples data = 64%nat) batches ∧
     trainer' = foldl train_minibatch trainer batches) ∧
  ∃ avg, avg_metric_since_start pp = Ok avg ∧ 0 <= avg * 100 <= 100.
Proof.
  rewrite training_loop_rounds.
  pose proof (training_rounds input_map trainer reader_train 4687) as HR.
  destruct (Nat.iter 4687 (train_step input_map) (trainer, ProgressPrinter_new 0, reader_train))
    as [[t pp] rd].
  destruct HR as (Hu & Hs & Hm & Hb).
  split; [exact Hu|]. split; [lia|]. split; [exact Hb|].
  unfold avg_metric_since_start.
  destruct (decide (samples_since_start pp = 0%nat)) as [E|N]; [lia|].
  eexists. split; [reflexivity|].
  assert (Hpos : 0 < INR (samples_since_start pp)).
  { apply lt_0_INR. lia. }
  split.
  - apply Rmult_le_pos; [|lra]. unfold Rdiv. apply Rmult_le_pos; [lra|].
    left. apply Rinv_0_lt_compat. exact Hpos.
  - assert (metric_since_start pp / INR (samples_since_start pp) <= 1); [|lra].
    apply (Rmult_le_reg_r (INR (samples_since_start pp))); [exact Hpos|].
    unfold Rdiv. rewrite Rmult_assoc, Rinv_l by lra. lra.
Qed.

(** C1 (amended): in the shipped fast mode (feature dimensionality 784,
    64-sample minibatches, 5 sweeps over 60,000 samples per sweep; the
    30,000 of [epoch_size] only parameterize the learning-rate schedule)
    the training loop performs exactly [(60000*5) // 64 = 4687] update
    steps, each on a batch of 64 samples, and
    [train_and_test] returns a training error percentage in [[0,100]].
    This holds for any model builder, the shallow [create_model] among
    them. *)
Theorem training_performs_4687_updates `{unbounded : !Unbounded RdT} (reader_train : RdT)
    (reader_test : RdE) (model_func : Function → Notebook → Function * Notebook)
    (nb : Notebook) (input_map : gmap nat Stream) (trainer : T) :
  (input_dim = 784%nat ∧ minibatch_size = 64%Z ∧ num_sweeps_to_train_with isFast = 5%Z ∧
   num_minibatches_to_train isFast = ((60000 * 5) `div` 64)%Z ∧
   num_minibatches_to_train isFast = 4687%Z) ∧
  (let '(trainer', pp, _) :=
     training_loop input_map (trainer, ProgressPrinter_new 0, reader_train) in
   updates_since_start pp = 4687%nat ∧
   Z.of_nat (samples_since_start pp) = (4687 * 64)%Z ∧
   (∃ batches,
      length batches = 4687%nat ∧
      Forall (λ data, number_of_samples data = 64%nat) batches ∧
      trainer' = foldl train_minibatch trainer batches) ∧
   ∃ avg, avg_metric_since_start pp = Ok avg ∧ 0 <= avg * 100 <= 100) ∧
  ∃ model train_error test_error final,
    train_and_test reader_train reader_test model_func nb =
      (Ok (model, train_error, test_error), final) ∧
    0 <= train_error <= 100.
Proof.
  split; [repeat split|]. split; [apply training_loop_average|].
  unfold train_and_test, Input.
  destruct (model_func _ _) as [model nb'].
  match goal with
  | |- context [training_loop ?m (?t, ProgressPrinter_new 0, reader_train)] =>
      pose proof (training_loop_average m t reader_train) as HL;
      destruct (training_loop m (t, ProgressPrinter_new 0, reader_train)) as [[t' pp] rd]
  end.
  destruct HL as (_ & _ & _ & avg & Ha & Hr). rewrite Ha.
  match goal with
  | |- context [test_phase ?i ?l t' reader_test] =>
      destruct (test_phase i l t' reader_test) as [test_error st]
  end.
  eexists _, _, _, _. split; [reflexivity|exact Hr].
Qed.

End TrainingFacts.

(** ** The evaluation loop *)

Section EvaluationFacts.

Import Graph Builder Training.
Local Open Scope R_scope.
Context {RdE T : Type} `{source_test : MinibatchSource RdE}.
Context `{api : TrainerAPI T} `{laws : !TrainerLaws T}.

(** One round of the evaluation loop: the error of the batch, times the
    batch size, goes to the numerator, the batch size to the denominator,
    and the parameters stay. *)
Lemma test_step_round (test_input_map : gmap nat Stream) (st : TestState T RdE) :
  let data := (next_minibatch (test_reader st) 32 test_input_map).1 in
  let e := (test_minibatch (test_trainer st) data).1 in
  let st' := test_step test_input_map st in
  metric_numer st' = metric_numer st + e * 32 ∧
  metric_denom st' = (metric_denom st + 32)%Z ∧
  parameters (test_trainer st') = parameters (test_trainer st) ∧
  evaluation_function (test_trainer st') = evaluation_function (test_trainer st) ∧
  test_trainer st' = (test_minibatch (test_trainer st) data).2 ∧
  test_reader st' = (next_minibatch (test_reader st) 32 test_input_map).2.
Proof.
  intros data e st'. subst data e st'. unfold test_step.
  change (Z.to_nat test_minibatch_size) with 32%nat.
  destruct (next_minibatch (test_reader st) 32 test_input_map) as [data rd] eqn:N.
  cbn [fst snd].
  pose proof (test_minibatch_parameters (test_trainer st) data) as Hp.
  pose proof (test_minibatch_evaluation_function (test_trainer st) data) as Hf.
  pose proof (test_minibatch_range (test_trainer st) data) as Hr.
  destruct (test_minibatch (test_trainer st) data) as [e t'] eqn:E.
  cbn [fst snd metric_numer metric_denom test_trainer test_reader] in *.
  repeat split; try assumption; try reflexivity.
  change (IZR test_minibatch_size) with 32.
  rewrite Rabs_right by nra. reflexivity.
Qed.

Lemma eval_errors_succ (n : nat) (test_input_map : gmap nat Stream) (st : TestState T RdE) :
  eval_errors (S n) test_input_map (test_trainer st) (test_reader st) =
    (test_minibatch (test_trainer st)
       (next_minibatch (test_reader st) 32 test_input_map).1).1
    :: eval_errors n test_input_map (test_trainer (test_step test_input_map st))
         (test_reader (test_step test_input_map st)).
Proof.
  destruct (test_step_round test_input_map st) as (_ & _ & _ & _ & Ht & Hr).
  rewrite Ht, Hr. cbn [eval_errors].
  change (Z.to_nat test_minibatch_size) with 32%nat.
  destruct (next_minibatch (test_reader st) 32 test_input_map) as [data rd].
  cbn [fst snd]. destruct (test_minibatch (test_trainer st) data) as [e t'].
  reflexivity.
Qed.

(** [n] rounds of the evaluation loop. *)
Lemma test_rounds (test_input_map : gmap nat Stream) (n : nat) (st : TestState T RdE) :
  let st' := Nat.iter n (test_step test_input_map) st in
  let errors := eval_errors n test_input_map (test_trainer st) (test_reader st) in
  metric_numer st' = metric_numer st + Vec.sum (map (λ e, e * 32) errors) ∧
  metric_denom st' = (metric_denom st + 32 * Z.of_nat n)%Z ∧
  parameters (test_trainer st') = parameters (test_trainer st) ∧
  evaluation_function (test_trainer st') = evaluation_function (test_trainer st) ∧
  length errors = n.
Proof.
  revert st. induction n as [|n IH]; intros st.
  - simpl. repeat split; try lra; lia.
  - cbv zeta. rewrite Nat.iter_succ_r, eval_errors_succ.
    destruct (IH (test_step test_input_map st)) as (I1 & I2 & I3 & I4 & I5).
    destruct (test_step_round test_input_map st) as (S1 & S2 & S3 & S4 & _).
    cbv zeta in S1. rewrite I1, I2, I3, I4, S1, S2, S3, S4.
    cbn [map length]. unfold Vec.sum in *. cbn [foldr].
    repeat split; try lra; lia.
Qed.

Lemma test_loop_rounds (test_input_map : gmap nat Stream) (st : TestState T RdE) :
  test_loop test_input_map st = Nat.iter 312 (test_step test_input_map) st.
Proof.
  unfold test_loop. rewrite foldl_ignore, range_length, num_minibatches_to_test_int.
  reflexivity.
Qed.

(** The error of a batch is read off the parameters and the criterion:
    two trainers that agree on both see the same errors. *)
Lemma eval_errors_reads (n : nat) (test_input_map : gmap nat Stream) (t t' : T)
    (reader_test : RdE) :
  parameters t = parameters t' →
  evaluation_function t = evaluation_function t' →
  eval_errors n test_input_map t reader_test = eval_errors n test_input_map t' reader_test.
Proof.
  revert t t' reader_test. induction n as [|n IH]; intros t t' rd Hp Hf; [reflexivity|].
  cbn [eval_errors].
  destruct (next_minibatch rd (Z.to_nat test_minibatch_size) test_input_map) as [data rd'].
  pose proof (test_minibatch_reads t t' data Hp Hf) as He.
  pose proof (test_minibatch_parameters t data) as Hp1.
  pose proof (test_minibatch_parameters t' data) as Hp2.
  pose proof (test_minibatch_evaluation_function t data) as Hf1.
  pose proof (test_minibatch_evaluation_function t' data) as Hf2.
  destruct (test_minibatch t data) as [e1 t1], (test_minibatch t' data) as [e2 t2].
  cbn [fst snd] in *. subst e2. f_equal. apply IH; congruence.
Qed.

(** The reported test error, from the errors of the 312 batches. *)
Lemma test_phase_value (input label : InputVariable) (trainer : T) (reader_test : RdE) :
  let '(test_error, st) := test_phase input label trainer reader_test in
  let errors := eval_errors 312 (features_map input label) trainer reader_test in
  length errors = 312%nat ∧
  metric_numer st = Vec.sum (map (λ e, e * 32) errors) ∧
  metric_denom st = (312 * 32)%Z ∧
  test_error = 100 * (metric_numer st / IZR (metric_denom st)) ∧
  parameters (test_trainer st) = parameters trainer ∧
  evaluation_function (test_trainer st) = evaluation_function trainer.
Proof.
  unfold test_phase. rewrite test_loop_rounds.
  match goal with
  | |- context [Nat.iter 312 ?f ?st0] =>
      destruct (test_rounds (features_map input label) 312 st0) as (R1 & R2 & R3 & R4 & R5)
  end.
  cbn [test_trainer test_reader metric_numer metric_denom] in *.
  split; [exact R5|]. split; [rewrite R1; lra|]. split; [rewrite R2; lia|].
  split; [|split; assumption].
  unfold Rdiv. lra.
Qed.

Lemma test_phase_error (input label : InputVariable) (trainer : T) (reader_test : RdE) :
  (test_phase input label trainer reader_test).1 =
    100 * (Vec.sum (map (λ e, e * 32)
                      (eval_errors 312 (features_map input label) trainer reader_test))
           / IZR (312 * 32)).
Proof.
  pose proof (test_phase_value input label trainer reader_test) as HV.
  destruct (test_phase input label trainer reader_test) as [test_error st].
  cbv zeta in HV. destruct HV as (_ & N1 & D1 & E1 & _).
  cbn [fst]. rewrite E1, N1, D1. reflexivity.
Qed.

(** C2: the evaluation phase, with 10,000 declared test samples and a
    test batch size of 32, iterates over exactly [floor(10000/32) = 312]
    batches; each round adds the batch's error times the batch size to
    the numerator and the batch size to the denominator and leaves the
    parameters as they are; the value reported is
    [100 * numerator/denominator]. *)
Theorem evaluation_runs_312_batches (input label : InputVariable) (trainer : T)
    (reader_test : RdE) :
  (num_samples = 10000%Z ∧ test_minibatch_size = 32%Z ∧
   py_int num_minibatches_to_test = 312%Z ∧ (10000 `div` 32)%Z = 312%Z ∧
   length (range (py_int num_minibatches_to_test)) = 312%nat ∧
   ∀ st, test_loop (features_map input label) st =
         Nat.iter 312 (test_step (features_map input label)) st) ∧
  (∀ st : TestState T RdE,
     let data := (next_minibatch (test_reader st) 32 (features_map input label)).1 in
     let e := (test_minibatch (test_trainer st) data).1 in
     let st' := test_step (features_map input label) st in
     metric_numer st' = metric_numer st + e * 32 ∧
     metric_denom st' = (metric_denom st + 32)%Z ∧
     parameters (test_trainer st') = parameters (test_trainer st)) ∧
  (let '(test_error, st) := test_phase input label trainer reader_test in
   let errors := eval_errors 312 (features_map input label) trainer reader_test in
   length errors = 312%nat ∧
   metric_numer st = Vec.sum (map (λ e, e * 32) errors) ∧
   metric_denom st = (312 * 32)%Z ∧
   test_error = 100 * (metric_numer st / IZR (metric_denom st)) ∧
   parameters (test_trainer st) = parameters trainer).
Proof.
  split; [|split].
  - split; [reflexivity|]. split; [reflexivity|].
    split; [apply num_minibatches_to_test_int|]. split; [reflexivity|].
    split; [rewrite range_length, num_minibatches_to_test_int; reflexivity|].
    apply test_loop_rounds.
  - intros st. destruct (test_step_round (features_map input label) st) as (S1 & S2 & S3 & _).
    cbv zeta. auto.
  - pose proof (test_phase_value input label trainer reader_test) as HV.
    destruct (test_phase input label trainer reader_test) as [test_error st].
    cbv zeta in *. tauto.
Qed.

(** C4: the evaluation loop never changes a parameter, after any number
    of rounds, for every trainer and every held-out data source; running
    the evaluation phase a second time on the model the first run left,
    over the same data, reports the same error, and the parameters are
    after either run what they were before. *)
Theorem evaluation_leaves_parameters (input label : InputVariable) (trainer : T)
    (reader_test : RdE) :
  (∀ (n : nat) (st : TestState T RdE),
     parameters (test_trainer (Nat.iter n (test_step (features_map input label)) st)) =
       parameters (test_trainer st)) ∧
  (let '(error1, st1) := test_phase input label trainer reader_test in
   let '(error2, st2) := test_phase input label (test_trainer st1) reader_test in
   error1 = error2 ∧
   parameters (test_trainer st1) = parameters trainer ∧
   parameters (test_trainer st2) = parameters trainer).
Proof.
  split.
  - intros n st. apply (test_rounds (features_map input label) n st).
  - pose proof (test_phase_value input label trainer reader_test) as H1.
    destruct (test_phase input label trainer reader_test) as [error1 st1].
    pose proof (test_phase_value input label (test_trainer st1) reader_test) as H2.
    destruct (test_phase input label (test_trainer st1) reader_test) as [error2 st2].
    cbv zeta in *.
    destruct H1 as (_ & N1 & D1 & E1 & P1 & F1), H2 as (_ & N2 & D2 & E2 & P2 & _).
    split; [|split; congruence].
    pose proof (eval_errors_reads 312 (features_map input label)
                  (test_trainer st1) trainer reader_test P1 F1) as Q.
    rewrite E1, E2, N1, N2, D1, D2, Q. reflexivity.
Qed.

End EvaluationFacts.

(** ** The evaluation loop over a test file *)

Section SweepFacts.

Import Graph Builder Training.
Local Open Scope R_scope.
Context {T : Type} `{api : TrainerAPI T} `{laws : !TrainerLaws T}.

Lemma take_drop_prefix {A : Type} (l l' : list A) (c k m : nat) :
  take m l = take m l' → (c + k <= m)%nat → take k (drop c l) = take k (drop c l').
Proof.
  intros Hm Hle. rewrite !take_drop_commute. f_equal.
  assert (Ht : ∀ l0 : list A, take (c + k) l0 = take (c + k) (take m l0)).
  { intros l0. rewrite take_take. f_equal. lia. }
  rewrite (Ht l), (Ht l'), Hm. reflexivity.
Qed.

(** A batch of the sweep: the next [n] records of the file, if that many
    are left. *)
Lemma sweep_next_minibatch (file : list Sample) (c n : nat) (input_map : gmap nat Stream) :
  (c + n <= length file)%nat →
  next_minibatch {| records := file; cursor := c |} n input_map =
    ({| number_of_samples := n;
        streams := (λ s, map (stream_value s) (take n (drop c file))) <$> input_map |},
     {| records := file; cursor := (c + n)%nat |}).
Proof.
  intros Hle. unfold next_minibatch. cbn [read sweep_source records cursor].
  rewrite length_take, length_drop, Nat.min_l by lia.
  do 3 f_equal. lia.
Qed.

(** The errors of the first [n] rounds depend on the file only through
    the records these rounds read. *)
Lemma sweep_errors_prefix (file file' : list Sample) (m n : nat) (input_map : gmap nat Stream) :
  take m file' = take m file →
  length file' = length file →
  (m <= length file)%nat →
  ∀ (c : nat) (t : T),
    (c + 32 * n <= m)%nat →
    eval_errors n input_map t {| records := file'; cursor := c |} =
    eval_errors n input_map t {| records := file; cursor := c |}.
Proof.
  intros Hm Hl Hle. induction n as [|n IH]; intros c t Hc; [reflexivity|].
  cbn [eval_errors]. change (Z.to_nat test_minibatch_size) with 32%nat.
  rewrite !sweep_next_minibatch by lia.
  rewrite (take_drop_prefix file' file c 32 m Hm) by lia.
  destruct (test_minibatch t _) as [e t']. f_equal. apply IH. lia.
Qed.

(** After [n] rounds the reader stands behind the records it returned. *)
Lemma sweep_cursor (input_map : gmap nat Stream) (n : nat) :
  ∀ st : TestState T SweepReader,
    (cursor (test_reader st) + 32 * n <= length (records (test_reader st)))%nat →
    records (test_reader (Nat.iter n (test_step input_map) st)) = records (test_reader st) ∧
    cursor (test_reader (Nat.iter n (test_step input_map) st)) =
      (cursor (test_reader st) + 32 * n)%nat.
Proof.
  induction n as [|n IH]; intros st Hc.
  - simpl. split; [reflexivity|lia].
  - rewrite Nat.iter_succ_r.
    destruct (test_step_round input_map st) as (_ & _ & _ & _ & _ & Hr).
    destruct (test_reader st) as [file c] eqn:E. cbn [records cursor] in *.
    rewrite sweep_next_minibatch in Hr by lia. cbn [snd] in Hr.
    destruct (IH (test_step input_map st)) as [I1 I2].
    { rewrite Hr. cbn [records cursor]. lia. }
    rewrite I1, I2, Hr. cbn [records cursor]. split; [reflexivity|lia].
Qed.

(** C9: over a test file of the 10,000 declared samples the accumulated
    denominator is [floor(10000/32)*32 = 9984]; the reader is left behind
    the 9984th record with 16 records never requested; and the reported
    test error is the same for any two files that agree on their first
    9984 records, so the remaining 16 samples have no effect on it. *)
Theorem evaluation_skips_16_samples (input label : InputVariable) (trainer : T)
    (file : list Sample) :
  Z.of_nat (length file) = num_samples →
  let '(test_error, st) := test_phase input label trainer (create_test_reader file) in
  metric_denom st = (10000 `div` 32 * 32)%Z ∧
  metric_denom st = 9984%Z ∧
  records (test_reader st) = file ∧
  Z.of_nat (cursor (test_reader st)) = 9984%Z ∧
  Z.of_nat (length (drop (cursor (test_reader st)) file)) = 16%Z ∧
  ∀ file' : list Sample,
    length file' = length file →
    take (312 * 32) file' = take (312 * 32) file →
    (test_phase input label trainer (create_test_reader file')).1 = test_error.
Proof.
  intros Hlen. unfold num_samples in Hlen.
  pose proof (test_phase_value input label trainer (create_test_reader file)) as HV.
  pose proof (test_phase_error input label trainer (create_test_reader file)) as HE.
  assert (HC := sweep_cursor (features_map input label) 312
                  {| test_trainer := trainer; test_reader := create_test_reader file;
                     metric_numer := 0; metric_denom := 0 |}).
  cbn [test_reader create_test_reader records cursor] in HC.
  destruct HC as [C1 C2]; [lia|].
  assert (Hst : (test_phase input label trainer (create_test_reader file)).2 =
                Nat.iter 312 (test_step (features_map input label))
                  {| test_trainer := trainer; test_reader := create_test_reader file;
                     metric_numer := 0; metric_denom := 0 |}).
  { unfold test_phase. rewrite test_loop_rounds. reflexivity. }
  destruct (test_phase input label trainer (create_test_reader file)) as [test_error st].
  cbn [fst snd] in HE, Hst. cbv zeta in HV. destruct HV as (_ & _ & D1 & _).
  rewrite <- Hst in C1, C2.
  split; [rewrite D1; reflexivity|]. split; [rewrite D1; reflexivity|].
  split; [exact C1|]. split; [rewrite C2; lia|]. split.
  { rewrite C2, length_drop. lia. }
  intros file' Hl' Hpre.
  rewrite HE, test_phase_error. unfold create_test_reader.
  rewrite (sweep_errors_prefix file file' (312 * 32) 312 (features_map input label)
             Hpre Hl') by lia.
  reflexivity.
Qed.

End SweepFacts.

(** ** The comparison cell *)

Section CellFacts.

Import Graph Builder Inspector Labels Cells Cells2.
Local Open Scope R_scope.
Context `{fw : Framework} `{scipy : Scipy}.

Lemma cell_bind_call_Ok {A B : Type} (a : A) (k : A → Cell B) :
  (call (Ok a) ≫= k) = k a.
Proof. unfold call, mbind, cell_bind. cbn. destruct (k a). reflexivity. Qed.

Lemma cell_bind_call_Raise {A B : Type} (e : exn) (k : A → Cell B) :
  (call (Raise e) ≫= k) = {| outputs := []; outcome := Raise e |}.
Proof. reflexivity. Qed.

Lemma outcome_bind {A B : Type} (m : Cell A) (k : A → Cell B) :
  outcome (m ≫= k) =
    match outcome m with
    | Ok a => outcome (k a)
    | Raise e => Raise e
    end.
Proof. unfold mbind, cell_bind. destruct (outcome m); reflexivity. Qed.

(** On two images of one size the statements the comparison cells share
    never stop at the error of the similarity computation: the images
    have one size, and so have their two reconstructions. *)
Lemma compare_images_no_mismatch (store : list DenseParams) (model : Function)
    (imgA imgB : list R) :
  size imgA = size imgB →
  outcome (compare_images store model imgA imgB) ≠
    Raise (ValueError "Two images need to be of same dimension").
Proof.
  intros Hs. unfold compare_images, plot_image_pair.
  rewrite outcome_bind. cbn [call outcome]. rewrite (image_pair_same_size _ _ Hs).
  rewrite outcome_bind. cbn [emit outcome].
  rewrite outcome_bind. cbn [call outcome]. unfold reshape_28_28 at 1.
  destruct (decide (length imgA = 784%nat)); [|discriminate].
  rewrite outcome_bind. cbn [call outcome]. unfold reshape_28_28 at 1.
  destruct (decide (length imgB = 784%nat)); [|discriminate].
  rewrite outcome_bind. cbn [emit outcome].
  rewrite outcome_bind. cbn [call outcome].
  destruct (Function_eval store model imgA) as [pA|eA] eqn:EA;
    [|intros [= ->]; exact (Function_eval_raises_other _ _ _ _ EA eq_refl)].
  rewrite outcome_bind. cbn [call outcome].
  destruct (Function_eval store model imgB) as [pB|eB] eqn:EB;
    [|intros [= ->]; exact (Function_eval_raises_other _ _ _ _ EB eq_refl)].
  rewrite outcome_bind. cbn [call outcome].
  rewrite (image_pair_same_size pA pB (Function_eval_length_fixed _ _ _ _ _ _ EA EB)).
  rewrite outcome_bind. cbn [emit outcome].
  rewrite outcome_bind. cbn [call outcome]. unfold reshape_28_28 at 1.
  destruct (decide (length pA = 784%nat)); [|discriminate].
  rewrite outcome_bind. cbn [call outcome]. unfold reshape_28_28 at 1.
  destruct (decide (length pB = 784%nat)); [|discriminate].
  cbn [emit outcome]. discriminate.
Qed.


End CellFacts.

(** ** Runs on concrete inputs *)

Section Runs.

Import Graph Builder Inspector Labels Cells Training.
Local Open Scope R_scope.

Lemma frozen_trainer_laws : TrainerLaws FrozenTrainer.
Proof.
  constructor; intros; cbn; try reflexivity; lra.
Qed.

Lemma single_record_unbounded : Unbounded SingleRecordReader.
Proof. constructor. intros rd n. cbn. apply length_replicate. Qed.

(** C1, as the claim states it, fails: the number of update steps is
    computed from [num_samples_per_sweep = 60000], not from
    [epoch_size = 30000] (which only parameterizes the learning-rate
    schedule), so the loop runs [(60000*5) // 64 = 4687] rounds, which is
    not [(30000*5)/64], read as a floor division or as a quotient.  On
    the shallow model the progress printer counts 4687 updates. *)
Lemma training_steps_not_from_epoch_size :
  let input := {| uid := 0; shape := 784 |} in
  let label := {| uid := 1; shape := 784 |} in
  let r := create_model (fw := top1_framework) input initial_notebook in
  let target := target_of label in
  let trainer : FrozenTrainer :=
    Trainer r.1 (loss_of r.1 target) (ClassificationError r.1 target)
      (adam_sgd (parameters_of r.1)) (store r.2) in
  let reader_train := {| the_record := blank_sample; samples_drawn := 0 |} in
  num_minibatches_to_train isFast = 4687%Z ∧
  num_minibatches_to_train isFast ≠ ((30000 * 5) `div` 64)%Z ∧
  IZR (num_minibatches_to_train isFast) ≠ 30000 * 5 / 64 ∧
  let '(_, pp, _) :=
    training_loop (features_map input label) (trainer, ProgressPrinter_new 0, reader_train) in
  updates_since_start pp = 4687%nat ∧
  Z.of_nat (updates_since_start pp) ≠ ((30000 * 5) `div` 64)%Z.
Proof.
  intros input label r target trainer reader_train.
  unfold isFast. rewrite (proj1 num_minibatches_to_train_fast).
  split; [reflexivity|]. split; [discriminate|]. split; [lra|].
  pose proof (training_loop_average (laws := frozen_trainer_laws)
                (unbounded := single_record_unbounded)
                (features_map input label) trainer reader_train) as HL.
  destruct (training_loop (features_map input label)
              (trainer, ProgressPrinter_new 0, reader_train)) as [[t pp] rd].
  destruct HL as (Hu & _). split; [exact Hu|]. rewrite Hu. discriminate.
Qed.

Lemma training_performs_4687_updates_witness :
  let reader_train := {| the_record := blank_sample; samples_drawn := 0 |} in
  let reader_test := create_test_reader (replicate (Z.to_nat 10000) blank_sample) in
  TrainerLaws FrozenTrainer ∧ Unbounded SingleRecordReader ∧
  ∃ model train_error test_error final,
    train_and_test (T := FrozenTrainer) reader_train reader_test
      (create_model (fw := top1_framework)) initial_notebook =
      (Ok (model, train_error, test_error), final) ∧
    0 <= train_error <= 100.
Proof.
  intros reader_train reader_test.
  split; [exact frozen_trainer_laws|]. split; [exact single_record_unbounded|].
  apply (training_performs_4687_updates (T := FrozenTrainer)
           (laws := frozen_trainer_laws) (unbounded := single_record_unbounded)
           reader_train reader_test (create_model (fw := top1_framework))
           initial_notebook ∅
           {| frozen_parameters := []; frozen_evaluation := Constant 0;
              frozen_sample_count := 0 |}).
Defined.

Lemma evaluation_runs_312_batches_witness :
  let input := {| uid := 0; shape := 784 |} in
  let label := {| uid := 1; shape := 784 |} in
  let trainer : FrozenTrainer :=
    {| frozen_parameters := []; frozen_evaluation := Constant 0; frozen_sample_count := 0 |} in
  let reader_test := create_test_reader (replicate (Z.to_nat 10000) blank_sample) in
  TrainerLaws FrozenTrainer ∧
  let '(test_error, st) := test_phase input label trainer reader_test in
  metric_denom st = (312 * 32)%Z ∧
  test_error = 100 * (metric_numer st / IZR (metric_denom st)).
Proof.
  intros input label trainer reader_test.
  split; [exact frozen_trainer_laws|].
  pose proof (evaluation_runs_312_batches (laws := frozen_trainer_laws)
                input label trainer reader_test) as (_ & _ & HV).
  destruct (test_phase input label trainer reader_test) as [test_error st].
  cbv zeta in HV. tauto.
Defined.

Lemma evaluation_leaves_parameters_witness :
  let input := {| uid := 0; shape := 784 |} in
  let label := {| uid := 1; shape := 784 |} in
  let trainer : FrozenTrainer :=
    {| frozen_parameters := []; frozen_evaluation := Constant 0; frozen_sample_count := 0 |} in
  let reader_test := create_test_reader (replicate (Z.to_nat 10000) blank_sample) in
  TrainerLaws FrozenTrainer ∧
  let '(error1, st1) := test_phase input label trainer reader_test in
  let '(error2, st2) := test_phase input label (test_trainer st1) reader_test in
  error1 = error2 ∧
  parameters (test_trainer st1) = parameters trainer ∧
  parameters (test_trainer st2) = parameters trainer.
Proof.
  intros input label trainer reader_test.
  split; [exact frozen_trainer_laws|].
  apply (evaluation_leaves_parameters (laws := frozen_trainer_laws)
           input label trainer reader_test).
Defined.

Lemma evaluation_skips_16_samples_witness :
  let input := {| uid := 0; shape := 784 |} in
  let label := {| uid := 1; shape := 784 |} in
  let trainer : FrozenTrainer :=
    {| frozen_parameters := []; frozen_evaluation := Constant 0; frozen_sample_count := 0 |} in
  let file := replicate (Z.to_nat 10000) blank_sample in
  TrainerLaws FrozenTrainer ∧
  Z.of_nat (length file) = num_samples ∧
  let '(test_error, st) := test_phase input label trainer (create_test_reader file) in
  metric_denom st = 9984%Z ∧
  Z.of_nat (cursor (test_reader st)) = 9984%Z.
Proof.
  intros input label trainer file.
  assert (Hlen : Z.of_nat (length file) = num_samples).
  { unfold file. rewrite length_replicate. unfold num_samples. lia. }
  split; [exact frozen_trainer_laws|]. split; [exact Hlen|].
  pose proof (evaluation_skips_16_samples (laws := frozen_trainer_laws)
                input label trainer file Hlen) as HV.
  destruct (test_phase input label trainer (create_test_reader file)) as [test_error st].
  tauto.
Defined.

End Runs.

(** ** The steps of the training loop *)

Section StepFacts.

Import Graph Builder Training Shapes Steps.
Local Open Scope R_scope.
Context {RdT RdE T : Type}.
Context `{source_train : MinibatchSource RdT} `{source_test : MinibatchSource RdE}.
Context `{fw : Framework}.
Context `{api : TrainerAPI T} `{laws : !TrainerLaws T} `{shapes : !ShapePreserving T}.
Context `{lossapi : !LossAPI T} `{losslaws : !LossLaws T}.

Lemma same_shapes_trans (s1 s2 s3 : list DenseParams) :
  same_shapes s1 s2 → same_shapes s2 s3 → same_shapes s1 s3.
Proof.
  unfold same_shapes. apply Forall2_trans.
  intros p q r (A1 & A2 & A3) (B1 & B2 & B3). split; [congruence|]. split; [|congruence].
  revert A2 B2. apply Forall2_trans. intros; congruence.
Qed.

Lemma mapM_result_Ok {A B : Type} (f : A → result B) (l : list A) :
  (∀ a, a ∈ l → ∃ c, f a = Ok c) →
  ∃ cs, mapM f l = Ok cs ∧ Forall2 (λ a c, f a = Ok c) l cs.
Proof.
  induction l as [|a l IH]; intros Hf.
  - exists []. split; [reflexivity|constructor].
  - destruct (Hf a) as [c Hc]; [left|].
    destruct IH as (cs & E & F); [intros a' Ha'; apply Hf; right; exact Ha'|].
    exists (c :: cs). split; [|constructor; assumption].
    change (mapM f (a :: l)) with (y ← f a; ys ← mapM f l; mret (y :: ys)).
    rewrite Hc. cbn [mbind result_bind]. rewrite E. reflexivity.
Qed.

Lemma next_minibatch_reader (reader : RdT) (n : nat) (input_map : gmap nat Stream) :
  (next_minibatch reader n input_map).2 = (read reader n).2.
Proof. unfold next_minibatch. destruct (read reader n). reflexivity. Qed.

Lemma training_steps_length (n : nat) (input_map : gmap nat Stream) (trainer : T)
    (reader_train : RdT) :
  length (training_steps n input_map trainer reader_train) = n.
Proof.
  revert trainer reader_train. induction n as [|n IH]; intros trainer reader_train;
    cbn [training_steps]; [reflexivity|].
  destruct (next_minibatch reader_train (Z.to_nat minibatch_size) input_map) as [data rd].
  cbn [length]. rewrite IH. reflexivity.
Qed.

(** The loop is its unrolling: after [k] rounds the trainer and the
    progress printer are those of the [k] unrolled steps. *)
Lemma iter_train_steps (k : nat) (input_map : gmap nat Stream) (trainer : T)
    (pp : ProgressPrinter) (reader_train : RdT) :
  ∃ reader',
    Nat.iter k (train_step input_map) (trainer, pp, reader_train) =
      (trained trainer (training_steps k input_map trainer reader_train),
       progress pp (training_steps k input_map trainer reader_train), reader').
Proof.
  revert trainer pp reader_train. induction k as [|k IH]; intros trainer pp reader_train.
  - exists reader_train. reflexivity.
  - rewrite Nat.iter_succ_r. cbn [training_steps].
    assert (Hst : train_step input_map (trainer, pp, reader_train) =
                  let '(data, rd) :=
                    next_minibatch reader_train (Z.to_nat minibatch_size) input_map in
                  (train_minibatch trainer data,
                   update_with_trainer pp (train_minibatch trainer data) true, rd))
      by reflexivity.
    rewrite Hst.
    destruct (next_minibatch reader_train (Z.to_nat minibatch_size) input_map) as [data rd].
    destruct (IH (train_minibatch trainer data)
                (update_with_trainer pp (train_minibatch trainer data) true) rd) as [rd' E].
    exists rd'. rewrite E. reflexivity.
Qed.

(** What every training step preserves holds of the trainer each round
    starts from and of the trainer the loop leaves; every batch is drawn
    from the training source, as the sources it passes through leave
    it. *)
Lemma training_steps_inv (P : T → Prop) (Q : RdT → Prop) (input_map : gmap nat Stream) :
  (∀ t data, P t → P (train_minibatch t data)) →
  (∀ rd n, Q rd → Q (read rd n).2) →
  ∀ n trainer reader_train, P trainer → Q reader_train →
    P (trained trainer (training_steps n input_map trainer reader_train)) ∧
    ∀ i t data,
      training_steps n input_map trainer reader_train !! i = Some (t, data) →
      P t ∧ ∃ reader, Q reader ∧
                      data = (next_minibatch reader (Z.to_nat minibatch_size) input_map).1.
Proof.
  intros Hstep Hread. induction n as [|n IH]; intros trainer reader_train HP HQ.
  - split; [exact HP|]. intros i t data Hi. cbn [training_steps] in Hi.
    rewrite lookup_nil in Hi. discriminate.
  - cbn [training_steps].
    pose proof (next_minibatch_reader reader_train (Z.to_nat minibatch_size) input_map) as Hrd.
    destruct (next_minibatch reader_train (Z.to_nat minibatch_size) input_map)
      as [data rd] eqn:E.
    cbn [snd] in Hrd.
    destruct (IH (train_minibatch trainer data) rd (Hstep _ _ HP)) as [IH1 IH2].
    { rewrite Hrd. apply Hread, HQ. }
    split; [exact IH1|].
    intros [|i] t d Hi.
    + cbn in Hi. injection Hi as <- <-. split; [exact HP|].
      exists reader_train. split; [exact HQ|]. rewrite E. reflexivity.
    + cbn in Hi. apply (IH2 i t d Hi).
Qed.

(** [train_and_test] in terms of the unrolled steps: the trainer it
    builds, with the loss and the metric of the recipe, goes through the
    4687 steps, and what is returned is read off the trainer and the
    progress printer they leave. *)
Lemma train_and_test_steps `{unbounded : !Unbounded RdT} (reader_train : RdT)
    (reader_test : RdE) (model_func : Function → Notebook → Function * Notebook)
    (nb : Notebook) :
  let input := (Input input_dim nb).1 in
  let label := (Input input_dim (Input input_dim nb).2).1 in
  let r := model_func (Var input) (Input input_dim (Input input_dim nb).2).2 in
  let trainer :=
    Trainer r.1 (loss_of r.1 (target_of label)) (ClassificationError r.1 (target_of label))
      (adam_sgd (parameters_of r.1)) (store r.2) in
  let steps := training_steps 4687 (features_map input label) trainer reader_train in
  let tested := test_phase input label (trained trainer steps) reader_test in
  ∃ avg rt,
    avg_metric_since_start (progress (ProgressPrinter_new 0) steps) = Ok avg ∧
    0 <= avg * 100 <= 100 ∧
    train_and_test reader_train reader_test model_func nb =
      (Ok (r.1, avg * 100, tested.1),
       (with_store r.2 (parameters (trained trainer steps)), rt, test_reader tested.2)).
Proof.
  intros input label r trainer steps tested.
  subst input label r trainer steps tested. unfold train_and_test, Input. cbn [fst snd].
  destruct (model_func _ _) as [model nb']. cbn [fst snd].
  match goal with
  | |- context [training_loop ?m (?t, ProgressPrinter_new 0, reader_train)] =>
      pose proof (training_loop_average m t reader_train) as HL;
      destruct (iter_train_steps 4687 m t (ProgressPrinter_new 0) reader_train) as [rd' E];
      rewrite <- (training_loop_rounds m (t, ProgressPrinter_new 0, reader_train)) in E
  end.
  rewrite E in HL. rewrite E. destruct HL as (_ & _ & _ & avg & Ha & Hr).
  rewrite Ha.
  match goal with
  | |- context [test_phase ?i ?l ?t reader_test] =>
      pose proof (test_phase_value i l t reader_test) as HV;
      destruct (test_phase i l t reader_test) as [test_error st]
  end.
  cbv zeta in HV. destruct HV as (_ & _ & _ & _ & Hpar & _). cbn [fst snd].
  exists avg, rd'. split; [reflexivity|]. split; [exact Hr|]. rewrite Hpar. reflexivity.
Qed.

(** The loss of a batch drawn with the input map of [train_and_test]
    from a source whose records have 784 features. *)
Lemma batch_loss_values `{unbounded : !Unbounded RdT} (nb : Notebook)
    (input label : InputVariable) (r : Function * Notebook) (store' : list DenseParams)
    (reader : RdT) :
  shape input = input_dim →
  shape label = input_dim →
  r = create_model input nb ∨ r = create_deep_model input nb →
  same_shapes (store r.2) store' →
  Forall (λ s, length (field_features s) = input_dim)
    (read reader (Z.to_nat minibatch_size)).1 →
  let data := (next_minibatch reader (Z.to_nat minibatch_size) (features_map input label)).1 in
  number_of_samples data = 64%nat ∧
  ∃ values,
    sample_loss_values store' (loss_of r.1 (target_of label)) data = Ok values ∧
    length values = 64%nat ∧
    ∀ k l, values !! k = Some l →
      ∃ x p,
        sample_env data k !! uid input = Some x ∧
        sample_env data k !! uid label = Some x ∧
        eval store' (sample_env data k) r.1 = Ok p ∧
        length x = input_dim ∧ length p = input_dim ∧ length l = input_dim ∧
        ∀ j xj, x !! j = Some xj →
          ∃ z pj,
            p !! j = Some pj ∧ pj = 1 / (1 + exp (- z)) ∧
            let y := xj / 255 in
            l !! j = Some (- (y * ln pj + (1 - y) * ln (1 - pj))).
Proof.
  intros Hin Hlab Hr HS Hrec data.
  assert (Hn : number_of_samples data = 64%nat).
  { subst data. rewrite next_minibatch_samples, read_full. reflexivity. }
  split; [exact Hn|].
  assert (Hsample : ∀ k, (k < 64)%nat →
            ∃ s, (read reader (Z.to_nat minibatch_size)).1 !! k = Some s ∧
                 length (field_features s) = input_dim).
  { intros k Hk.
    assert (is_Some ((read reader (Z.to_nat minibatch_size)).1 !! k)) as [s Hs].
    { apply lookup_lt_is_Some. rewrite read_full. exact Hk. }
    exists s. split; [exact Hs|]. apply (Forall_lookup_1 _ _ _ _ Hrec Hs). }
  unfold sample_loss_values. rewrite Hn.
  destruct (mapM_result_Ok
              (λ k, eval store' (sample_env data k) (loss_of r.1 (target_of label)))
              (seq 0 64)) as (values & E & F).
  { intros k Hk. apply elem_of_seq in Hk. destruct (Hsample k) as (s & Hs & Hl); [lia|].
    destruct (loss_on_sample nb input label r store' reader k s Hin Hlab Hr HS Hs Hl)
      as (_ & _ & p & l & _ & El & _).
    exists l. exact El. }
  exists values. split; [exact E|]. split.
  { rewrite <- (Forall2_length _ _ _ F). apply length_seq. }
  intros k l Hk.
  destruct (Forall2_lookup_r _ _ _ _ _ F Hk) as (k' & Hk' & El).
  apply lookup_seq in Hk' as [-> Hlt]. cbn [Nat.add] in El.
  destruct (Hsample k Hlt) as (s & Hs & Hl).
  destruct (loss_on_sample nb input label r store' reader k s Hin Hlab Hr HS Hs Hl)
    as (Ei & El' & p & l' & Ep & El'' & Lp & Ll & Hform).
  fold data in Ei, El', Ep, El''. rewrite El in El''. injection El'' as <-.
  exists (field_features s), p.
  split; [exact Ei|]. split; [exact El'|]. split; [exact Ep|].
  split; [exact Hl|]. split; [exact Lp|]. split; [exact Ll|]. exact Hform.
Qed.

(** C7: in every training step of [train_and_test], for the shallow and
    for the deep model, the loss the trainer computes is the loss
    function of the recipe, [-(target*log(model) + (1-target)*log(1-model))]
    with [target = label/255], on a batch of 64 samples drawn with both
    the input and the label variable mapped to the features: for every
    sample its value is, component by component, the binary
    cross-entropy [-(y*log(p) + (1-y)*log(1-p))] between the model's
    sigmoid output [p] under the parameters the step starts from and the
    target [y], the sample's own features rescaled by [1/255], and the
    loss the step reports is these values reduced per sample and
    averaged over the batch.  The trainer that goes through the 4687
    steps is the one [train_and_test] builds, and the parameters it
    leaves are the ones the notebook holds afterwards. *)
Theorem loss_is_binary_cross_entropy `{unbounded : !Unbounded RdT} (reader_train : RdT)
    (reader_test : RdE) (nb : Notebook)
    (model_func : Function → Notebook → Function * Notebook) (wf : RdT → Prop) :
  model_func = create_model ∨ model_func = create_deep_model →
  wf reader_train →
  (∀ rd n, wf rd →
     wf (read rd n).2 ∧ Forall (λ s, length (field_features s) = input_dim) (read rd n).1) →
  let input := (Input input_dim nb).1 in
  let label := (Input input_dim (Input input_dim nb).2).1 in
  let r := model_func (Var input) (Input input_dim (Input input_dim nb).2).2 in
  let loss := loss_of r.1 (target_of label) in
  let trainer :=
    Trainer r.1 loss (ClassificationError r.1 (target_of label))
      (adam_sgd (parameters_of r.1)) (store r.2) in
  let steps := training_steps 4687 (features_map input label) trainer reader_train in
  (∃ returned rt re,
     train_and_test reader_train reader_test model_func nb =
       (returned, (with_store r.2 (parameters (trained trainer steps)), rt, re))) ∧
  length steps = 4687%nat ∧
  ∀ i t data, steps !! i = Some (t, data) →
    loss_function t = loss ∧
    number_of_samples data = 64%nat ∧
    ∃ values,
      sample_loss_values (parameters t) loss data = Ok values ∧
      length values = 64%nat ∧
      previous_minibatch_loss_average (train_minibatch t data) =
        Vec.sum (map per_sample values) / 64 ∧
      ∀ k l, values !! k = Some l →
        ∃ x p,
          sample_env data k !! uid input = Some x ∧
          sample_env data k !! uid label = Some x ∧
          eval (parameters t) (sample_env data k) r.1 = Ok p ∧
          length x = input_dim ∧ length p = input_dim ∧ length l = input_dim ∧
          ∀ j xj, x !! j = Some xj →
            ∃ z pj,
              p !! j = Some pj ∧ pj = 1 / (1 + exp (- z)) ∧
              let y := xj / 255 in
              l !! j = Some (- (y * ln pj + (1 - y) * ln (1 - pj))).
Proof.
  intros Hf Hwf0 Hwf input label r loss trainer steps.
  split; [|split].
  - destruct (train_and_test_steps reader_train reader_test model_func nb)
      as (avg & rt & _ & _ & E).
    eexists _, _, _. exact E.
  - apply training_steps_length.
  - intros i t data Hi.
    assert (Hin : shape input = input_dim) by reflexivity.
    assert (Hlab : shape label = input_dim) by reflexivity.
    set (nb2 := (Input input_dim (Input input_dim nb).2).2) in *.
    assert (Hr : r = create_model input nb2 ∨ r = create_deep_model input nb2).
    { subst r. destruct Hf as [-> | ->]; [left|right]; reflexivity. }
    destruct (training_steps_inv
                (λ t, loss_function t = loss ∧ same_shapes (store r.2) (parameters t))
                wf (features_map input label)) with (n := 4687%nat) (trainer := trainer)
                (reader_train := reader_train) as [_ Hsteps].
    { intros t0 d0 [H1 H2]. split.
      - rewrite train_minibatch_loss_function. exact H1.
      - eapply same_shapes_trans; [exact H2|apply train_minibatch_shapes]. }
    { intros rd n Hrd. apply (Hwf rd n Hrd). }
    { subst trainer. split.
      - apply Trainer_loss_function.
      - rewrite Trainer_parameters. apply same_shapes_refl. }
    { exact Hwf0. }
    destruct (Hsteps i t data Hi) as ((Hloss & HS) & reader & Hrd & ->).
    split; [exact Hloss|].
    destruct (batch_loss_values nb2 input label r (parameters t) reader Hin Hlab Hr HS)
      as (Hn & values & Ev & Lv & Hval).
    { apply (Hwf reader _ Hrd). }
    split; [exact Hn|].
    exists values. split; [exact Ev|]. split; [exact Lv|]. split; [|exact Hval].
    rewrite (train_minibatch_loss t _ values) by (rewrite Hloss; exact Ev).
    rewrite Hn. assert (HI : INR 64 = 64) by (rewrite INR_IZR_INZ; reflexivity).
    rewrite HI. reflexivity.
Qed.

End StepFacts.

Section StepRuns.

Import Graph Builder Training Shapes Steps.
Local Open Scope R_scope.

Lemma eval_trainer_laws `{fw : Framework} : TrainerLaws EvalTrainer.
Proof.
  constructor; intros; cbn; try reflexivity; lra.
Qed.

Lemma eval_trainer_shapes `{fw : Framework} : ShapePreserving EvalTrainer.
Proof.
  split.
  - reflexivity.
  - intros t data. apply same_shapes_refl.
Qed.

Lemma eval_trainer_loss_laws `{fw : Framework} : LossLaws EvalTrainer.
Proof.
  split.
  - reflexivity.
  - reflexivity.
  - intros t data values E. cbn in E |- *. rewrite E. reflexivity.
Qed.

Lemma loss_is_binary_cross_entropy_witness :
  let reader_train := {| the_record := blank_sample; samples_drawn := 0 |} in
  let reader_test := create_test_reader (replicate (Z.to_nat 10000) blank_sample) in
  let wf := λ rd : SingleRecordReader, the_record rd = blank_sample in
  let input := (Input input_dim initial_notebook).1 in
  let label := (Input input_dim (Input input_dim initial_notebook).2).1 in
  let r := create_model (fw := top1_framework) (Var input)
             (Input input_dim (Input input_dim initial_notebook).2).2 in
  let trainer : EvalTrainer :=
    Trainer (TrainerAPI := eval_trainer (fw := top1_framework)) r.1 (loss_of r.1 (target_of label))
      (ClassificationError r.1 (target_of label)) (adam_sgd (parameters_of r.1))
      (store r.2) in
  wf reader_train ∧
  (∀ rd n, wf rd →
     wf (read rd n).2 ∧ Forall (λ s, length (field_features s) = input_dim) (read rd n).1) ∧
  length (training_steps (api := eval_trainer (fw := top1_framework)) 4687
            (features_map input label) trainer reader_train) = 4687%nat.
Proof.
  intros reader_train reader_test wf input label r trainer.
  assert (H0 : wf reader_train) by reflexivity.
  assert (H1 : ∀ rd n, wf rd →
            wf (read rd n).2 ∧
            Forall (λ s, length (field_features s) = input_dim) (read rd n).1).
  { intros rd n Hrd. split; [exact Hrd|]. cbn [read single_record_source fst].
    apply Forall_forall. intros s Hs. apply elem_of_replicate in Hs as [-> _].
    rewrite Hrd. reflexivity. }
  split; [exact H0|]. split; [exact H1|].
  apply (loss_is_binary_cross_entropy (T := EvalTrainer) (fw := top1_framework)
           (laws := eval_trainer_laws) (shapes := eval_trainer_shapes)
           (losslaws := eval_trainer_loss_laws) (unbounded := single_record_unbounded)
           reader_train reader_test initial_notebook create_model wf
           (or_introl eq_refl) H0 H1).
Defined.

End StepRuns.

(** * Further properties *)

(** ** Locating the data files *)

Section DataFilesFacts.

Import DataFiles.

Lemma search_first_match (isfile : string → bool) (dirs : list string) (last : option Located) :
  match search isfile dirs last with
  | (true, found) =>
      ∃ pre dir post,
        dirs = pre ++ dir :: post ∧
        Forall (λ d, ¬ has_data isfile d) pre ∧
        has_data isfile dir ∧
        found = Some {| data_dir := dir;
                        train_file := path_join dir train_name;
                        test_file := path_join dir test_name |}
  | (false, _) => Forall (λ d, ¬ has_data isfile d) dirs
  end.
Proof.
  revert last. induction dirs as [|dir dirs IH]; intros last; cbn [search]; [constructor|].
  cbn [train_file test_file].
  destruct (isfile (path_join dir train_name)) eqn:E1;
    [destruct (isfile (path_join dir test_name)) eqn:E2|]; cbn [andb].
  - exists [], dir, dirs. repeat split; try assumption. constructor.
  - specialize (IH (Some {| data_dir := dir; train_file := path_join dir train_name;
                            test_file := path_join dir test_name |})).
    destruct (search isfile dirs _) as [[|] found].
    + destruct IH as (pre & d & post & -> & Hpre & Hd & ->).
      exists (dir :: pre), d, post. repeat split; try apply Hd.
      constructor; [|exact Hpre]. intros [_ H2]. congruence.
    + constructor; [|exact IH]. intros [_ H2]. congruence.
  - specialize (IH (Some {| data_dir := dir; train_file := path_join dir train_name;
                            test_file := path_join dir test_name |})).
    destruct (search isfile dirs _) as [[|] found].
    + destruct IH as (pre & d & post & -> & Hpre & Hd & ->).
      exists (dir :: pre), d, post. repeat split; try apply Hd.
      constructor; [|exact Hpre]. intros [H1 _]. congruence.
    + constructor; [|exact IH]. intros [H1 _]. congruence.
Qed.

(** X1: the cell that locates the data takes the first directory of its
    list that holds both the training and the test file (a directory
    holding only one of them is passed over), and the two file names it
    leaves are those inside that directory; it raises [ValueError]
    exactly when no directory of the list holds both files. *)
Theorem locate_data_first_match (isfile : string → bool) :
  (∀ here : Located,
     locate_data isfile = Ok here ↔
     ∃ pre post,
       data_dirs = pre ++ data_dir here :: post ∧
       Forall (λ d, ¬ has_data isfile d) pre ∧
       has_data isfile (data_dir here) ∧
       train_file here = path_join (data_dir here) train_name ∧
       test_file here = path_join (data_dir here) test_name) ∧
  (is_ValueError (locate_data isfile) ↔ Forall (λ d, ¬ has_data isfile d) data_dirs) ∧
  (raises (locate_data isfile) → is_ValueError (locate_data isfile)).
Proof.
  unfold locate_data, locate_in.
  pose proof (search_first_match isfile data_dirs None) as HS.
  destruct (search isfile data_dirs None) as [[|] found].
  - destruct HS as (pre & dir & post & Hd & Hpre & Hdir & ->).
    split; [|split].
    + intros here. split.
      * intros [= <-]. exists pre, post. cbn. repeat split; try assumption; apply Hdir.
      * intros (pre' & post' & Hd' & Hpre' & Hdir' & Htr & Hte).
        assert (Heq : dir = data_dir here).
        { rewrite Hd in Hd'. clear Hd.
          revert pre' Hd' Hpre'. induction Hpre as [|d pre Hno _ IH]; intros pre' Hd' Hpre'.
          - destruct pre' as [|d' pre']; cbn in Hd'; [congruence|].
            injection Hd' as <- _. apply Forall_cons in Hpre' as [Hno' _]. contradiction.
          - destruct pre' as [|d' pre']; cbn in Hd'.
            + injection Hd' as -> _. contradiction.
            + injection Hd' as <- Hd'. apply Forall_cons in Hpre' as [_ Hpre'].
              apply (IH pre' Hd' Hpre'). }
        destruct here as [hd ht he]. cbn in *. subst. reflexivity.
    + cbn. split; [intros []|]. intros Hall. exfalso.
      rewrite Hd in Hall. apply Forall_app in Hall as [_ Hall].
      apply Forall_cons in Hall as [Hno _]. contradiction.
    + intros [].
  - split; [|split].
    + intros here. split; [destruct found; discriminate|].
      intros (pre & post & Hd & _ & Hdir & _). exfalso.
      rewrite Hd in HS. apply Forall_app in HS as [_ HS].
      apply Forall_cons in HS as [Hno _]. contradiction.
    + destruct found; cbn; tauto.
    + destruct found; cbn; tauto.
Qed.

End DataFilesFacts.

(** ** The cosine similarity of two images *)

Section CosineFacts.

Import Inspector.
Local Open Scope R_scope.
Context `{scipy : Scipy}.

Lemma dot_comm (u v : list R) : Vec.dot u v = Vec.dot v u.
Proof.
  revert v. induction u as [|x u IH]; intros [|y v]; cbn; try reflexivity.
  rewrite IH. lra.
Qed.

Lemma dot_zero_l (u v : list R) : Vec.is_zero u → Vec.dot u v = 0.
Proof.
  intros Hz. revert v. induction Hz as [|x u Hx _ IH]; intros [|y v]; cbn; try reflexivity.
  rewrite IH, Hx. lra.
Qed.

Lemma dot_nonneg (u v : list R) :
  Forall (λ x, 0 <= x) u → Forall (λ x, 0 <= x) v → 0 <= Vec.dot u v.
Proof.
  intros Hu. revert v. induction Hu as [|x u Hx _ IH]; intros v Hv; [cbn; lra|].
  destruct Hv as [|y v Hy Hv]; cbn; [lra|].
  specialize (IH v Hv). nra.
Qed.

Lemma dot_pos (u v : list R) :
  u ≠ [] → length u = length v →
  Forall (λ x, 0 < x) u → Forall (λ x, 0 < x) v → 0 < Vec.dot u v.
Proof.
  intros Hne Hl Hu Hv.
  destruct Hu as [|x u Hx Hu]; [contradiction|].
  destruct Hv as [|y v Hy Hv]; [discriminate|]. cbn.
  assert (0 <= Vec.dot u v).
  { apply dot_nonneg; eapply Forall_impl; try eassumption; cbn; intros; lra. }
  nra.
Qed.

Lemma norm_nonneg (u : list R) : 0 <= Vec.norm u.
Proof. unfold Vec.norm. apply sqrt_pos. Qed.

Lemma norm_zero (u : list R) : Vec.norm u = 0 ↔ Vec.is_zero u.
Proof.
  unfold Vec.norm. split.
  - intros Hn. apply dot_self_zero. apply sqrt_eq_0; [apply dot_self_nonneg|exact Hn].
  - intros Hz. rewrite (dot_zero_l u u Hz). apply sqrt_0.
Qed.

(** The Cauchy-Schwarz inequality for [np.dot]. *)
Lemma cauchy_schwarz (u v : list R) :
  Vec.dot u v * Vec.dot u v <= Vec.dot u u * Vec.dot v v.
Proof.
  revert v. induction u as [|x u IH]; intros [|y v]; cbn.
  - lra.
  - lra.
  - pose proof (dot_self_nonneg (x :: u)) as Hn. cbn in Hn. lra.
  - specialize (IH v).
    pose proof (dot_self_nonneg u) as HA. pose proof (dot_self_nonneg v) as HB.
    pose proof (sqrt_sqrt _ HA) as Ha. pose proof (sqrt_sqrt _ HB) as Hb.
    pose proof (sqrt_pos (Vec.dot u u)) as Ha0. pose proof (sqrt_pos (Vec.dot v v)) as Hb0.
    set (a := sqrt (Vec.dot u u)) in *. set (b := sqrt (Vec.dot v v)) in *.
    set (A := Vec.dot u u) in *. set (B := Vec.dot v v) in *. set (C := Vec.dot u v) in *.
    assert (Hab : 0 <= a * b) by nra.
    assert (HC2 : C * C <= (a * b) * (a * b)) by nra.
    assert (HC : - (a * b) <= C <= a * b) by nra.
    pose proof (Rle_0_sqr (x * b - y * a)) as H1. unfold Rsqr in H1.
    pose proof (Rle_0_sqr (x * b + y * a)) as H2. unfold Rsqr in H2.
    assert (Hxy : 2 * (x * y) * C <= x * x * B + y * y * A).
    { destruct (Rle_dec 0 (x * y)).
      - assert (2 * (x * y) * C <= 2 * (x * y) * (a * b)) by nra. nra.
      - assert (2 * (x * y) * C <= 2 * (x * y) * (- (a * b))) by nra. nra. }
    nra.
Qed.

Lemma dot_le_norms (u v : list R) :
  - (Vec.norm u * Vec.norm v) <= Vec.dot u v <= Vec.norm u * Vec.norm v.
Proof.
  pose proof (cauchy_schwarz u v) as HC.
  pose proof (norm_sqr u) as Hu. pose proof (norm_sqr v) as Hv.
  pose proof (norm_nonneg u) as Hu0. pose proof (norm_nonneg v) as Hv0.
  assert (0 <= Vec.norm u * Vec.norm v) by nra.
  assert (Vec.dot u v * Vec.dot u v <= (Vec.norm u * Vec.norm v) * (Vec.norm u * Vec.norm v))
    by nra.
  nra.
Qed.

(** The similarity of two images of one size, neither all zero. *)
Lemma similarity_finite (u v : list R) :
  size u = size v → ¬ Vec.is_zero u → ¬ Vec.is_zero v →
  image_pair_cosine_distance u v =
    Ok (Finite (1 - (1 - Vec.dot u v / (Vec.norm u * Vec.norm v)))) ∧
  0 < Vec.norm u * Vec.norm v.
Proof.
  intros Hs Hu Hv.
  assert (Hpos : 0 < Vec.norm u * Vec.norm v).
  { pose proof (norm_nonneg u). pose proof (norm_nonneg v).
    assert (Vec.norm u ≠ 0) by (intros E; apply Hu, norm_zero, E).
    assert (Vec.norm v ≠ 0) by (intros E; apply Hv, norm_zero, E).
    apply Rmult_lt_0_compat; lra. }
  split; [|exact Hpos].
  rewrite (image_pair_same_size u v Hs). unfold cosine.
  destruct (Req_dec_T (Vec.norm u * Vec.norm v) 0) as [E|_]; [lra|]. reflexivity.
Qed.

(** X2: the similarity is symmetric in its two images, the refusal of
    images of different sizes included. *)
Theorem similarity_symmetric (img1 img2 : list R) :
  image_pair_cosine_distance img1 img2 = image_pair_cosine_distance img2 img1.
Proof.
  unfold image_pair_cosine_distance, cosine.
  destruct (decide (size img1 ≠ size img2)) as [N|E],
           (decide (size img2 ≠ size img1)) as [N'|E']; try reflexivity.
  - exfalso. apply N. destruct (decide (size img1 = size img2)); [assumption|].
    exfalso. apply E'. congruence.
  - exfalso. apply N'. destruct (decide (size img2 = size img1)); [assumption|].
    exfalso. apply E. congruence.
  - rewrite (dot_comm img1 img2), (Rmult_comm (Vec.norm img1)). reflexivity.
Qed.


End CosineFacts.

(** ** More on the label grouping *)

Section LabelMoreFacts.

Import Labels LabelSpec.
Local Open Scope R_scope.

Lemma filter_enumerate_sorted (k : nat) (labels : list nat) (start : nat) :
  StronglySorted lt (filter (λ p, p.2 = k) (enumerate_from start labels)).*1 ∧
  Forall (λ i, (start <= i)%nat) (filter (λ p, p.2 = k) (enumerate_from start labels)).*1.
Proof.
  revert start. induction labels as [|l labels IH]; intros start; cbn [enumerate_from].
  - split; constructor.
  - destruct (IH (S start)) as [IS IF].
    rewrite filter_cons. cbn [snd]. destruct (decide (l = k)); cbn [fmap list_fmap fst].
    + split.
      * constructor; [exact IS|]. eapply Forall_impl; [exact IF|]. cbn. intros. lia.
      * constructor; [lia|]. eapply Forall_impl; [exact IF|]. cbn. intros. lia.
    + split; [exact IS|]. eapply Forall_impl; [exact IF|]. cbn. intros. lia.
Qed.

(** X5: every group of the label dict lists its sample indices in
    strictly increasing order, so the first entry of a group, the one the
    comparison cells pick, is the first sample of the batch with that
    label. *)
Theorem label_groups_increasing (labels : list nat) (k : nat) :
  StronglySorted lt (members (label_dict labels) k) ∧
  ∀ i rest,
    members (label_dict labels) k = i :: rest →
    labels !! i = Some k ∧
    (∀ j, (j < i)%nat → labels !! j ≠ Some k) ∧
    Forall (λ j, (i < j)%nat) rest.
Proof.
  assert (HS : StronglySorted lt (members (label_dict labels) k)).
  { rewrite members_label_dict. apply filter_enumerate_sorted. }
  split; [exact HS|]. intros i rest E.
  assert (Hin : ∀ j, j ∈ i :: rest ↔ labels !! j = Some k).
  { intros j. rewrite <- E. apply elem_of_members_label_dict. }
  rewrite E in HS. apply StronglySorted_inv in HS as [_ Hrest].
  split; [apply Hin; left|]. split; [|exact Hrest].
  intros j Hj Hl. apply Hin in Hl. apply elem_of_cons in Hl as [->|Hl]; [lia|].
  pose proof (proj1 (Forall_forall _ _) Hrest j Hl). cbn in *. lia.
Qed.

Lemma print_groups_reads (idx : list nat) (d : gmap nat (list nat)) :
  (print_groups d idx).1 = map (λ i, (i, members d i)) idx ∧
  (∀ i, i ∈ idx → is_Some ((print_groups d idx).2 !! i)) ∧
  (∀ k, is_Some (d !! k) ∨ k ∉ idx → (print_groups d idx).2 !! k = d !! k).
Proof.
  revert d. induction idx as [|i idx IH]; intros d; cbn [print_groups map].
  - split; [reflexivity|]. split; [intros i Hi; inversion Hi|reflexivity].
  - pose proof (members_getitem d i) as Hg.
    assert (Hd' : (getitem d i).2 !! i = Some (members d i) ∧
                  ∀ k, is_Some (d !! k) ∨ k ≠ i → (getitem d i).2 !! k = d !! k).
    { unfold getitem, members. destruct (d !! i) as [l|] eqn:E; cbn.
      - split; [exact E|reflexivity].
      - split; [apply lookup_insert_eq|]. intros k [[x Hx]|Hk].
        + rewrite lookup_insert_ne; [reflexivity|]. intros <-. congruence.
        + rewrite lookup_insert_ne; [reflexivity|congruence]. }
    destruct (getitem d i) as [l d'] eqn:G. cbn [fst snd] in *.
    destruct (IH d') as (I1 & I2 & I3).
    destruct (print_groups d' idx) as [out d''] eqn:P. cbn [fst snd] in *.
    destruct Hd' as [Hi Hk]. split; [|split].
    + rewrite I1, (proj1 (Hg i)). f_equal. apply map_ext. intros j.
      rewrite (proj2 (Hg j)). reflexivity.
    + intros j Hj. apply elem_of_cons in Hj as [->|Hj]; [|apply I2, Hj].
      rewrite I3; [rewrite Hi; eauto|]. left. rewrite Hi. eauto.
    + intros k Hcase.
      assert (Hk' : is_Some (d !! k) ∨ k ≠ i).
      { destruct Hcase as [?|Hn]; [left; assumption|].
        right. intros ->. apply Hn. left. }
      rewrite I3, (Hk k Hk'); [reflexivity|].
      destruct Hcase as [Hs|Hn]; [left; rewrite (Hk k Hk'); exact Hs|].
      right. intros Hin. apply Hn. right. exact Hin.
Qed.

(** X6: the printing loop reads the dict at the classes 1, 3 and 9 without
    ever failing: for a class with no sample it prints the empty list,
    and the read leaves the class bound in the dict (to an empty group);
    every other entry of the dict, and the group of every class, is as
    before. *)
Theorem printing_binds_missing_classes (d : gmap nat (list nat)) :
  let r := print_groups d randIdx in
  r.1 = [(1, members d 1); (3, members d 3); (9, members d 9)]%nat ∧
  (∀ i, i ∈ randIdx → d !! i = None → members d i = [] ∧ r.2 !! i = Some []) ∧
  (∀ i, i ∈ randIdx → is_Some (r.2 !! i)) ∧
  (∀ k, is_Some (d !! k) ∨ k ∉ randIdx → r.2 !! k = d !! k) ∧
  (∀ k, members r.2 k = members d k).
Proof.
  intros r. subst r. destruct (print_groups_reads randIdx d) as (R1 & R2 & R3).
  split; [exact R1|]. split; [|split; [exact R2|split; [exact R3|]]].
  - intros i Hi Hn.
    assert (Hm : members d i = []) by (unfold members; rewrite Hn; reflexivity).
    split; [exact Hm|].
    destruct (R2 i Hi) as [l Hl]. rewrite Hl. f_equal.
    pose proof (members_print_groups randIdx d i) as M.
    unfold members at 1 in M. rewrite Hl in M. cbn in M. congruence.
  - intros k. apply members_print_groups.
Qed.

Lemma argmax_from_first_largest (pre a : list R) (best_i : nat) (best : R) :
  (pre ++ a) !! best_i = Some best →
  (best_i < length pre)%nat →
  (∀ j x, (j < length pre)%nat → (pre ++ a) !! j = Some x → x <= best) →
  (∀ j x, (j < best_i)%nat → (pre ++ a) !! j = Some x → x < best) →
  first_largest (pre ++ a) (Vec.argmax_from best_i best (length pre) a).
Proof.
  revert pre best_i best. induction a as [|y a IH]; intros pre best_i best Hb Hlt Hle Hfirst.
  - cbn. exists best. split; [exact Hb|]. split; [|exact Hfirst].
    intros j x Hj. apply (Hle j x); [|exact Hj].
    apply lookup_lt_Some in Hj. rewrite app_nil_r in Hj. exact Hj.
  - cbn [Vec.argmax_from].
    assert (Hy : (pre ++ y :: a) !! length pre = Some y).
    { rewrite lookup_app_r by lia. rewrite Nat.sub_diag. reflexivity. }
    replace (pre ++ y :: a) with ((pre ++ [y]) ++ a) in * by (rewrite <- app_assoc; reflexivity).
    replace (S (length pre)) with (length (pre ++ [y])) by (rewrite length_app; cbn; lia).
    destruct (Rlt_dec best y) as [Hby|Hby].
    + apply IH.
      * exact Hy.
      * rewrite length_app. cbn. lia.
      * intros j x Hj Hx. rewrite length_app in Hj. cbn in Hj.
        destruct (decide (j = length pre)) as [->|N]; [rewrite Hy in Hx; injection Hx as <-; lra|].
        assert (x <= best) by (apply (Hle j x); [lia|exact Hx]). lra.
      * intros j x Hj Hx. assert (x <= best) by (apply (Hle j x); [lia|exact Hx]). lra.
    + apply IH.
      * exact Hb.
      * rewrite length_app. cbn. lia.
      * intros j x Hj Hx. rewrite length_app in Hj. cbn in Hj.
        destruct (decide (j = length pre)) as [->|N]; [rewrite Hy in Hx; injection Hx as <-; lra|].
        apply (Hle j x); [lia|exact Hx].
      * exact Hfirst.
Qed.

Lemma argmax_first_largest (a : list R) (k : nat) :
  Vec.argmax a = Ok k → first_largest a k.
Proof.
  destruct a as [|x a]; cbn; [discriminate|]. intros [= <-].
  apply (argmax_from_first_largest [x] a 0 x).
  - reflexivity.
  - cbn. lia.
  - intros j y Hj Hy. cbn in Hj. assert (j = 0%nat) as -> by lia.
    cbn in Hy. injection Hy as <-. lra.
  - intros j y Hj. lia.
Qed.

(** X7: the label list is built without an exception exactly when no
    label row is empty, and the only exception is [np.argmax]'s
    [ValueError]; the list then has one label per row, the first index
    at which the row has its largest entry. *)
Theorem img_labels_first_largest (imglabel_raw : list (list R)) :
  (is_ValueError (img_labels imglabel_raw) ↔ [] ∈ imglabel_raw) ∧
  (raises (img_labels imglabel_raw) → is_ValueError (img_labels imglabel_raw)) ∧
  (∀ labels, img_labels imglabel_raw = Ok labels →
             Forall2 first_largest imglabel_raw labels).
Proof.
  unfold img_labels. induction imglabel_raw as [|row raw (IH1 & IH2 & IH3)].
  - cbn. split; [|split].
    + split; [intros []|intros Hin; inversion Hin].
    + intros [].
    + intros labels [= <-]. constructor.
  - change (mapM Vec.argmax (row :: raw))
      with (y ← Vec.argmax row; ys ← mapM Vec.argmax raw; mret (y :: ys)).
    destruct row as [|x row].
    + cbn. split; [|split].
      * split; [intros _; left|intros _; exact I].
      * intros _. exact I.
      * discriminate.
    + pose proof (argmax_first_largest (x :: row) _ eq_refl) as Hfl.
      cbn [Vec.argmax mbind result_bind].
      destruct (mapM Vec.argmax raw) as [ys|e]; cbn [mbind result_bind mret result_ret].
      * split; [|split].
        -- split; [intros []|]. intros Hin. apply elem_of_cons in Hin as [?|Hin]; [discriminate|].
           apply IH1 in Hin. destruct Hin.
        -- intros [].
        -- intros labels [= <-]. constructor; [exact Hfl|]. apply IH3. reflexivity.
      * split; [|split].
        -- cbn in IH1. rewrite IH1. split; [intros Hin; right; exact Hin|].
           intros Hin. apply elem_of_cons in Hin as [?|Hin]; [discriminate|exact Hin].
        -- exact IH2.
        -- discriminate.
Qed.

End LabelMoreFacts.

(** ** More on the models *)

Section ModelMoreFacts.

Import Graph Builder Stats.
Local Open Scope R_scope.
Context `{fw : Framework}.

Lemma eval_relu_layer (store : list DenseParams) (env : gmap nat (list R))
    (slot n : nat) (x : Function) (p : list R) :
  eval store env (DenseLayer slot n relu x) = Ok p → Forall (λ v, 0 <= v) p.
Proof.
  cbn [eval]. destruct (eval store env x) as [v|e]; cbn [mbind result_bind]; [|discriminate].
  destruct (store !! slot) as [q|]; [|discriminate].
  destruct (decide (length v = length (W q))); [|discriminate].
  intros [= <-]. apply Forall_forall. intros y Hy.
  apply list_elem_of_fmap in Hy as (z & -> & _). cbn. apply Rmax_l.
Qed.

(** The value of a function that depends on stored parameters only
    through slots the store already has does not change when further
    parameters are allocated. *)
Lemma eval_app (store more : list DenseParams) (env : gmap nat (list R)) (f : Function) :
  well_shaped store f → eval (store ++ more) env f = eval store env f.
Proof.
  induction f as [v|c|slot n act x IH|a IHa b0 IHb|a IHa b0 IHb|a IHa b0 IHb
                  |a IHa b0 IHb|a IHa|a IHa|a IHa b0 IHb]; cbn [eval well_shaped]; intros Hw;
    try reflexivity.
  - destruct Hw as (Hw & p & Hp & _). rewrite (IH Hw).
    rewrite (lookup_app_l_Some _ _ _ _ Hp), Hp. reflexivity.
  - destruct Hw as (Ha & Hb & _). rewrite (IHa Ha), (IHb Hb). reflexivity.
  - destruct Hw as (Ha & Hb & _). rewrite (IHa Ha), (IHb Hb). reflexivity.
  - destruct Hw as (Ha & Hb & _). rewrite (IHa Ha), (IHb Hb). reflexivity.
  - destruct Hw as (Ha & Hb & _). rewrite (IHa Ha), (IHb Hb). reflexivity.
  - rewrite (IHa Hw). reflexivity.
  - rewrite (IHa Hw). reflexivity.
  - destruct Hw as (Ha & Hb). rewrite (IHa Ha), (IHb Hb). reflexivity.
Qed.

Lemma create_model_store (features : Function) (nb : Notebook) :
  store (create_model features nb).2 =
    store nb ++ [dense_init (length (store nb))
                   (output_shape (ElementDivide features (Constant 255))) 32;
                 dense_init (length (store nb) + 1) 32 784].
Proof.
  unfold create_model, Dense, encoding_dim, input_dim. cbn [fst snd store output_shape].
  rewrite length_app, <- app_assoc. reflexivity.
Qed.

Lemma create_deep_model_store (features : Function) (nb : Notebook) :
  let s := length (store nb) in
  store (create_deep_model features nb).2 =
    store nb ++ [dense_init s (output_shape (ElementTimes (Constant (1 / 255)) features)) 128;
                 dense_init (s + 1) 128 64;
                 dense_init (s + 2) 64 32;
                 dense_init (s + 3) 32 64;
                 dense_init (s + 4) 64 128;
                 dense_init (s + 5) 128 784].
Proof.
  intros s. subst s.
  unfold create_deep_model, encoding_dims, decoding_dims, dense_stack, Dense, input_dim.
  cbn [fst snd store output_shape set_encoded_model].
  rewrite !length_app. cbn [length]. rewrite <- !app_assoc. cbn [app].
  repeat (f_equal; try lia).
Qed.

(** X8: building a model only allocates new parameters behind those the
    notebook already has: every parameter block built before keeps its
    slot and its value, so a function built before (the shallow model,
    when the deep one is built after it) evaluates to the same value on
    every input as it did before. *)
Theorem builders_leave_earlier_models (features : Function) (nb : Notebook) :
  let after_shallow := store (create_model features nb).2 in
  let after_deep := store (create_deep_model features nb).2 in
  (∀ slot p, store nb !! slot = Some p →
             after_shallow !! slot = Some p ∧ after_deep !! slot = Some p) ∧
  (∀ (f : Function) (env : gmap nat (list R)),
     well_shaped (store nb) f →
     eval after_shallow env f = eval (store nb) env f ∧
     eval after_deep env f = eval (store nb) env f).
Proof.
  intros after_shallow after_deep. subst after_shallow after_deep.
  rewrite create_model_store. pose proof (create_deep_model_store features nb) as HD.
  cbv zeta in HD. rewrite HD. split.
  - intros slot p Hp. split; apply lookup_app_l_Some; exact Hp.
  - intros f env Hw. split; apply eval_app; exact Hw.
Qed.

(** X9: the architecture the builders allocate for an input of 784
    components.  The shallow builder adds two parameter blocks, a
    784-to-32 encoder and a 32-to-784 decoder; the deep builder adds six,
    of widths 784 to 128 to 64 to 32 to 64 to 128 to 784; in each block
    the weight matrix has one row per input and one column per output
    and the bias one entry per output. *)
Theorem builders_allocate_layers (input : InputVariable) (nb : Notebook) :
  shape input = input_dim →
  (∃ p1 p2,
     store (create_model input nb).2 = store nb ++ [p1; p2] ∧
     has_shape p1 784 32 ∧ has_shape p2 32 784) ∧
  (∃ p1 p2 p3 p4 p5 p6,
     store (create_deep_model input nb).2 = store nb ++ [p1; p2; p3; p4; p5; p6] ∧
     has_shape p1 784 128 ∧ has_shape p2 128 64 ∧ has_shape p3 64 32 ∧
     has_shape p4 32 64 ∧ has_shape p5 64 128 ∧ has_shape p6 128 784).
Proof.
  intros Hshape. unfold input_dim in Hshape. split.
  - rewrite create_model_store. eexists _, _. split; [reflexivity|].
    cbn [output_shape]. rewrite Hshape. split; apply dense_init_shape.
  - pose proof (create_deep_model_store input nb) as HD. cbv zeta in HD. rewrite HD.
    eexists _, _, _, _, _, _. split; [reflexivity|].
    cbn [output_shape]. rewrite Hshape. repeat split; apply dense_init_shape.
Qed.

(** The value of either model on an image of 784 pixels. *)
Lemma model_eval_sigmoid (nb : Notebook) (input : InputVariable)
    (r : Function * Notebook) (store' : list DenseParams) (orig_image : list R) :
  shape input = input_dim →
  r = create_model input nb ∨ r = create_deep_model input nb →
  same_shapes (store r.2) store' →
  length orig_image = input_dim →
  ∃ p, Function_eval store' r.1 orig_image = Ok p ∧
       length p = input_dim ∧
       Forall (λ v, 0 < v < 1) p.
Proof.
  intros Hshape Hr HS Hlen.
  assert (Hrec : reconstructs input nb r).
  { destruct Hr as [-> | ->].
    - apply create_model_reconstructs.
    - apply create_deep_model_encoder. }
  destruct Hrec as (Hw & Harg & Hb & _ & slot & x & Hmodel).
  unfold Function_eval. rewrite Harg.
  destruct (eval_well_shaped store' {[uid input := orig_image]} r.1) as (p & Ep & Lp).
  { eapply well_shaped_same_shapes; eassumption. }
  { apply Hb. cbn. exists orig_image. rewrite lookup_singleton_eq.
    split; [reflexivity|congruence]. }
  exists p. split; [exact Ep|].
  rewrite Hmodel in Lp, Ep. cbn [output_shape] in Lp. split; [exact Lp|].
  apply eval_sigmoid_layer in Ep as [zs ->].
  apply Forall_forall. intros v Hv. apply list_elem_of_fmap in Hv as (z & -> & _).
  apply sigmoid_range.
Qed.

(** The decoded image [model.eval(orig_image)*255] of either model. *)
Lemma decode_image_range (nb : Notebook) (input : InputVariable)
    (r : Function * Notebook) (store' : list DenseParams) (orig_image : list R) :
  shape input = input_dim →
  r = create_model input nb ∨ r = create_deep_model input nb →
  same_shapes (store r.2) store' →
  length orig_image = input_dim →
  ∃ decoded_image,
    decode_image store' r.1 orig_image = Ok decoded_image ∧
    length decoded_image = input_dim ∧
    Forall (λ v, 0 < v < 255) decoded_image.
Proof.
  intros Hshape Hr HS Hlen.
  destruct (model_eval_sigmoid nb input r store' orig_image Hshape Hr HS Hlen)
    as (p & Ep & Lp & Hp).
  unfold decode_image. rewrite Ep. cbn [mbind result_bind].
  eexists. split; [reflexivity|]. split; [rewrite length_map; exact Lp|].
  apply Forall_forall. intros v Hv. apply list_elem_of_fmap in Hv as (q & -> & Hq).
  pose proof (proj1 (Forall_forall _ _) Hp q Hq) as Hq'. cbn in Hq'. lra.
Qed.

(** X10: for the shallow and for the deep model, under the parameters as
    constructed or as a shape-preserving update leaves them, the
    reconstruction of any image of 784 pixels has 784 components, each
    between [0] and [1], and the decoded image
    [model.eval(orig_image)*255] has 784 pixels, each between [0] and
    [255].  The bounds themselves are not excluded: in floating point a
    sigmoid unit can return them. *)
Theorem reconstruction_in_unit_interval (nb : Notebook) (input : InputVariable)
    (r : Function * Notebook) (store' : list DenseParams) (orig_image : list R) :
  shape input = input_dim →
  r = create_model input nb ∨ r = create_deep_model input nb →
  same_shapes (store r.2) store' →
  length orig_image = input_dim →
  ∃ p decoded_image,
    Function_eval store' r.1 orig_image = Ok p ∧
    length p = input_dim ∧
    Forall (λ v, 0 <= v <= 1) p ∧
    decode_image store' r.1 orig_image = Ok decoded_image ∧
    length decoded_image = input_dim ∧
    Forall (λ v, 0 <= v <= 255) decoded_image.
Proof.
  intros Hshape Hr HS Hlen.
  destruct (model_eval_sigmoid nb input r store' orig_image Hshape Hr HS Hlen)
    as (p & Ep & Lp & Hp).
  destruct (decode_image_range nb input r store' orig_image Hshape Hr HS Hlen)
    as (d & Ed & Ld & Hd).
  exists p, d. split; [exact Ep|]. split; [exact Lp|]. split.
  { eapply Forall_impl; [exact Hp|]. cbn. intros; lra. }
  split; [exact Ed|]. split; [exact Ld|].
  eapply Forall_impl; [exact Hd|]. cbn. intros; lra.
Qed.

(** The value of the deep model's encoder on an image of 784 pixels. *)
Lemma encoder_eval_relu (nb : Notebook) (input : InputVariable)
    (store' : list DenseParams) (imgA : list R) :
  shape input = input_dim →
  same_shapes (store (create_deep_model input nb).2) store' →
  length imgA = input_dim →
  ∃ v, encode_image (with_store (create_deep_model input nb).2 store') imgA = Ok v ∧
       length v = encoding_dim ∧
       Forall (λ x, 0 <= x) v.
Proof.
  intros Hshape HS Hlen.
  destruct (create_deep_model_encoder input nb) as (He & Hw & _ & _).
  unfold encode_image. cbn [encoded_model with_store store]. rewrite He.
  unfold Function_eval. cbn [arguments list_union list_difference app uid].
  match goal with
  | |- ∃ v, eval store' ?env ?f = Ok v ∧ _ =>
      destruct (eval_well_shaped store' env f) as (v & Ev & Lv)
  end.
  - eapply well_shaped_same_shapes; eassumption.
  - cbn. split; [exact I|]. exists imgA.
    rewrite lookup_singleton_eq. split; [reflexivity|congruence].
  - exists v. split; [exact Ev|]. split; [exact Lv|].
    apply (eval_relu_layer _ _ _ _ _ _ Ev).
Qed.

(** X11: every component of the encoded vector the deep model's
    [encoded_model] returns for an image of 784 pixels is non-negative:
    the bottleneck is a layer of rectified-linear units. *)
Theorem encoded_vector_nonnegative (nb : Notebook) (input : InputVariable)
    (store' : list DenseParams) (imgA : list R) :
  shape input = input_dim →
  let nb' := (create_deep_model input nb).2 in
  same_shapes (store nb') store' →
  length imgA = input_dim →
  ∃ v, encode_image (with_store nb' store') imgA = Ok v ∧
       length v = encoding_dim ∧
       Forall (λ x, 0 <= x) v.
Proof.
  intros Hshape nb' HS Hlen. subst nb'.
  apply (encoder_eval_relu nb input store' imgA Hshape HS Hlen).
Qed.

End ModelMoreFacts.

Section ModelMoreRuns.

Import Graph Builder Stats.
Local Open Scope R_scope.

Lemma builders_allocate_layers_witness :
  let input := {| uid := 0; shape := 784 |} in
  shape input = input_dim ∧
  ∃ p1 p2,
    store (create_model (fw := top1_framework) input initial_notebook).2 = store initial_notebook ++ [p1; p2] ∧
    has_shape p1 784 32 ∧ has_shape p2 32 784.
Proof.
  intros input. assert (Hs : shape input = input_dim) by reflexivity.
  split; [exact Hs|]. apply (builders_allocate_layers (fw := top1_framework) input initial_notebook Hs).
Defined.

Lemma reconstruction_in_unit_interval_witness :
  let input := {| uid := 0; shape := 784 |} in
  let r := create_deep_model (fw := top1_framework) input initial_notebook in
  shape input = input_dim ∧
  same_shapes (store r.2) (store r.2) ∧
  length (replicate 784 0) = input_dim ∧
  ∃ p, Function_eval (fw := top1_framework) (store r.2) r.1 (replicate 784 0) = Ok p ∧
       Forall (λ v, 0 <= v <= 1) p.
Proof.
  intros input r.
  assert (H1 : shape input = input_dim) by reflexivity.
  assert (H2 : same_shapes (store r.2) (store r.2)) by apply same_shapes_refl.
  assert (H3 : length (replicate 784 0) = input_dim) by apply length_replicate.
  repeat (split; [assumption|]).
  destruct (reconstruction_in_unit_interval (fw := top1_framework) initial_notebook input r
              (store r.2) (replicate 784 0) H1 (or_intror eq_refl) H2 H3)
    as (p & d & Ep & _ & Hp & _).
  exists p. split; assumption.
Defined.

Lemma encoded_vector_nonnegative_witness :
  let input := {| uid := 0; shape := 784 |} in
  let nb' := (create_deep_model (fw := top1_framework) input initial_notebook).2 in
  shape input = input_dim ∧
  same_shapes (store nb') (store nb') ∧
  length (replicate 784 0) = input_dim ∧
  ∃ v, encode_image (fw := top1_framework) (with_store nb' (store nb')) (replicate 784 0) = Ok v ∧
       Forall (λ x, 0 <= x) v.
Proof.
  intros input nb'.
  assert (H1 : shape input = input_dim) by reflexivity.
  assert (H2 : same_shapes (store nb') (store nb')) by apply same_shapes_refl.
  assert (H3 : length (replicate 784 0) = input_dim) by apply length_replicate.
  repeat (split; [assumption|]).
  destruct (encoded_vector_nonnegative (fw := top1_framework) initial_notebook input
              (store nb') (replicate 784 0) H1 H2 H3) as (v & Ev & _ & Hv).
  exists v. split; assumption.
Defined.

End ModelMoreRuns.

(** ** The two comparison cells *)

Section CompareFacts.

Import Graph Builder Inspector Labels Cells Cells2.
Local Open Scope R_scope.
Context `{fw : Framework} `{scipy : Scipy}.

Lemma cell_bind_emit {B : Type} (o : output) (k : unit → Cell B) :
  (emit o ≫= k) = {| outputs := o :: outputs (k ()); outcome := outcome (k ()) |}.
Proof. reflexivity. Qed.

(** The similarity of two vectors of positive entries. *)
Lemma similarity_positive (u v : list R) :
  u ≠ [] → length u = length v →
  Forall (λ x, 0 < x) u → Forall (λ x, 0 < x) v →
  ∃ s, image_pair_cosine_distance u v = Ok (Finite s) ∧ 0 < s <= 1.
Proof.
  intros Hne Hl Hu Hv.
  assert (Hnz : ∀ w : list R, w ≠ [] → Forall (λ x, 0 < x) w → ¬ Vec.is_zero w).
  { intros w Hw Hpos Hz. destruct Hpos as [|x w Hx _]; [contradiction|].
    apply Forall_cons in Hz as [Hz _]. lra. }
  assert (Hne' : v ≠ []) by (destruct u, v; try discriminate; congruence).
  destruct (similarity_finite u v Hl (Hnz u Hne Hu) (Hnz v Hne' Hv)) as [E Hpos].
  eexists. split; [exact E|].
  pose proof (dot_le_norms u v) as [_ Hhi]. pose proof (dot_pos u v Hne Hl Hu Hv) as Hd.
  set (d := Vec.norm u * Vec.norm v) in *.
  assert (Hq : Vec.dot u v / d * d = Vec.dot u v) by (field; lra).
  split.
  - assert (0 < Vec.dot u v / d); [|lra].
    apply (Rmult_lt_reg_r d); [exact Hpos|]. rewrite Hq. lra.
  - assert (Vec.dot u v / d <= 1); [|lra].
    apply (Rmult_le_reg_r d); [exact Hpos|]. rewrite Hq. lra.
Qed.

(** The shared statements run to their end on two images of 784 pixels. *)
Lemma compare_images_shows_both (nb : Notebook) (input : InputVariable)
    (r : Function * Notebook) (store' : list DenseParams) (imgA imgB : list R) :
  shape input = input_dim →
  r = create_model input nb ∨ r = create_deep_model input nb →
  same_shapes (store r.2) store' →
  length imgA = 784%nat → length imgB = 784%nat →
  shows_both_comparisons (compare_images store' r.1 imgA imgB) imgA imgB.
Proof.
  intros Hshape Hr HS HA HB.
  destruct (model_eval_sigmoid nb input r store' imgA Hshape Hr HS HA) as (pA & EA & LA & PA).
  destruct (model_eval_sigmoid nb input r store' imgB Hshape Hr HS HB) as (pB & EB & LB & PB).
  unfold input_dim in LA, LB.
  assert (Hs1 : size imgA = size imgB) by (unfold size; congruence).
  destruct (similarity_positive pA pB) as (s2 & E2 & Hs2).
  { intros ->. discriminate. }
  { congruence. }
  { eapply Forall_impl; [exact PA|]. cbn. intros; lra. }
  { eapply Forall_impl; [exact PB|]. cbn. intros; lra. }
  assert (HR : ∀ img : list R, length img = 784%nat → reshape_28_28 img = Ok img).
  { intros img Hl. unfold reshape_28_28.
    destruct (decide (length img = 784%nat)); [reflexivity|contradiction]. }
  unfold compare_images, plot_image_pair.
  rewrite (image_pair_same_size imgA imgB Hs1), (HR imgA HA), (HR imgB HB), EA, EB.
  rewrite !cell_bind_call_Ok, E2, (HR pA LA), (HR pB LB), !cell_bind_call_Ok.
  rewrite !cell_bind_emit. cbn [outputs outcome emit].
  exists (rsub 1 (cosine imgA imgB)), s2, pA, pB.
  split; [reflexivity|]. split; [reflexivity|].
  split; [apply image_pair_same_size; exact Hs1|].
  split; [exact Hs2|]. split; assumption.
Qed.

Lemma compare_cell_tail (store : list DenseParams) (model : Function)
    (img_data : list (list R)) (label_dict : gmap nat (list nat))
    (iA iB : nat) (rest : list nat) (imgA imgB : list R) :
  members label_dict digit_of_interest = iA :: iB :: rest →
  img_data !! iA = Some imgA →
  img_data !! iB = Some imgB →
  compare_cell store model img_data label_dict = compare_images store model imgA imgB.
Proof.
  intros Hm HA HB. unfold compare_cell.
  rewrite (proj1 (members_getitem label_dict digit_of_interest 0)), Hm.
  unfold image_at. rewrite HA, HB, !cell_bind_call_Ok. reflexivity.
Qed.


Lemma compare_digits_cell_tail (store : list DenseParams) (model : Function)
    (img_data : list (list R)) (label_dict : gmap nat (list nat))
    (iA iB : nat) (restA restB : list nat) (imgA imgB : list R) :
  members label_dict digitA = iA :: restA →
  members label_dict digitB = iB :: restB →
  img_data !! iA = Some imgA →
  img_data !! iB = Some imgB →
  compare_digits_cell store model img_data label_dict = compare_images store model imgA imgB.
Proof.
  intros HmA HmB HA HB. unfold compare_digits_cell.
  pose proof (members_getitem label_dict digitA digitB) as [G1 G2].
  destruct (getitem label_dict digitA) as [digitA_index d1]. cbn [fst snd] in G1, G2.
  pose proof (members_getitem d1 digitB 0) as [G3 _].
  destruct (getitem d1 digitB) as [digitB_index d2]. cbn [fst snd] in G3.
  rewrite G1, HmA, G3, G2, HmB. unfold image_at. cbn [first_index].
  rewrite cell_bind_call_Ok, HA, !cell_bind_call_Ok, HB, cell_bind_call_Ok. reflexivity.
Qed.


End CompareFacts.

Section CompareRuns.

Import Graph Builder Inspector Labels Cells Cells2.
Local Open Scope R_scope.



End CompareRuns.

(** ** Image statistics and the visualization cell *)

Section StatsFacts.

Import Graph Builder Cells Stats.
Local Open Scope R_scope.
Context `{numpy : Numpy}.

Lemma max_from_spec (x : R) (l : list R) :
  max_from x l ∈ x :: l ∧ Forall (λ v, v <= max_from x l) (x :: l).
Proof.
  unfold max_from. revert x. induction l as [|y l IH]; intros x; cbn [foldl].
  - split; [left|]. constructor; [lra|constructor].
  - destruct (IH (Rmax x y)) as [Hin Hall].
    remember (foldl Rmax (Rmax x y) l) as m eqn:Em. clear Em.
    apply Forall_cons in Hall as [Hm Hall].
    pose proof (Rmax_l x y) as Hl. pose proof (Rmax_r x y) as Hr.
    split.
    + apply elem_of_cons in Hin as [E|Hin].
      * subst m. unfold Rmax. destruct (Rle_dec x y); [right; left|left].
      * right. right. exact Hin.
    + constructor; [lra|]. constructor; [lra|exact Hall].
Qed.

Lemma min_from_spec (x : R) (l : list R) :
  min_from x l ∈ x :: l ∧ Forall (λ v, min_from x l <= v) (x :: l).
Proof.
  unfold min_from. revert x. induction l as [|y l IH]; intros x; cbn [foldl].
  - split; [left|]. constructor; [lra|constructor].
  - destruct (IH (Rmin x y)) as [Hin Hall].
    remember (foldl Rmin (Rmin x y) l) as m eqn:Em. clear Em.
    apply Forall_cons in Hall as [Hm Hall].
    pose proof (Rmin_l x y) as Hl. pose proof (Rmin_r x y) as Hr.
    split.
    + apply elem_of_cons in Hin as [E|Hin].
      * subst m. unfold Rmin. destruct (Rle_dec x y); [left|right; left].
      * right. right. exact Hin.
    + constructor; [lra|]. constructor; [lra|exact Hall].
Qed.

Lemma sum_bounds (a b : R) (l : list R) :
  Forall (λ v, a <= v <= b) l →
  INR (length l) * a <= Vec.sum l <= INR (length l) * b.
Proof.
  unfold Vec.sum. induction 1 as [|v l Hv _ IH].
  - cbn. lra.
  - cbn [length foldr]. rewrite S_INR. lra.
Qed.

Lemma StronglySorted_lookup_le (l : list R) (i j : nat) (a c : R) :
  StronglySorted Rle l → (i < j)%nat →
  l !! i = Some a → l !! j = Some c → a <= c.
Proof.
  intros HS. revert i j. induction HS as [|x l HS IH Hx]; intros i j Hij Hi Hj.
  - discriminate.
  - destruct j as [|j]; [lia|]. cbn in Hj. destruct i as [|i].
    + cbn in Hi. injection Hi as <-.
      apply (proj1 (Forall_forall _ _) Hx), (list_elem_of_lookup_2 _ _ _ Hj).
    + cbn in Hi. apply (IH i j); [lia|assumption..].
Qed.

(** The array [np.median] sorts: its entries are the pixels, in
    ascending order. *)
Lemma sorted_pixels (l : list R) :
  length (merge_sort Rle l) = length l ∧
  (∀ i x, merge_sort Rle l !! i = Some x → x ∈ l) ∧
  (∀ i j a c, (i < j)%nat → merge_sort Rle l !! i = Some a →
              merge_sort Rle l !! j = Some c → a <= c).
Proof.
  pose proof (merge_sort_Permutation Rle l) as HP.
  assert (Htrans : Transitive Rle) by (intros x y z ? ?; lra).
  assert (Htotal : Total Rle).
  { intros x y. destruct (Rle_dec x y); [left|right]; lra. }
  pose proof (StronglySorted_merge_sort Rle l) as HS.
  split; [rewrite HP; reflexivity|]. split.
  - intros i x Hx. rewrite <- HP. apply (list_elem_of_lookup_2 _ _ _ Hx).
  - intros i j a c. apply StronglySorted_lookup_le, HS.
Qed.


Lemma print_image_stats_Ok (img : list R) (text : string) (st : ImageStats) :
  image_stats img = Ok st →
  print_image_stats img text =
    {| outputs := [Message text;
                   Printed "Max" (Finite (stat_max st));
                   Printed "Median" (Finite (stat_median st));
                   Printed "Mean" (Finite (stat_mean st));
                   Printed "Min" (Finite (stat_min st))];
       outcome := Ok () |}.
Proof. intros E. unfold print_image_stats. rewrite E. reflexivity. Qed.

Lemma cell_bind_Ok {A B : Type} (o : list output) (a : A) (k : A → Cell B) :
  ({| outputs := o; outcome := Ok a |} ≫= k) =
    {| outputs := o ++ outputs (k a); outcome := outcome (k a) |}.
Proof. reflexivity. Qed.

(** The smallest and the largest pixel of a non-empty image whose pixels
    lie between two bounds lie between them too. *)
Lemma image_stats_within (lo hi : R) (img : list R) :
  img ≠ [] → Forall (λ v, lo <= v <= hi) img →
  ∃ st, image_stats img = Ok st ∧ lo <= stat_min st ∧ stat_max st <= hi.
Proof.
  intros Hne Hall. destruct img as [|x l]; [contradiction|].
  eexists. split; [reflexivity|]. cbn [stat_max stat_min].
  destruct (max_from_spec x l) as [Hmax _].
  destruct (min_from_spec x l) as [Hmin _].
  pose proof (proj1 (Forall_forall _ _) Hall _ Hmax) as B1.
  pose proof (proj1 (Forall_forall _ _) Hall _ Hmin) as B2. cbn in B1, B2.
  split; lra.
Qed.

End StatsFacts.

Section VisualizeCellFacts.

Import Graph Builder Cells Stats.
Local Open Scope R_scope.
Context `{fw : Framework} `{numpy : Numpy}.


End VisualizeCellFacts.

Section VisualizeCellRuns.

Import Graph Builder Cells Stats.
Local Open Scope R_scope.


End VisualizeCellRuns.

(** ** The batch of images with labels *)

Section VisualizeFacts.

Import Graph Builder Training Labels LabelSpec Visualize.
Local Open Scope R_scope.

Lemma img_labels_rows (raw : list (list R)) (labels : list nat) :
  img_labels raw = Ok labels →
  Forall2 (λ row k, Vec.argmax row = Ok k) raw labels.
Proof.
  unfold img_labels. revert labels. induction raw as [|row raw IH]; intros labels.
  - intros [= <-]. constructor.
  - change (mapM Vec.argmax (row :: raw))
      with (y ← Vec.argmax row; ys ← mapM Vec.argmax raw; mret (y :: ys)).
    destruct (Vec.argmax row) as [y|e] eqn:Ey; cbn [mbind result_bind]; [|discriminate].
    destruct (mapM Vec.argmax raw) as [ys|e]; cbn [mbind result_bind mret result_ret];
      [|discriminate].
    intros [= <-]. constructor; [exact Ey|]. apply IH. reflexivity.
Qed.

Lemma first_largest_unique (a : list R) (k k' : nat) :
  first_largest a k → first_largest a k' → k = k'.
Proof.
  intros (m & Hk & Hle & Hlt) (m' & Hk' & Hle' & Hlt').
  destruct (lt_eq_lt_dec k k') as [[Hc|E]|Hc]; [|exact E|].
  - pose proof (Hlt' k m Hc Hk). pose proof (Hle k' m' Hk'). lra.
  - pose proof (Hlt k' m' Hc Hk'). pose proof (Hle' k m Hk). lra.
Qed.

Lemma read_viz_data_rows {Rd : Type} `{source : MinibatchSource Rd} (reader_eval : Rd)
    (nb : Notebook) :
  let samples := (read reader_eval viz_minibatch_size).1 in
  let viz := (read_viz_data reader_eval nb).1.1 in
  img_data viz = map field_features samples ∧
  imglabel_raw viz = map field_labels samples ∧
  (read_viz_data reader_eval nb).1.2 = (read reader_eval viz_minibatch_size).2.
Proof.
  unfold read_viz_data, Input, next_minibatch. cbn [uid].
  destruct (read reader_eval viz_minibatch_size) as [samples rd].
  cbn [fst snd img_data imglabel_raw next_uid]. unfold minibatch_value. cbn [streams].
  rewrite !lookup_fmap.
  rewrite lookup_insert_ne by lia. rewrite lookup_insert_eq, lookup_insert_eq.
  repeat split; reflexivity.
Qed.

(** X16: the cell that reads images with their labels maps two distinct
    input variables to the two fields of the same 50 records, so row [i]
    of [img_data] and row [i] of [imglabel_raw] come from one record; the
    label dict built from [imglabel_raw] therefore files index [i] under
    digit [k] exactly when record [i] of the batch has the first largest
    entry of its label row at [k], and [img_data[i]] is the image of
    that record. *)
Theorem label_dict_indexes_images {Rd : Type} `{source : MinibatchSource Rd}
    (reader_eval : Rd) (nb : Notebook) :
  let samples := (read reader_eval viz_minibatch_size).1 in
  let viz := (read_viz_data reader_eval nb).1.1 in
  img_data viz = map field_features samples ∧
  imglabel_raw viz = map field_labels samples ∧
  ∀ labels, img_labels (imglabel_raw viz) = Ok labels →
    length labels = length samples ∧
    ∀ k i, i ∈ members (label_dict labels) k ↔
           ∃ x, samples !! i = Some x ∧
                img_data viz !! i = Some (field_features x) ∧
                first_largest (field_labels x) k.
Proof.
  intros samples viz.
  destruct (read_viz_data_rows reader_eval nb) as (Hi & Hl & _).
  fold samples viz in Hi, Hl.
  split; [exact Hi|]. split; [exact Hl|].
  intros labels E. apply img_labels_rows in E. rewrite Hl in E.
  pose proof (Forall2_length _ _ _ E) as Hlen. rewrite length_map in Hlen.
  split; [symmetry; exact Hlen|].
  intros k i. rewrite elem_of_members_label_dict. split.
  - intros Hk.
    destruct (Forall2_lookup_r _ _ _ _ _ E Hk) as (row & Hrow & Ha).
    rewrite list_lookup_fmap in Hrow.
    destruct (samples !! i) as [x|] eqn:Hx; [|discriminate].
    cbn in Hrow. injection Hrow as <-.
    exists x. split; [reflexivity|]. split.
    + rewrite Hi, list_lookup_fmap, Hx. reflexivity.
    + apply argmax_first_largest. exact Ha.
  - intros (x & Hx & _ & Hfl).
    assert (Hrow : map field_labels samples !! i = Some (field_labels x)).
    { rewrite list_lookup_fmap, Hx. reflexivity. }
    destruct (Forall2_lookup_l _ _ _ _ _ E Hrow) as (k' & Hk' & Ha).
    apply argmax_first_largest in Ha.
    rewrite (first_largest_unique _ _ _ Hfl Ha). exact Hk'.
Qed.

(** X17: the two reading cells draw from the one reader [reader_eval]
    ([reader_viz] is created but never read): over a test file read in
    order, the first cell gets the images of records 0 to 49, and the
    images with labels are those of records 50 to 99, row [i] being
    record [50 + i]. *)
Theorem viz_batch_follows_eval_batch (file : list Sample) (key : nat) (nb : Notebook) :
  let '(first_images, viz, reader_eval) := read_both file key nb in
  first_images = map field_features (take 50 file) ∧
  img_data viz = map field_features (take 50 (drop 50 file)) ∧
  imglabel_raw viz = map field_labels (take 50 (drop 50 file)) ∧
  cursor reader_eval = Nat.min 100 (length file) ∧
  ∀ i, (i < 50)%nat →
       img_data viz !! i = field_features <$> file !! (50 + i)%nat ∧
       imglabel_raw viz !! i = field_labels <$> file !! (50 + i)%nat.
Proof.
  unfold read_both, read_eval_images.
  unfold next_minibatch at 1. cbn [read sweep_source create_test_reader records cursor].
  pose proof (read_viz_data_rows
                {| records := file; cursor := Nat.min (0 + Stats.eval_minibatch_size) (length file) |}
                nb) as HR.
  destruct (read_viz_data _ nb) as [[viz rd] nb'].
  cbn [fst snd read sweep_source records cursor] in HR.
  destruct HR as (Hi & Hl & Hrd).
  change Stats.eval_minibatch_size with 50%nat in *.
  change viz_minibatch_size with 50%nat in *.
  assert (Hdrop : drop (Nat.min (0 + 50) (length file)) file = drop 50 file).
  { destruct (le_lt_dec 50 (length file)) as [Hge|Hlt].
    - rewrite Nat.min_l by lia. reflexivity.
    - rewrite Nat.min_r by lia. rewrite !drop_ge by lia. reflexivity. }
  rewrite Hdrop in Hi, Hl.
  split.
  { unfold minibatch_value. cbn [streams]. rewrite lookup_fmap, lookup_singleton_eq.
    rewrite drop_0. reflexivity. }
  split; [exact Hi|]. split; [exact Hl|]. split.
  { rewrite Hrd. cbn [cursor]. lia. }
  intros i Hlt. rewrite Hi, Hl, !list_lookup_fmap, !lookup_take_lt, !lookup_drop by lia.
  split; reflexivity.
Qed.

End VisualizeFacts.

(** ** The whole recipe *)

Section RecipeFacts.

Import Graph Builder Training Shapes Steps.
Local Open Scope R_scope.
Context {RdT RdE T : Type}.
Context `{source_train : MinibatchSource RdT} `{source_test : MinibatchSource RdE}.
Context `{api : TrainerAPI T} `{laws : !TrainerLaws T} `{shapes : !ShapePreserving T}.
Context `{fw : Framework}.

Lemma eval_errors_range (n : nat) (test_input_map : gmap nat Stream) (trainer : T)
    (reader_test : RdE) :
  Forall (λ e, 0 <= e <= 1) (eval_errors n test_input_map trainer reader_test).
Proof.
  revert trainer reader_test. induction n as [|n IH]; intros trainer reader_test;
    cbn [eval_errors]; [constructor|].
  destruct (next_minibatch reader_test (Z.to_nat test_minibatch_size) test_input_map)
    as [data rd].
  pose proof (test_minibatch_range trainer data) as Hr.
  destruct (test_minibatch trainer data) as [e t']. cbn [fst] in Hr.
  constructor; [exact Hr|apply IH].
Qed.

Lemma test_phase_range (input label : InputVariable) (trainer : T) (reader_test : RdE) :
  0 <= (test_phase input label trainer reader_test).1 <= 100.
Proof.
  rewrite test_phase_error.
  pose proof (eval_errors_range 312 (features_map input label) trainer reader_test) as Hr.
  assert (Hlen : length (eval_errors 312 (features_map input label) trainer reader_test)
                 = 312%nat).
  { pose proof (test_phase_value input label trainer reader_test) as HV.
    destruct (test_phase input label trainer reader_test) as [te st].
    cbv zeta in HV. apply HV. }
  revert Hr Hlen.
  generalize (eval_errors 312 (features_map input label) trainer reader_test).
  intros errors Hr Hlen.
  assert (Hb : Forall (λ v, 0 <= v <= 32) (map (λ e, e * 32) errors)).
  { apply Forall_forall. intros v Hv. apply list_elem_of_fmap in Hv as (e & -> & He).
    pose proof (proj1 (Forall_forall _ _) Hr e He) as B. cbn in B. lra. }
  apply sum_bounds in Hb. rewrite length_map, Hlen in Hb.
  assert (HI : INR 312 = 312) by (rewrite INR_IZR_INZ; reflexivity).
  rewrite HI in Hb. change (312 * 32)%Z with 9984%Z.
  set (t := Vec.sum (map (λ e, e * 32) errors)) in *. lra.
Qed.

(** X18: a run of [train_and_test] with either builder, under a learner
    whose updates keep the shapes of the parameters.  What it returns is
    the model as built, the average of the progress printer after the
    4687 training steps times [100], and the error of the evaluation
    phase under the trained parameters, both between [0] and [100]; the
    notebook then holds the parameters the 4687 steps leave.  Under
    these the returned model reconstructs any image of 784 pixels as 784
    numbers between [0] and [1]; after a run with [create_deep_model]
    the encoder moreover returns 32 non-negative numbers for the
    image. *)
Theorem trained_model_runs `{unbounded : !Unbounded RdT} (reader_train : RdT)
    (reader_test : RdE) (nb : Notebook) (img : list R)
    (model_func : Function → Notebook → Function * Notebook) :
  length img = 784%nat →
  model_func = create_model ∨ model_func = create_deep_model →
  let input := (Input input_dim nb).1 in
  let label := (Input input_dim (Input input_dim nb).2).1 in
  let r := model_func (Var input) (Input input_dim (Input input_dim nb).2).2 in
  let trainer :=
    Trainer r.1 (loss_of r.1 (target_of label)) (ClassificationError r.1 (target_of label))
      (adam_sgd (parameters_of r.1)) (store r.2) in
  let steps := training_steps 4687 (features_map input label) trainer reader_train in
  let tested := test_phase input label (trained trainer steps) reader_test in
  let nb' := with_store r.2 (parameters (trained trainer steps)) in
  ∃ avg rt,
    train_and_test reader_train reader_test model_func nb =
      (Ok (r.1, avg * 100, tested.1), (nb', rt, test_reader tested.2)) ∧
    avg_metric_since_start (progress (ProgressPrinter_new 0) steps) = Ok avg ∧
    0 <= avg * 100 <= 100 ∧ 0 <= tested.1 <= 100 ∧
    (∃ p, Function_eval (store nb') r.1 img = Ok p ∧
          length p = 784%nat ∧ Forall (λ v, 0 <= v <= 1) p) ∧
    (model_func = create_deep_model →
     ∃ v, encode_image nb' img = Ok v ∧
          length v = 32%nat ∧ Forall (λ x, 0 <= x) v).
Proof.
  intros Hlen Hf input label r trainer steps tested nb'.
  destruct (train_and_test_steps reader_train reader_test model_func nb)
    as (avg & rt & Ha & Hr & E).
  fold input label r trainer steps tested nb' in Ha, Hr, E.
  assert (Hshape : shape input = input_dim) by reflexivity.
  set (nb2 := (Input input_dim (Input input_dim nb).2).2) in *.
  assert (HS : same_shapes (store r.2) (parameters (trained trainer steps))).
  { destruct (training_steps_inv (λ t, same_shapes (store r.2) (parameters t))
                (λ _ : RdT, True) (features_map input label)) with (n := 4687%nat)
                (trainer := trainer) (reader_train := reader_train) as [Ht _].
    - intros t0 d0 H0. eapply same_shapes_trans; [exact H0|apply train_minibatch_shapes].
    - intros; exact I.
    - subst trainer. rewrite Trainer_parameters. apply same_shapes_refl.
    - exact I.
    - exact Ht. }
  exists avg, rt. split; [exact E|]. split; [exact Ha|]. split; [exact Hr|].
  split; [apply test_phase_range|]. split.
  - destruct (model_eval_sigmoid nb2 input r (parameters (trained trainer steps)) img
                Hshape) as (p & Ep & Lp & Hp); [|exact HS|exact Hlen|].
    { subst r. destruct Hf as [-> | ->]; [left|right]; reflexivity. }
    exists p. split; [exact Ep|]. split; [exact Lp|].
    eapply Forall_impl; [exact Hp|]. cbn. intros; lra.
  - intros Hd. subst nb' r. rewrite Hd in *.
    apply (encoder_eval_relu nb2 input _ img Hshape HS Hlen).
Qed.

End RecipeFacts.

Section RecipeRuns.

Import Graph Builder Training Shapes Steps.
Local Open Scope R_scope.

Lemma frozen_shape_preserving : ShapePreserving FrozenTrainer.
Proof.
  split.
  - reflexivity.
  - intros t data. apply same_shapes_refl.
Qed.

Lemma trained_model_runs_witness :
  let reader_train := {| the_record := blank_sample; samples_drawn := 0 |} in
  let reader_test := create_test_reader (replicate (Z.to_nat 10000) blank_sample) in
  length (replicate 784 0) = 784%nat ∧
  ∃ model train_error test_error nb' rt re,
    train_and_test (T := FrozenTrainer) reader_train reader_test
      (create_deep_model (fw := top1_framework)) initial_notebook =
      (Ok (model, train_error, test_error), (nb', rt, re)) ∧
    0 <= test_error <= 100 ∧
    ∃ v, encode_image (fw := top1_framework) nb' (replicate 784 0) = Ok v ∧
         length v = 32%nat.
Proof.
  intros reader_train reader_test.
  assert (H1 : length (replicate 784 0) = 784%nat) by apply length_replicate.
  split; [exact H1|].
  destruct (trained_model_runs (T := FrozenTrainer) (laws := frozen_trainer_laws)
              (shapes := frozen_shape_preserving) (fw := top1_framework)
              (unbounded := single_record_unbounded)
              reader_train reader_test initial_notebook (replicate 784 0)
              create_deep_model H1 (or_intror eq_refl))
    as (avg & rt & E & _ & _ & Hte & _ & Henc).
  destruct (Henc eq_refl) as (v & Ev & Lv & _).
  eexists _, _, _, _, _, _. split; [exact E|]. split; [exact Hte|].
  exists v. split; assumption.
Defined.

End RecipeRuns.
